(** * Supabase persistence service: a shallow embedding and its properties

    The development embeds [app/lib/services/supabase-persistence.ts]
    (class [SupabasePersistenceService]) as functions in a state-and-exception
    monad.  The state is the service object ([this]) together with the world
    it talks to: the remote store behind the Supabase client, the browser's
    [localStorage], the wall clock and the network.

    Modelling conventions.
    - An [async] method is run to completion: every [await] is sequenced.
      The one place where interleaving matters ([ensureUser]) is embedded
      as a task that advances one [await] at a time.
    - A remote call either reaches the store ([NetOk]), resolves to
      [{ data: null, error }] ([NetError]) or rejects ([NetThrow]); which of
      the three happens at the n-th call is given by the oracle [faults].
      A call that does not reach the store leaves the store as it was.
    - [Date.now()] and [new Date()] read the oracle [clock]; timestamps are
      integers (milliseconds), also where the source renders ISO text.
    - [JSON.stringify] of the queue is kept abstract: [localStorage] holds
      the queue itself under the key the source uses.  The entries are
      plain data (strings, numbers, booleans, arrays of strings), which
      [JSON.stringify] always serialises.
    - [localStorage.setItem] throws when the browser refuses the write
      (quota reached, storage disabled); whether the n-th write is refused
      is given by the oracle [refuses] of the storage.
    - A string is held as its UTF-8 bytes; [String_length] counts UTF-16
      code units, as [.length] does.
    - Arguments are values: what a caller passes to a method is not
      changed by the caller afterwards.
    - The schema ([~/types/database]) is not part of the sources; the columns
      are those the service reads and writes, and whether [users] has a
      uniqueness constraint on [clerk_user_id] is a parameter of the world. *)

From Stdlib Require Import ZArith DecimalString.
From stdpp Require Import base numbers option list strings gmap sorting.

(** ** Entity interfaces (TypeScript [interface]s of the source) *)

Module UserContext.
Record t := mk { userId : string; clerkUserId : string }.
End UserContext.

Inductive Role := user | assistant | system.

(** [Record<string, any>] and [any] payloads are opaque JSON text. *)
Definition Json := string.

Module ChatMessage.
Record t := mk {
  id : option string;
  projectId : string;
  role : Role;
  content : string;
  modelUsed : option string;
  tokensUsed : option Z;
  responseTimeMs : option Z;
  generatedScreens : option (list string)
}.
End ChatMessage.

Module DesignFile.
Record t := mk {
  id : option string;
  projectId : string;
  filePath : string;
  fileType : string;
  content : string;
  fileSize : option Z;
  lastModified : option Z
}.
End DesignFile.

Module ProjectFile.
Record t := mk {
  id : option string;
  projectId : string;
  filePath : string;
  content : string;
  isBinary : option bool;
  mimeType : option string;
  fileSize : option Z;
  isDeleted : option bool
}.
End ProjectFile.

Module UserSettings.
Record t := mk {
  theme : option string;
  providerSettings : option Json;
  autoEnabledProviders : option (list string);
  mcpSettings : option Json;
  githubConnection : option Json;
  gitlabConnection : option Json;
  vercelConnection : option Json;
  netlifyConnection : option Json;
  supabaseConnection : option Json;
  viewedFeatures : option (list string)
}.
End UserSettings.

(** [Message] of the [ai] package, as far as [getChatHistory] builds it. *)
Module Message.
Record t := mk { id : string; role : Role; content : string }.
End Message.

(** ** Rows of the remote store *)

Module UsersRow.
Record t := mk {
  id : string;
  clerk_user_id : string;
  email : string;
  full_name : option string;
  last_login_at : Z
}.
End UsersRow.

Module ChatRow.
Record t := mk {
  id : string;
  project_id : string;
  user_id : string;
  role : Role;
  content : string;
  model_used : option string;
  tokens_used : option Z;
  response_time_ms : option Z;
  generated_screens : list string;
  created_at : Z
}.
End ChatRow.

Module ProjectsRow.
Record t := mk {
  id : string;
  user_id : string;
  name : string;
  description : option string;
  status : string;
  canvas_state : option Json;
  updated_at : Z
}.
End ProjectsRow.

Module DesignRow.
Record t := mk {
  id : string;
  project_id : string;
  user_id : string;
  file_path : string;
  file_type : string;
  content : option string;
  file_size : option Z;
  last_modified : Z
}.
End DesignRow.

Module FilesRow.
Record t := mk {
  id : string;
  project_id : string;
  user_id : string;
  file_path : string;
  content : option string;
  is_binary : bool;
  mime_type : option string;
  file_size : Z;
  is_deleted : bool;
  deleted_at : option Z
}.
End FilesRow.

Module SettingsRow.
Record t := mk {
  user_id : string;
  theme : option string;
  provider_settings : option Json;
  auto_enabled_providers : option (list string);
  mcp_settings : option Json;
  github_connection : option Json;
  gitlab_connection : option Json;
  vercel_connection : option Json;
  netlify_connection : option Json;
  supabase_connection : option Json;
  viewed_features : option (list string)
}.
End SettingsRow.

Record Database := mkDatabase {
  users : list UsersRow.t;
  chat_history : list ChatRow.t;
  projects : list ProjectsRow.t;
  design_files : list DesignRow.t;
  project_files : list FilesRow.t;
  user_settings : list SettingsRow.t
}.

Definition empty_db : Database := mkDatabase [] [] [] [] [] [].

(** ** The offline queue *)

(** [queueOperation] is private and has three call sites, each passing its
    own method name with its own argument; the pair [(type, data)] of a
    queue entry is therefore a tagged union, and [op_type] gives the tag. *)
Inductive Payload :=
| ChatMessageData (m : ChatMessage.t)
| DesignFileData (f : DesignFile.t)
| ProjectFileData (f : ProjectFile.t).

Record QueuedOperation := mkOp { data : Payload; timestamp : Z }.

Definition op_type (o : QueuedOperation) : string :=
  match data o with
  | ChatMessageData _ => "saveChatMessage"
  | DesignFileData _ => "saveDesignFile"
  | ProjectFileData _ => "saveProjectFile"
  end.

(** ** The service object and its world *)

Record Service := mkService {
  supabase : bool;
  userContext : option UserContext.t;
  isOnline : bool;
  offlineQueue : list QueuedOperation
}.

Inductive Verb := SELECT | INSERT | UPDATE | UPSERT | DELETE.

Record Request := mkRequest { verb : Verb; table : string }.

Inductive Outcome := NetOk | NetError | NetThrow.

(** The browser's [Storage] object: what it holds, which of its writes it
    refuses, and how many writes it has seen. *)
Record Storage := mkStorage {
  items : gmap string (list QueuedOperation);
  refuses : nat → bool;
  writes : nat
}.

Record World := mkWorld {
  db : Database;
  uuids : nat;
  users_clerk_unique : bool;
  requests : list Request;
  faults : nat → Outcome;
  clock : nat → Z;
  ticks : nat;
  localStorage : option Storage;
  listening : bool
}.

Record State := mkState { this : Service; world : World }.

Inductive Err :=
| NotInitialized
| NotAuthenticated
| PostgrestError (code : string)
| FetchFailed
| TypeError
| QuotaExceededError.

Inductive Completion (A : Type) :=
| Normal (a : A)
| Thrown (e : Err).
Arguments Normal {A} a.
Arguments Thrown {A} e.

Definition M (A : Type) : Type := State → Completion A * State.

Definition ret {A} (a : A) : M A := λ st, (Normal a, st).

Definition bind {A B} (m : M A) (k : A → M B) : M B :=
  λ st, match m st with
        | (Normal a, st') => k a st'
        | (Thrown e, st') => (Thrown e, st')
        end.

Definition throw {A} (e : Err) : M A := λ st, (Thrown e, st).

Definition try_catch {A} (m : M A) (handler : Err → M A) : M A :=
  λ st, match m st with
        | (Normal a, st') => (Normal a, st')
        | (Thrown e, st') => handler e st'
        end.

Notation "'let*' x := m 'in' k" := (bind m (λ x, k))
  (at level 10, x pattern, m at level 100, k at level 200).
Notation "m ;;; k" := (bind m (λ _, k))
  (at level 100, k at level 200, right associativity).

Definition get_this : M Service := λ st, (Normal (this st), st).
Definition set_this (s : Service) : M unit :=
  λ st, (Normal (), mkState s (world st)).
Definition get_world : M World := λ st, (Normal (world st), st).
Definition set_world (w : World) : M unit :=
  λ st, (Normal (), mkState (this st) w).

(** ** World primitives *)

Definition set_db (d : Database) (w : World) : World :=
  mkWorld d (uuids w) (users_clerk_unique w) (requests w) (faults w)
          (clock w) (ticks w) (localStorage w) (listening w).

Definition set_localStorage (ls : option Storage) (w : World) : World :=
  mkWorld (db w) (uuids w) (users_clerk_unique w) (requests w) (faults w)
          (clock w) (ticks w) ls (listening w).

Definition log_request (r : Request) (w : World) : World :=
  mkWorld (db w) (uuids w) (users_clerk_unique w) (requests w ++ [r])
          (faults w) (clock w) (ticks w) (localStorage w) (listening w).

Definition tick (w : World) : World :=
  mkWorld (db w) (uuids w) (users_clerk_unique w) (requests w) (faults w)
          (clock w) (S (ticks w)) (localStorage w) (listening w).

Definition bump_uuid (w : World) : World :=
  mkWorld (db w) (S (uuids w)) (users_clerk_unique w) (requests w) (faults w)
          (clock w) (ticks w) (localStorage w) (listening w).

(** [Date.now()] *)
Definition Date_now : M Z :=
  λ st, let w := world st in
        (Normal (clock w (ticks w)), mkState (this st) (tick w)).

Definition string_of_Z (z : Z) : string :=
  NilZero.string_of_int (Z.to_int z).

Definition string_of_nat (n : nat) : string :=
  NilZero.string_of_uint (Nat.to_uint n).

(** Identifiers the store generates for new rows: fresh, one per insert. *)
Definition gen_random_uuid (n : nat) : string := "uuid-" +:+ string_of_nat n.

(** ** The Supabase client

    A response is [{ data, error }].  [remote] issues one request: it is
    logged, the oracle decides whether it reaches the store, and [exec]
    is what the store does with it. *)

Definition Response (A : Type) : Type := option A * option Err.

Definition remote {A} (r : Request) (exec : World → Response A * World)
    : M (Response A) :=
  λ st,
    let w := world st in
    let w1 := log_request r w in
    match faults w (length (requests w)) with
    | NetOk => let '(resp, w2) := exec w1 in (Normal resp, mkState (this st) w2)
    | NetError => (Normal (None, Some FetchFailed), mkState (this st) w1)
    | NetThrow => (Thrown FetchFailed, mkState (this st) w1)
    end.

(** Time as the store sees it, for columns it fills in itself. *)
Definition db_now (w : World) : Z * World := (clock w (ticks w), tick w).

(** Column setters of [Database]. *)
Definition set_users (v : list UsersRow.t) (d : Database) : Database :=
  mkDatabase v (chat_history d) (projects d) (design_files d)
             (project_files d) (user_settings d).
Definition set_chat_history (v : list ChatRow.t) (d : Database) : Database :=
  mkDatabase (users d) v (projects d) (design_files d)
             (project_files d) (user_settings d).
Definition set_projects (v : list ProjectsRow.t) (d : Database) : Database :=
  mkDatabase (users d) (chat_history d) v (design_files d)
             (project_files d) (user_settings d).
Definition set_design_files (v : list DesignRow.t) (d : Database) : Database :=
  mkDatabase (users d) (chat_history d) (projects d) v
             (project_files d) (user_settings d).
Definition set_project_files (v : list FilesRow.t) (d : Database) : Database :=
  mkDatabase (users d) (chat_history d) (projects d) (design_files d)
             v (user_settings d).
Definition set_user_settings (v : list SettingsRow.t) (d : Database) : Database :=
  mkDatabase (users d) (chat_history d) (projects d) (design_files d)
             (project_files d) v.

(** JavaScript truthiness of the values the source tests with [||]. *)
Definition truthy_string (s : string) : bool :=
  match s with EmptyString => false | _ => true end.

Definition or_string (o : option string) (alt : string) : string :=
  match o with
  | Some s => if truthy_string s then s else alt
  | None => alt
  end.

Definition or_Z (o : option Z) (alt : Z) : Z :=
  match o with
  | Some n => if (n =? 0)%Z then alt else n
  | None => alt
  end.

(** The UTF-16 code units a byte of UTF-8 text stands for: one for the
    first byte of a character of one to three bytes, two (a surrogate pair)
    for the first byte of a character of four bytes, none for a continuation
    byte. *)
Definition code_units (c : Ascii.ascii) : nat :=
  let b := Ascii.nat_of_ascii c in
  if b <? 128 then 1
  else if b <? 192 then 0
  else if b <? 240 then 1
  else 2.

(** [s.length] *)
Fixpoint String_length (s : string) : Z :=
  match s with
  | EmptyString => 0
  | String c s' => Z.of_nat (code_units c) + String_length s'
  end.

(** A column left out of an upsert payload ([undefined] is dropped when the
    payload is serialised) keeps its stored value on conflict. *)
Definition keep {A} (new old : option A) : option A :=
  match new with Some v => Some v | None => old end.

(** ** Construction *)

(** What the module and the constructor read from their environment. *)
Record Env := mkEnv {
  supabaseUrl : option string;
  supabaseAnonKey : option string;
  createClient_throws : bool;
  has_window : bool;
  navigator_onLine : option bool
}.

Definition truthy_env (o : option string) : bool :=
  match o with Some s => truthy_string s | None => false end.

(** [new SupabasePersistenceService()]: field initialisers, then the
    constructor body.  The second component tells whether the [online] and
    [offline] listeners were registered on [window]. *)
Definition constructor (e : Env) : Service * bool :=
  let isOnline0 := default true (navigator_onLine e) in
  let client :=
    if truthy_env (supabaseUrl e) && truthy_env (supabaseAnonKey e)
    then negb (createClient_throws e)
    else false in
  (mkService client None isOnline0 [], has_window e).

(** A page (re)load: the module is evaluated again and the singleton is
    constructed afresh; the store, the clock and [localStorage] persist. *)
Definition restart (e : Env) (st : State) : State :=
  let '(s, l) := constructor e in
  let w := world st in
  mkState s (mkWorld (db w) (uuids w) (users_clerk_unique w) (requests w)
                     (faults w) (clock w) (ticks w) (localStorage w) l).

Definition setUserContext (context : UserContext.t) : M unit :=
  let* s := get_this in
  set_this (mkService (supabase s) (Some context) (isOnline s) (offlineQueue s)).

(** ** Offline support *)

Definition QUEUE_KEY : string := "supabase_offline_queue".

(** [storage.setItem(key, value)]: the write is stored, or refused with a
    [QuotaExceededError] that leaves the stored items as they were. *)
Definition setItem (key : string) (value : list QueuedOperation) (ls : Storage)
    : Completion unit * Storage :=
  if refuses ls (writes ls)
  then (Thrown QuotaExceededError,
        mkStorage (items ls) (refuses ls) (S (writes ls)))
  else (Normal (),
        mkStorage (<[key := value]> (items ls)) (refuses ls) (S (writes ls))).

(** [if (typeof localStorage !== 'undefined') localStorage.setItem(...)] *)
Definition persist_queue : M unit :=
  λ st,
    match localStorage (world st) with
    | Some ls =>
        let '(c, ls') := setItem QUEUE_KEY (offlineQueue (this st)) ls in
        (c, mkState (this st) (set_localStorage (Some ls') (world st)))
    | None => (Normal (), st)
    end.

Definition set_offlineQueue (q : list QueuedOperation) : M unit :=
  let* s := get_this in
  set_this (mkService (supabase s) (userContext s) (isOnline s) q).

(** The entry is pushed first, then the queue is written out: when the
    write throws, the entry is in the live queue all the same. *)
Definition queueOperation (d : Payload) : M unit :=
  let* now := Date_now in
  let* s := get_this in
  set_offlineQueue (offlineQueue s ++ [mkOp d now]) ;;;
  persist_queue.

(** ** Chat operations *)

Definition chat_conflict (p r : ChatRow.t) : Prop := ChatRow.id r = ChatRow.id p.

#[global] Instance chat_conflict_dec p r : Decision (chat_conflict p r).
Proof. unfold chat_conflict. apply _. Defined.

Definition chat_merge (p r : ChatRow.t) : ChatRow.t :=
  ChatRow.mk (ChatRow.id p) (ChatRow.project_id p) (ChatRow.user_id p)
    (ChatRow.role p) (ChatRow.content p)
    (keep (ChatRow.model_used p) (ChatRow.model_used r))
    (keep (ChatRow.tokens_used p) (ChatRow.tokens_used r))
    (keep (ChatRow.response_time_ms p) (ChatRow.response_time_ms r))
    (ChatRow.generated_screens p) (ChatRow.created_at r).

(** [.from('chat_history').upsert(p, { onConflict: 'id' })]; [created_at]
    of [p] is ignored, the store stamps new rows itself. *)
Definition upsert_chat_history (p : ChatRow.t) (w : World)
    : Response unit * World :=
  let rows := chat_history (db w) in
  if decide (Exists (chat_conflict p) rows) then
    let rows' :=
      (λ r, if decide (chat_conflict p r) then chat_merge p r else r) <$> rows in
    ((None, None), set_db (set_chat_history rows' (db w)) w)
  else
    let '(now, w') := db_now w in
    let row :=
      ChatRow.mk (ChatRow.id p) (ChatRow.project_id p) (ChatRow.user_id p)
        (ChatRow.role p) (ChatRow.content p) (ChatRow.model_used p)
        (ChatRow.tokens_used p) (ChatRow.response_time_ms p)
        (ChatRow.generated_screens p) now in
    ((None, None), set_db (set_chat_history (rows ++ [row]) (db w')) w').

Definition saveChatMessage (message : ChatMessage.t) : M unit :=
  let* s := get_this in
  match supabase s, userContext s with
  | true, Some ctx =>
      try_catch
        (let* messageId :=
           match ChatMessage.id message with
           | Some i =>
               if truthy_string i then ret i
               else let* now := Date_now in
                    ret (ChatMessage.projectId message +:+ "_" +:+ string_of_Z now)
           | None =>
               let* now := Date_now in
               ret (ChatMessage.projectId message +:+ "_" +:+ string_of_Z now)
           end in
         let* (_, error) :=
           remote (mkRequest UPSERT "chat_history")
             (upsert_chat_history
                (ChatRow.mk messageId (ChatMessage.projectId message)
                   (UserContext.userId ctx) (ChatMessage.role message)
                   (ChatMessage.content message) (ChatMessage.modelUsed message)
                   (ChatMessage.tokensUsed message)
                   (ChatMessage.responseTimeMs message)
                   (default [] (ChatMessage.generatedScreens message)) 0%Z)) in
         match error with
         | Some _ => queueOperation (ChatMessageData message)
         | None => ret ()
         end)
        (λ _, queueOperation (ChatMessageData message))
  | _, _ => queueOperation (ChatMessageData message)
  end.

Definition created_before (a b : ChatRow.t) : Prop :=
  (ChatRow.created_at a ≤ ChatRow.created_at b)%Z.

#[global] Instance created_before_dec : RelDecision created_before.
Proof. intros a b. unfold created_before. apply _. Defined.

Definition select_chat_history (projectId userId : string) (w : World)
    : Response (list ChatRow.t) * World :=
  let rows :=
    filter (λ r, ChatRow.project_id r = projectId ∧ ChatRow.user_id r = userId)
           (chat_history (db w)) in
  ((Some (merge_sort created_before rows), None), w).

Definition getChatHistory (projectId : string) : M (list Message.t) :=
  let* s := get_this in
  match supabase s, userContext s with
  | true, Some ctx =>
      try_catch
        (let* (data, error) :=
           remote (mkRequest SELECT "chat_history")
             (select_chat_history projectId (UserContext.userId ctx)) in
         match error with
         | Some _ => ret []
         | None =>
             match data with
             | Some rows =>
                 ret ((λ msg, Message.mk (ChatRow.id msg) (ChatRow.role msg)
                                         (ChatRow.content msg)) <$> rows)
             | None => throw TypeError
             end
         end)
        (λ _, ret [])
  | _, _ => ret []
  end.

(** ** Project operations *)

Definition updated_after (a b : ProjectsRow.t) : Prop :=
  (ProjectsRow.updated_at b ≤ ProjectsRow.updated_at a)%Z.

#[global] Instance updated_after_dec : RelDecision updated_after.
Proof. intros a b. unfold updated_after. apply _. Defined.

Definition owned_active (userId : string) (r : ProjectsRow.t) : Prop :=
  ProjectsRow.user_id r = userId ∧ ProjectsRow.status r = "active".

#[global] Instance owned_active_dec userId r : Decision (owned_active userId r).
Proof. unfold owned_active. apply _. Defined.

(** [.select('*').eq('user_id', _).eq('status', 'active')
     .order('updated_at', { ascending: false }).limit(50)] *)
Definition select_projects (userId : string) (w : World)
    : Response (list ProjectsRow.t) * World :=
  let rows := filter (owned_active userId) (projects (db w)) in
  ((Some (take 50 (merge_sort updated_after rows)), None), w).

Definition getProjects : M (list ProjectsRow.t) :=
  let* s := get_this in
  match supabase s, userContext s with
  | true, Some ctx =>
      try_catch
        (let* (data, error) :=
           remote (mkRequest SELECT "projects")
             (select_projects (UserContext.userId ctx)) in
         match error with
         | Some _ => ret []
         | None => ret (default [] data)
         end)
        (λ _, ret [])
  | _, _ => ret []
  end.

Definition project_is (projectId userId : string) (r : ProjectsRow.t) : Prop :=
  ProjectsRow.id r = projectId ∧ ProjectsRow.user_id r = userId.

#[global] Instance project_is_dec projectId userId r
  : Decision (project_is projectId userId r).
Proof. unfold project_is. apply _. Defined.

Definition mark_deleted (r : ProjectsRow.t) : ProjectsRow.t :=
  ProjectsRow.mk (ProjectsRow.id r) (ProjectsRow.user_id r) (ProjectsRow.name r)
    (ProjectsRow.description r) "deleted" (ProjectsRow.canvas_state r)
    (ProjectsRow.updated_at r).

(** [.update({ status: 'deleted' }).eq('id', _).eq('user_id', _)] *)
Definition update_project_status_deleted (projectId userId : string) (w : World)
    : Response unit * World :=
  let rows' :=
    (λ r, if decide (project_is projectId userId r) then mark_deleted r else r)
      <$> projects (db w) in
  ((None, None), set_db (set_projects rows' (db w)) w).

Definition deleteProject (projectId : string) : M unit :=
  let* s := get_this in
  match supabase s, userContext s with
  | true, Some ctx =>
      try_catch
        (let* (_, error) :=
           remote (mkRequest UPDATE "projects")
             (update_project_status_deleted projectId (UserContext.userId ctx)) in
         ret ())
        (λ _, ret ())
  | _, _ => ret ()
  end.

(** [.single()]: exactly one row, or an error and no data. *)
Definition single {A} (rows : list A) : Response A :=
  match rows with
  | [r] => (Some r, None)
  | _ => (None, Some (PostgrestError "PGRST116"))
  end.

Definition select_canvas_state (projectId userId : string) (w : World)
    : Response (option Json) * World :=
  (single (ProjectsRow.canvas_state <$>
             filter (project_is projectId userId) (projects (db w))), w).

Definition getCanvasState (projectId : string) : M (option Json) :=
  let* s := get_this in
  match supabase s, userContext s with
  | true, Some ctx =>
      try_catch
        (let* (data, error) :=
           remote (mkRequest SELECT "projects")
             (select_canvas_state projectId (UserContext.userId ctx)) in
         match error with
         | Some _ => ret None
         | None =>
             match data with
             | Some canvas_state => ret canvas_state
             | None => throw TypeError
             end
         end)
        (λ _, ret None)
  | _, _ => ret None
  end.

(** ** Design file operations *)

Definition design_conflict (p r : DesignRow.t) : Prop :=
  DesignRow.project_id r = DesignRow.project_id p
  ∧ DesignRow.file_path r = DesignRow.file_path p.

#[global] Instance design_conflict_dec p r : Decision (design_conflict p r).
Proof. unfold design_conflict. apply _. Defined.

Definition design_merge (p r : DesignRow.t) : DesignRow.t :=
  DesignRow.mk (DesignRow.id r) (DesignRow.project_id p) (DesignRow.user_id p)
    (DesignRow.file_path p) (DesignRow.file_type p) (DesignRow.content p)
    (DesignRow.file_size p) (DesignRow.last_modified r).

(** [.upsert(p, { onConflict: 'project_id,file_path' })]; [id] and
    [last_modified] of [p] are ignored, the store fills them in. *)
Definition upsert_design_files (p : DesignRow.t) (w : World)
    : Response unit * World :=
  let rows := design_files (db w) in
  if decide (Exists (design_conflict p) rows) then
    let rows' :=
      (λ r, if decide (design_conflict p r) then design_merge p r else r)
        <$> rows in
    ((None, None), set_db (set_design_files rows' (db w)) w)
  else
    let '(now, w') := db_now w in
    let row :=
      DesignRow.mk (gen_random_uuid (uuids w')) (DesignRow.project_id p)
        (DesignRow.user_id p) (DesignRow.file_path p) (DesignRow.file_type p)
        (DesignRow.content p) (DesignRow.file_size p) now in
    ((None, None),
     bump_uuid (set_db (set_design_files (rows ++ [row]) (db w')) w')).

Definition saveDesignFile (file : DesignFile.t) : M unit :=
  let* s := get_this in
  match supabase s, userContext s with
  | true, Some ctx =>
      try_catch
        (let* (_, error) :=
           remote (mkRequest UPSERT "design_files")
             (upsert_design_files
                (DesignRow.mk EmptyString (DesignFile.projectId file)
                   (UserContext.userId ctx) (DesignFile.filePath file)
                   (DesignFile.fileType file) (Some (DesignFile.content file))
                   (Some (String_length (DesignFile.content file))) 0%Z)) in
         match error with
         | Some _ => queueOperation (DesignFileData file)
         | None => ret ()
         end)
        (λ _, queueOperation (DesignFileData file))
  | _, _ => queueOperation (DesignFileData file)
  end.

Definition design_of (projectId userId : string) (r : DesignRow.t) : Prop :=
  DesignRow.project_id r = projectId ∧ DesignRow.user_id r = userId.

#[global] Instance design_of_dec projectId userId r
  : Decision (design_of projectId userId r).
Proof. unfold design_of. apply _. Defined.

Definition select_design_files (projectId userId : string) (w : World)
    : Response (list DesignRow.t) * World :=
  ((Some (filter (design_of projectId userId) (design_files (db w))), None), w).

Definition getDesignFiles (projectId : string) : M (list DesignFile.t) :=
  let* s := get_this in
  match supabase s, userContext s with
  | true, Some ctx =>
      try_catch
        (let* (data, error) :=
           remote (mkRequest SELECT "design_files")
             (select_design_files projectId (UserContext.userId ctx)) in
         match error with
         | Some _ => ret []
         | None =>
             match data with
             | Some rows =>
                 ret ((λ f, DesignFile.mk (Some (DesignRow.id f))
                              (DesignRow.project_id f) (DesignRow.file_path f)
                              (DesignRow.file_type f)
                              (or_string (DesignRow.content f) EmptyString)
                              (Some (or_Z (DesignRow.file_size f) 0))
                              (Some (DesignRow.last_modified f))) <$> rows)
             | None => throw TypeError
             end
         end)
        (λ _, ret [])
  | _, _ => ret []
  end.

Definition design_at (projectId filePath userId : string) (r : DesignRow.t)
    : Prop :=
  DesignRow.project_id r = projectId ∧ DesignRow.file_path r = filePath
  ∧ DesignRow.user_id r = userId.

#[global] Instance design_at_dec projectId filePath userId r
  : Decision (design_at projectId filePath userId r).
Proof. unfold design_at. apply _. Defined.

(** [.delete().eq('project_id', _).eq('file_path', _).eq('user_id', _)] *)
Definition delete_design_files (projectId filePath userId : string) (w : World)
    : Response unit * World :=
  let rows' :=
    filter (λ r, ¬ design_at projectId filePath userId r) (design_files (db w)) in
  ((None, None), set_db (set_design_files rows' (db w)) w).

Definition deleteDesignFile (projectId filePath : string) : M unit :=
  let* s := get_this in
  match supabase s, userContext s with
  | true, Some ctx =>
      try_catch
        (let* (_, error) :=
           remote (mkRequest DELETE "design_files")
             (delete_design_files projectId filePath (UserContext.userId ctx)) in
         ret ())
        (λ _, ret ())
  | _, _ => ret ()
  end.

(** ** Project file operations *)

Definition file_conflict (p r : FilesRow.t) : Prop :=
  FilesRow.project_id r = FilesRow.project_id p
  ∧ FilesRow.file_path r = FilesRow.file_path p.

#[global] Instance file_conflict_dec p r : Decision (file_conflict p r).
Proof. unfold file_conflict. apply _. Defined.

Definition file_merge (p r : FilesRow.t) : FilesRow.t :=
  FilesRow.mk (FilesRow.id r) (FilesRow.project_id p) (FilesRow.user_id p)
    (FilesRow.file_path p) (FilesRow.content p) (FilesRow.is_binary p)
    (keep (FilesRow.mime_type p) (FilesRow.mime_type r)) (FilesRow.file_size p)
    (FilesRow.is_deleted p) (FilesRow.deleted_at r).

(** [.upsert(p, { onConflict: 'project_id,file_path' })]; [id] and
    [deleted_at] of [p] are ignored. *)
Definition upsert_project_files (p : FilesRow.t) (w : World)
    : Response unit * World :=
  let rows := project_files (db w) in
  if decide (Exists (file_conflict p) rows) then
    let rows' :=
      (λ r, if decide (file_conflict p r) then file_merge p r else r) <$> rows in
    ((None, None), set_db (set_project_files rows' (db w)) w)
  else
    let row :=
      FilesRow.mk (gen_random_uuid (uuids w)) (FilesRow.project_id p)
        (FilesRow.user_id p) (FilesRow.file_path p) (FilesRow.content p)
        (FilesRow.is_binary p) (FilesRow.mime_type p) (FilesRow.file_size p)
        (FilesRow.is_deleted p) None in
    ((None, None),
     bump_uuid (set_db (set_project_files (rows ++ [row]) (db w)) w)).

Definition saveProjectFile (file : ProjectFile.t) : M unit :=
  let* s := get_this in
  match supabase s, userContext s with
  | true, Some ctx =>
      try_catch
        (let* (_, error) :=
           remote (mkRequest UPSERT "project_files")
             (upsert_project_files
                (FilesRow.mk EmptyString (ProjectFile.projectId file)
                   (UserContext.userId ctx) (ProjectFile.filePath file)
                   (Some (ProjectFile.content file))
                   (default false (ProjectFile.isBinary file))
                   (ProjectFile.mimeType file)
                   (or_Z (ProjectFile.fileSize file)
                      (if truthy_string (ProjectFile.content file)
                       then String_length (ProjectFile.content file)
                       else 0%Z))
                   (default false (ProjectFile.isDeleted file)) None)) in
         match error with
         | Some _ => queueOperation (ProjectFileData file)
         | None => ret ()
         end)
        (λ _, queueOperation (ProjectFileData file))
  | _, _ => queueOperation (ProjectFileData file)
  end.

Definition live_file_of (projectId userId : string) (r : FilesRow.t) : Prop :=
  FilesRow.project_id r = projectId ∧ FilesRow.user_id r = userId
  ∧ FilesRow.is_deleted r = false.

#[global] Instance live_file_of_dec projectId userId r
  : Decision (live_file_of projectId userId r).
Proof. unfold live_file_of. apply _. Defined.

Definition select_project_files (projectId userId : string) (w : World)
    : Response (list FilesRow.t) * World :=
  ((Some (filter (live_file_of projectId userId) (project_files (db w))), None),
   w).

Definition ProjectFile_of_row (f : FilesRow.t) : ProjectFile.t :=
  ProjectFile.mk (Some (FilesRow.id f)) (FilesRow.project_id f)
    (FilesRow.file_path f) (or_string (FilesRow.content f) EmptyString)
    (Some (FilesRow.is_binary f))
    (match FilesRow.mime_type f with
     | Some m => if truthy_string m then Some m else None
     | None => None
     end)
    (Some (FilesRow.file_size f)) (Some (FilesRow.is_deleted f)).

Definition getProjectFiles (projectId : string) : M (list ProjectFile.t) :=
  let* s := get_this in
  match supabase s, userContext s with
  | true, Some ctx =>
      try_catch
        (let* (data, error) :=
           remote (mkRequest SELECT "project_files")
             (select_project_files projectId (UserContext.userId ctx)) in
         match error with
         | Some _ => ret []
         | None =>
             match data with
             | Some rows => ret (ProjectFile_of_row <$> rows)
             | None => throw TypeError
             end
         end)
        (λ _, ret [])
  | _, _ => ret []
  end.

Definition file_at (projectId filePath userId : string) (r : FilesRow.t)
    : Prop :=
  FilesRow.project_id r = projectId ∧ FilesRow.file_path r = filePath
  ∧ FilesRow.user_id r = userId.

#[global] Instance file_at_dec projectId filePath userId r
  : Decision (file_at projectId filePath userId r).
Proof. unfold file_at. apply _. Defined.

Definition soft_delete (now : Z) (r : FilesRow.t) : FilesRow.t :=
  FilesRow.mk (FilesRow.id r) (FilesRow.project_id r) (FilesRow.user_id r)
    (FilesRow.file_path r) (FilesRow.content r) (FilesRow.is_binary r)
    (FilesRow.mime_type r) (FilesRow.file_size r) true (Some now).

(** [.update({ is_deleted: true, deleted_at }).eq('project_id', _)
     .eq('file_path', _).eq('user_id', _)] *)
Definition update_project_files_deleted (now : Z)
    (projectId filePath userId : string) (w : World) : Response unit * World :=
  let rows' :=
    (λ r, if decide (file_at projectId filePath userId r)
          then soft_delete now r else r) <$> project_files (db w) in
  ((None, None), set_db (set_project_files rows' (db w)) w).

Definition deleteProjectFile (projectId filePath : string) : M unit :=
  let* s := get_this in
  match supabase s, userContext s with
  | true, Some ctx =>
      try_catch
        (let* now := Date_now in
         let* (_, error) :=
           remote (mkRequest UPDATE "project_files")
             (update_project_files_deleted now projectId filePath
                (UserContext.userId ctx)) in
         ret ())
        (λ _, ret ())
  | _, _ => ret ()
  end.

(** ** User settings operations *)

Definition settings_conflict (p r : SettingsRow.t) : Prop :=
  SettingsRow.user_id r = SettingsRow.user_id p.

#[global] Instance settings_conflict_dec p r : Decision (settings_conflict p r).
Proof. unfold settings_conflict. apply _. Defined.

Definition settings_merge (p r : SettingsRow.t) : SettingsRow.t :=
  SettingsRow.mk (SettingsRow.user_id p)
    (keep (SettingsRow.theme p) (SettingsRow.theme r))
    (keep (SettingsRow.provider_settings p) (SettingsRow.provider_settings r))
    (keep (SettingsRow.auto_enabled_providers p)
          (SettingsRow.auto_enabled_providers r))
    (keep (SettingsRow.mcp_settings p) (SettingsRow.mcp_settings r))
    (keep (SettingsRow.github_connection p) (SettingsRow.github_connection r))
    (keep (SettingsRow.gitlab_connection p) (SettingsRow.gitlab_connection r))
    (keep (SettingsRow.vercel_connection p) (SettingsRow.vercel_connection r))
    (keep (SettingsRow.netlify_connection p) (SettingsRow.netlify_connection r))
    (keep (SettingsRow.supabase_connection p)
          (SettingsRow.supabase_connection r))
    (keep (SettingsRow.viewed_features p) (SettingsRow.viewed_features r)).

(** [.upsert(p, { onConflict: 'user_id' })] *)
Definition upsert_user_settings (p : SettingsRow.t) (w : World)
    : Response unit * World :=
  let rows := user_settings (db w) in
  if decide (Exists (settings_conflict p) rows) then
    let rows' :=
      (λ r, if decide (settings_conflict p r) then settings_merge p r else r)
        <$> rows in
    ((None, None), set_db (set_user_settings rows' (db w)) w)
  else
    ((None, None), set_db (set_user_settings (rows ++ [p]) (db w)) w).

Definition empty_object : Json := "{}".

Definition saveUserSettings (settings : UserSettings.t) : M unit :=
  let* s := get_this in
  match supabase s, userContext s with
  | true, Some ctx =>
      try_catch
        (let* (_, error) :=
           remote (mkRequest UPSERT "user_settings")
             (upsert_user_settings
                (SettingsRow.mk (UserContext.userId ctx)
                   (UserSettings.theme settings)
                   (Some (default empty_object
                            (UserSettings.providerSettings settings)))
                   (Some (default [] (UserSettings.autoEnabledProviders settings)))
                   (Some (default empty_object (UserSettings.mcpSettings settings)))
                   (UserSettings.githubConnection settings)
                   (UserSettings.gitlabConnection settings)
                   (UserSettings.vercelConnection settings)
                   (UserSettings.netlifyConnection settings)
                   (UserSettings.supabaseConnection settings)
                   (Some (default [] (UserSettings.viewedFeatures settings))))) in
         ret ())
        (λ _, ret ())
  | _, _ => ret ()
  end.

Definition select_user_settings (userId : string) (w : World)
    : Response SettingsRow.t * World :=
  (single (filter (λ r, SettingsRow.user_id r = userId) (user_settings (db w))),
   w).

Definition UserSettings_of_row (d : SettingsRow.t) : UserSettings.t :=
  UserSettings.mk (SettingsRow.theme d)
    (Some (default empty_object (SettingsRow.provider_settings d)))
    (Some (default [] (SettingsRow.auto_enabled_providers d)))
    (Some (default empty_object (SettingsRow.mcp_settings d)))
    (SettingsRow.github_connection d) (SettingsRow.gitlab_connection d)
    (SettingsRow.vercel_connection d) (SettingsRow.netlify_connection d)
    (SettingsRow.supabase_connection d)
    (Some (default [] (SettingsRow.viewed_features d))).

Definition getUserSettings : M (option UserSettings.t) :=
  let* s := get_this in
  match supabase s, userContext s with
  | true, Some ctx =>
      try_catch
        (let* (data, error) :=
           remote (mkRequest SELECT "user_settings")
             (select_user_settings (UserContext.userId ctx)) in
         match error with
         | Some _ => ret None
         | None =>
             match data with
             | Some d => ret (Some (UserSettings_of_row d))
             | None => throw TypeError
             end
         end)
        (λ _, ret None)
  | _, _ => ret None
  end.

(** ** Replay of the offline queue *)

(** One turn of the [for ... of] loop: the [switch] on the entry's type
    inside [try], and the [catch] that pushes the entry back. *)
Definition dispatch (d : Payload) : M unit :=
  match d with
  | ChatMessageData m => saveChatMessage m
  | DesignFileData f => saveDesignFile f
  | ProjectFileData f => saveProjectFile f
  end.

Definition replay (operation : QueuedOperation) : M unit :=
  try_catch
    (dispatch (data operation))
    (λ _, let* s := get_this in
          set_offlineQueue (offlineQueue s ++ [operation])).

Fixpoint replay_all (queue : list QueuedOperation) : M unit :=
  match queue with
  | [] => ret ()
  | operation :: rest => replay operation ;;; replay_all rest
  end.

Definition processOfflineQueue : M unit :=
  let* s := get_this in
  match isOnline s, supabase s, userContext s with
  | true, true, Some _ =>
      let queue := offlineQueue s in
      set_offlineQueue [] ;;;
      replay_all queue ;;;
      persist_queue
  | _, _, _ => ret ()
  end.

Definition set_isOnline (b : bool) : M unit :=
  let* s := get_this in
  set_this (mkService (supabase s) (userContext s) b (offlineQueue s)).

(** [this.processOfflineQueue()] is called without [await]: the promise is
    dropped, so a rejection of it reaches no caller of [handleOnline]. *)
Definition handleOnline : M unit :=
  set_isOnline true ;;;
  try_catch processOfflineQueue (λ _, ret ()).

Definition handleOffline : M unit :=
  set_isOnline false.

(** The object [getSyncStatus] returns. *)
Record SyncStatus := mkSyncStatus {
  online : bool;
  queuedOperations : nat;
  authenticated : bool
}.

Definition getSyncStatus : M SyncStatus :=
  let* s := get_this in
  ret (mkSyncStatus (isOnline s) (length (offlineQueue s))
                    (match userContext s with Some _ => true | None => false end)).

(** The [online] and [offline] events of [window], delivered to the
    listeners the constructor registered (if it did). *)
Definition window_online : M unit :=
  let* w := get_world in
  if listening w then handleOnline else ret ().

Definition window_offline : M unit :=
  let* w := get_world in
  if listening w then handleOffline else ret ().

(** ** Identity binding

    [ensureUser] awaits twice: the select, then the update or the insert.
    Between the two the event loop may run other tasks, so the method is
    embedded as a task that [ensureUser_step] advances from one request to
    the next; [ensureUser] runs the task without interruption. *)

Inductive EnsureUserTask :=
| AwaitSelect (clerkUserId email : string) (fullName : option string)
| AwaitWrite (existingUser : option string)
             (clerkUserId email : string) (fullName : option string)
| Settled (result : Completion string).

Definition attempt {A} (m : M A) : M (Completion A) :=
  λ st, let '(c, st') := m st in (Normal c, st').

Definition has_clerk (clerkUserId : string) (r : UsersRow.t) : Prop :=
  UsersRow.clerk_user_id r = clerkUserId.

#[global] Instance has_clerk_dec clerkUserId r : Decision (has_clerk clerkUserId r).
Proof. unfold has_clerk. apply _. Defined.

(** [.select('id').eq('clerk_user_id', _).single()] *)
Definition select_user_id (clerkUserId : string) (w : World)
    : Response string * World :=
  (single (UsersRow.id <$> filter (has_clerk clerkUserId) (users (db w))), w).

Definition touch_login (now : Z) (r : UsersRow.t) : UsersRow.t :=
  UsersRow.mk (UsersRow.id r) (UsersRow.clerk_user_id r) (UsersRow.email r)
    (UsersRow.full_name r) now.

(** [.update({ last_login_at }).eq('clerk_user_id', _)] *)
Definition update_last_login (now : Z) (clerkUserId : string) (w : World)
    : Response unit * World :=
  let rows' :=
    (λ r, if decide (has_clerk clerkUserId r) then touch_login now r else r)
      <$> users (db w) in
  ((None, None), set_db (set_users rows' (db w)) w).

Definition unique_violation : Err := PostgrestError "23505".

(** [.insert({...}).select('id').single()]; refused when the store enforces
    uniqueness of [clerk_user_id] and the value is taken. *)
Definition insert_user (now : Z) (clerkUserId email : string)
    (fullName : option string) (w : World) : Response string * World :=
  let rows := users (db w) in
  if users_clerk_unique w && bool_decide (Exists (has_clerk clerkUserId) rows)
  then ((None, Some unique_violation), w)
  else
    let i := gen_random_uuid (uuids w) in
    let row := UsersRow.mk i clerkUserId email fullName now in
    ((Some i, None), bump_uuid (set_db (set_users (rows ++ [row]) (db w)) w)).

Definition ensureUser_step (t : EnsureUserTask) : M EnsureUserTask :=
  match t with
  | AwaitSelect clerkUserId email fullName =>
      let* s := get_this in
      if supabase s then
        let* r := attempt (remote (mkRequest SELECT "users")
                                  (select_user_id clerkUserId)) in
        match r with
        | Normal (existingUser, fetchError) =>
            ret (AwaitWrite existingUser clerkUserId email fullName)
        | Thrown e => ret (Settled (Thrown e))
        end
      else ret (Settled (Thrown NotInitialized))
  | AwaitWrite (Some i) clerkUserId email fullName =>
      let* now := Date_now in
      let* r := attempt (remote (mkRequest UPDATE "users")
                                (update_last_login now clerkUserId)) in
      match r with
      | Normal _ => ret (Settled (Normal i))
      | Thrown e => ret (Settled (Thrown e))
      end
  | AwaitWrite None clerkUserId email fullName =>
      let* now := Date_now in
      let* r := attempt (remote (mkRequest INSERT "users")
                                (insert_user now clerkUserId email fullName)) in
      match r with
      | Normal (_, Some error) => ret (Settled (Thrown error))
      | Normal (Some i, None) => ret (Settled (Normal i))
      | Normal (None, None) => ret (Settled (Thrown TypeError))
      | Thrown e => ret (Settled (Thrown e))
      end
  | Settled r => ret (Settled r)
  end.

Definition settle (t : EnsureUserTask) : M string :=
  match t with
  | Settled (Normal i) => ret i
  | Settled (Thrown e) => throw e
  | _ => throw TypeError
  end.

Definition ensureUser (clerkUserId email : string) (fullName : option string)
    : M string :=
  let* t1 := ensureUser_step (AwaitSelect clerkUserId email fullName) in
  let* t2 := ensureUser_step t1 in
  settle t2.

(** Two invocations in flight: each entry of the schedule says which of
    the two tasks the event loop resumes next ([true] for the first). *)
Fixpoint interleave (schedule : list bool) (t1 t2 : EnsureUserTask)
    : M (EnsureUserTask * EnsureUserTask) :=
  match schedule with
  | [] => ret (t1, t2)
  | true :: rest => let* t1' := ensureUser_step t1 in interleave rest t1' t2
  | false :: rest => let* t2' := ensureUser_step t2 in interleave rest t1 t2'
  end.

(** ** Further operations of the service *)

Definition chat_of (projectId userId : string) (r : ChatRow.t) : Prop :=
  ChatRow.project_id r = projectId ∧ ChatRow.user_id r = userId.

#[global] Instance chat_of_dec projectId userId r
  : Decision (chat_of projectId userId r).
Proof. unfold chat_of. apply _. Defined.

(** [.delete().eq('project_id', _).eq('user_id', _)] *)
Definition delete_chat_history (projectId userId : string) (w : World)
    : Response unit * World :=
  let rows' :=
    filter (λ r, ¬ chat_of projectId userId r) (chat_history (db w)) in
  ((None, None), set_db (set_chat_history rows' (db w)) w).

Definition deleteChatHistory (projectId : string) : M unit :=
  let* s := get_this in
  match supabase s, userContext s with
  | true, Some ctx =>
      try_catch
        (let* (_, error) :=
           remote (mkRequest DELETE "chat_history")
             (delete_chat_history projectId (UserContext.userId ctx)) in
         ret ())
        (λ _, ret ())
  | _, _ => ret ()
  end.

(** [.insert({ user_id, name, description, status: 'active' }).select('id')
     .single()]; the store fills in [id] and [updated_at]. *)
Definition insert_project (userId name : string) (description : option string)
    (w : World) : Response string * World :=
  let '(now, w') := db_now w in
  let i := gen_random_uuid (uuids w') in
  let row := ProjectsRow.mk i userId name description "active" None now in
  ((Some i, None),
   bump_uuid (set_db (set_projects (projects (db w') ++ [row]) (db w')) w')).

Definition createProject (name : string) (description : option string)
    : M string :=
  let* s := get_this in
  match supabase s, userContext s with
  | true, Some ctx =>
      try_catch
        (let* (data, error) :=
           remote (mkRequest INSERT "projects")
             (insert_project (UserContext.userId ctx) name description) in
         match error with
         | Some e => throw e
         | None =>
             match data with
             | Some i => ret i
             | None => throw TypeError
             end
         end)
        (λ e, throw e)
  | _, _ => throw NotAuthenticated
  end.

(** The [updates] object of [updateProject]: the columns it mentions.  For
    the two nullable columns [Some None] is an explicit [null]. *)
Module ProjectsPatch.
Record t := mk {
  id : option string;
  user_id : option string;
  name : option string;
  description : option (option string);
  status : option string;
  canvas_state : option (option Json);
  updated_at : option Z
}.
End ProjectsPatch.

Definition apply_patch (u : ProjectsPatch.t) (r : ProjectsRow.t)
    : ProjectsRow.t :=
  ProjectsRow.mk
    (default (ProjectsRow.id r) (ProjectsPatch.id u))
    (default (ProjectsRow.user_id r) (ProjectsPatch.user_id u))
    (default (ProjectsRow.name r) (ProjectsPatch.name u))
    (default (ProjectsRow.description r) (ProjectsPatch.description u))
    (default (ProjectsRow.status r) (ProjectsPatch.status u))
    (default (ProjectsRow.canvas_state r) (ProjectsPatch.canvas_state u))
    (default (ProjectsRow.updated_at r) (ProjectsPatch.updated_at u)).

(** [.update(updates).eq('id', _).eq('user_id', _)] *)
Definition update_projects (u : ProjectsPatch.t) (projectId userId : string)
    (w : World) : Response unit * World :=
  let rows' :=
    (λ r, if decide (project_is projectId userId r) then apply_patch u r else r)
      <$> projects (db w) in
  ((None, None), set_db (set_projects rows' (db w)) w).

Definition updateProject (projectId : string) (updates : ProjectsPatch.t)
    : M unit :=
  let* s := get_this in
  match supabase s, userContext s with
  | true, Some ctx =>
      try_catch
        (let* (_, error) :=
           remote (mkRequest UPDATE "projects")
             (update_projects updates projectId (UserContext.userId ctx)) in
         ret ())
        (λ _, ret ())
  | _, _ => ret ()
  end.

(** [saveCanvasState]: [.update({ canvas_state }).eq('id', _)
    .eq('user_id', _)]; [None] is a [null] canvas state. *)
Definition saveCanvasState (projectId : string) (canvasState : option Json)
    : M unit :=
  let* s := get_this in
  match supabase s, userContext s with
  | true, Some ctx =>
      try_catch
        (let* (_, error) :=
           remote (mkRequest UPDATE "projects")
             (update_projects
                (ProjectsPatch.mk None None None None None (Some canvasState)
                                  None)
                projectId (UserContext.userId ctx)) in
         ret ())
        (λ _, ret ())
  | _, _ => ret ()
  end.

(** ** The hook that binds the signed-in user ([useSupabasePersistence])

    [initializeUser] is the body of the hook's effect.  [useUser()] of
    Clerk is its input; the two pieces of React state it sets are threaded
    through.  An error is kept as the failure it stands for, not as its
    message text. *)

Module ClerkUser.
Record t := mk {
  id : string;
  emailAddresses : list string;
  fullName : option string
}.
End ClerkUser.

Module UseUser.
Record t := mk {
  user : option ClerkUser.t;
  isLoaded : bool;
  isSignedIn : bool
}.
End UseUser.

Inductive HookFailure :=
| EmailNotFound
| EnsureUserFailed (e : Err).

Module Hook.
Record t := mk { isInitialized : bool; error : option HookFailure }.
End Hook.

(** [user.fullName || undefined] *)
Definition fullName_or_undefined (usr : ClerkUser.t) : option string :=
  match ClerkUser.fullName usr with
  | Some n => if truthy_string n then Some n else None
  | None => None
  end.

Definition initializeUser (u : UseUser.t) (h : Hook.t) : M Hook.t :=
  match UseUser.isLoaded u, UseUser.isSignedIn u, UseUser.user u with
  | true, true, Some usr =>
      match head (ClerkUser.emailAddresses usr) with
      | Some email =>
          if truthy_string email then
            let* r := attempt
                        (ensureUser (ClerkUser.id usr) email
                           (fullName_or_undefined usr)) in
            match r with
            | Normal userId =>
                setUserContext (UserContext.mk userId (ClerkUser.id usr)) ;;;
                ret (Hook.mk true None)
            | Thrown e => ret (Hook.mk false (Some (EnsureUserFailed e)))
            end
          else ret (Hook.mk false (Some EmailNotFound))
      | None => ret (Hook.mk false (Some EmailNotFound))
      end
  | _, _, _ => ret (Hook.mk false (Hook.error h))
  end.

(** ** Clients of the service

    A client is a sequence of calls of the public methods and of the two
    [window] events.  [createCanvasSnapshot] is left out: its table is not
    part of the store modelled here. *)

Inductive Call :=
| CallSetUserContext (context : UserContext.t)
| CallEnsureUser (clerkUserId email : string) (fullName : option string)
| CallSaveChatMessage (message : ChatMessage.t)
| CallGetChatHistory (projectId : string)
| CallDeleteChatHistory (projectId : string)
| CallCreateProject (name : string) (description : option string)
| CallGetProjects
| CallUpdateProject (projectId : string) (updates : ProjectsPatch.t)
| CallDeleteProject (projectId : string)
| CallSaveDesignFile (file : DesignFile.t)
| CallGetDesignFiles (projectId : string)
| CallDeleteDesignFile (projectId filePath : string)
| CallSaveProjectFile (file : ProjectFile.t)
| CallGetProjectFiles (projectId : string)
| CallDeleteProjectFile (projectId filePath : string)
| CallSaveUserSettings (settings : UserSettings.t)
| CallGetUserSettings
| CallSaveCanvasState (projectId : string) (canvasState : option Json)
| CallGetCanvasState (projectId : string)
| CallGetSyncStatus
| EventOnline
| EventOffline.

(** The state a call leaves behind, whatever it returned or threw. *)
Definition perform (c : Call) (st : State) : State :=
  match c with
  | CallSetUserContext context => (setUserContext context st).2
  | CallEnsureUser clerkUserId email fullName =>
      (ensureUser clerkUserId email fullName st).2
  | CallSaveChatMessage message => (saveChatMessage message st).2
  | CallGetChatHistory projectId => (getChatHistory projectId st).2
  | CallDeleteChatHistory projectId => (deleteChatHistory projectId st).2
  | CallCreateProject name description => (createProject name description st).2
  | CallGetProjects => (getProjects st).2
  | CallUpdateProject projectId updates => (updateProject projectId updates st).2
  | CallDeleteProject projectId => (deleteProject projectId st).2
  | CallSaveDesignFile file => (saveDesignFile file st).2
  | CallGetDesignFiles projectId => (getDesignFiles projectId st).2
  | CallDeleteDesignFile projectId filePath =>
      (deleteDesignFile projectId filePath st).2
  | CallSaveProjectFile file => (saveProjectFile file st).2
  | CallGetProjectFiles projectId => (getProjectFiles projectId st).2
  | CallDeleteProjectFile projectId filePath =>
      (deleteProjectFile projectId filePath st).2
  | CallSaveUserSettings settings => (saveUserSettings settings st).2
  | CallGetUserSettings => (getUserSettings st).2
  | CallSaveCanvasState projectId canvasState =>
      (saveCanvasState projectId canvasState st).2
  | CallGetCanvasState projectId => (getCanvasState projectId st).2
  | CallGetSyncStatus => (getSyncStatus st).2
  | EventOnline => (window_online st).2
  | EventOffline => (window_offline st).2
  end.

Definition perform_all (cs : list Call) (st : State) : State :=
  foldl (λ s c, perform c s) st cs.

(** ** Build configuration: [manualChunks] of the Vite config *)

(** [s.includes(needle)] *)
Fixpoint includes (needle s : string) : bool :=
  String.prefix needle s
  || match s with
     | EmptyString => false
     | String _ s' => includes needle s'
     end.

(** [None] is [undefined]: the bundler decides. *)
Definition manualChunks (id : string) : option string :=
  if includes "electron" id then None
  else if includes "node_modules" id then
    if includes "@splinetool" id || includes "three" id then Some "spline"
    else if includes "react" id || includes "react-dom" id then Some "react"
    else if includes "codemirror" id || includes "@codemirror" id
         then Some "codemirror"
    else if includes "shiki" id then Some "shiki"
    else Some "vendor"
  else None.

(** ** Specification vocabulary *)

(** The request a queued write issues when it is attempted. *)
Definition request_of (d : Payload) : Request :=
  mkRequest UPSERT
    match d with
    | ChatMessageData _ => "chat_history"
    | DesignFileData _ => "design_files"
    | ProjectFileData _ => "project_files"
    end.

(** The payloads of [queue] whose attempt fails, when the first of them is
    the [n]-th request of the world and each issues one request. *)
Fixpoint failed_from (f : nat → Outcome) (n : nat) (queue : list QueuedOperation)
    : list Payload :=
  match queue with
  | [] => []
  | o :: rest =>
      match f n with
      | NetOk => failed_from f (S n) rest
      | _ => data o :: failed_from f (S n) rest
      end
  end.

(** What [localStorage] holds under the queue's key. *)
Definition stored_queue (w : World) : option (list QueuedOperation) :=
  ls ← localStorage w; items ls !! QUEUE_KEY.

(** Which writes the world's storage refuses; without a storage there is
    no write to refuse. *)
Definition refusal (w : World) : nat → bool :=
  match localStorage w with
  | Some ls => refuses ls
  | None => λ _, false
  end.

(** How many writes the world's storage has seen. *)
Definition written (w : World) : nat :=
  match localStorage w with
  | Some ls => writes ls
  | None => 0
  end.

(** The next write to [localStorage] is accepted. *)
Definition accepts_next (w : World) : Prop := refusal w (written w) = false.

(** [localStorage] accepts every write from now on. *)
Definition storage_works (w : World) : Prop :=
  ∀ n, written w ≤ n → refusal w n = false.

(** What replaying one captured write does to the queue when its request
    is the [n]-th of the world and the storage has seen [j] writes: how many
    entries for it join the queue, and how many writes the storage sees.
    A served request queues nothing.  After an error response the save
    method queues the write once, and once more from its [catch] when the
    storage refuses the first write; after a rejection it queues the write
    once.  When the last of these writes is refused the save method throws,
    and the loop of [processOfflineQueue] pushes the captured entry back. *)
Definition requeues (f : nat → Outcome) (g : nat → bool) (n j : nat)
    : nat * nat :=
  match f n with
  | NetOk => (0, 0)
  | NetError => if g j then (if g (S j) then 3 else 2, 2) else (1, 1)
  | NetThrow => if g j then (2, 1) else (1, 1)
  end.

(** The payloads a replay of [queue] leaves in the queue, in order. *)
Fixpoint requeued (f : nat → Outcome) (g : nat → bool) (n j : nat)
    (queue : list QueuedOperation) : list Payload :=
  match queue with
  | [] => []
  | o :: rest =>
      replicate (requeues f g n j).1 (data o)
      ++ requeued f g (S n) (j + (requeues f g n j).2) rest
  end.

(** The captured write [o] was attempted against the store: one request
    went out, the service kept its handle, identity and connectivity flag,
    and the queue and the storage's count of writes grew as [requeues]
    says. *)
Definition attempted (o : QueuedOperation) (st st' : State) : Prop :=
  let w := world st in
  let r := requeues (faults w) (refusal w) (length (requests w)) (written w) in
  supabase (this st') = supabase (this st)
  ∧ userContext (this st') = userContext (this st)
  ∧ isOnline (this st') = isOnline (this st)
  ∧ requests (world st') = requests w ++ [request_of (data o)]
  ∧ faults (world st') = faults w
  ∧ refusal (world st') = refusal w
  ∧ (localStorage (world st') = None ↔ localStorage w = None)
  ∧ (localStorage w ≠ None → written (world st') = written w + r.2)
  ∧ data <$> offlineQueue (this st')
    = (data <$> offlineQueue (this st)) ++ replicate r.1 (data o)
  ∧ (faults w (length (requests w)) ≠ NetOk → db (world st') = db w).

(** Rows of [chat_history] with a given id. *)
Definition has_id (i : string) (r : ChatRow.t) : Prop := ChatRow.id r = i.

#[global] Instance has_id_dec i r : Decision (has_id i r).
Proof. unfold has_id. apply _. Defined.

(** A call that returns normally and leaves the service object (its queue
    included) and [localStorage] as they were. *)
Definition quiet {A} (call : M A) (st : State) : Prop :=
  this (call st).2 = this st
  ∧ localStorage (world (call st).2) = localStorage (world st)
  ∧ ∃ v, (call st).1 = Normal v.

(** The id under which [saveChatMessage] stores a message: its own, or one
    made of the project id and a time. *)
Definition chat_key (m : ChatMessage.t) (i : string) : Prop :=
  match ChatMessage.id m with
  | Some j =>
      if truthy_string j then i = j
      else ∃ t, i = ChatMessage.projectId m +:+ "_" +:+ string_of_Z t
  | None => ∃ t, i = ChatMessage.projectId m +:+ "_" +:+ string_of_Z t
  end.

(** The store holds a row under the conflict key of the write [d]. *)
Definition landed (d : Payload) (database : Database) : Prop :=
  match d with
  | ChatMessageData m =>
      ∃ r, r ∈ chat_history database ∧ chat_key m (ChatRow.id r)
  | DesignFileData f =>
      ∃ r, r ∈ design_files database
           ∧ DesignRow.project_id r = DesignFile.projectId f
           ∧ DesignRow.file_path r = DesignFile.filePath f
  | ProjectFileData f =>
      ∃ r, r ∈ project_files database
           ∧ FilesRow.project_id r = ProjectFile.projectId f
           ∧ FilesRow.file_path r = ProjectFile.filePath f
  end.

(** ** Sample data *)

Definition m1 : ChatMessage.t :=
  ChatMessage.mk (Some "m1") "p1" user "hi" None None None None.

Definition alice : UserContext.t := UserContext.mk "uuid-alice" "clerk_alice".

Definition never : nat → Outcome := λ _, NetOk.
Definition first_fails : nat → Outcome :=
  λ n, match n with 0 => NetError | _ => NetOk end.

Definition world0 (f : nat → Outcome) (unique : bool) : World :=
  mkWorld empty_db 0 unique [] f (λ n, 1000 + Z.of_nat n)%Z 0
          (Some (mkStorage ∅ (λ _, false) 0)) true.

Definition browser : Env :=
  mkEnv (Some "https://db.example") (Some "anon") false true (Some true).

Definition signed_in (on : bool) (f : nat → Outcome) : State :=
  mkState (mkService true (Some alice) on []) (world0 f false).

Definition signed_out (f : nat → Outcome) : State :=
  mkState (mkService true None true []) (world0 f false).

(** A [localStorage] that refuses every write (its quota is reached, or the
    browser has storage disabled), and a state moved onto it. *)
Definition storage_full : Storage := mkStorage ∅ (λ _, true) 0.

Definition quota_reached (st : State) : State :=
  mkState (this st) (set_localStorage (Some storage_full) (world st)).

(** A [localStorage] with room for one more write, and a state moved onto
    it. *)
Definition storage_tight : Storage :=
  mkStorage ∅ (λ n, match n with 0 => false | _ => true end) 0.

Definition nearly_full (st : State) : State :=
  mkState (this st) (set_localStorage (Some storage_tight) (world st)).

Definition settings0 : UserSettings.t :=
  UserSettings.mk (Some "dark") None None None None None None None None None.

(** Sixty active projects of [alice] (updated at 0, 1, ..., 59), one she
    deleted and one of somebody else. *)
Definition sample_projects : list ProjectsRow.t :=
  ((λ n, ProjectsRow.mk (string_of_nat n) "uuid-alice" "site" None "active"
                        None (Z.of_nat n)) <$> seq 0 60)
  ++ [ProjectsRow.mk "old" "uuid-alice" "old" None "deleted" None 100%Z;
      ProjectsRow.mk "other" "uuid-bob" "bob" None "active" None 200%Z].

Definition sample_files : list FilesRow.t :=
  [FilesRow.mk "f1" "p1" "uuid-alice" "index.html" (Some "A") false None 1%Z
               false None;
   FilesRow.mk "f2" "p1" "uuid-alice" "app.js" (Some "B") false None 1%Z
               false None].

Definition sample_designs : list DesignRow.t :=
  [DesignRow.mk "d1" "p1" "uuid-alice" "index.html" "html" (Some "A") (Some 1%Z)
                5%Z;
   DesignRow.mk "d2" "p1" "uuid-alice" "style.css" "css" (Some "B") (Some 1%Z)
                6%Z].

Definition with_rows : State :=
  mkState (mkService true (Some alice) true [])
    (set_db (mkDatabase [] [] sample_projects sample_designs sample_files [])
            (world0 never false)).

(** [localStorage] holds the live queue. *)
Definition mirrored (st : State) : Prop :=
  stored_queue (world st) = Some (offlineQueue (this st)).

(** What every call keeps: the store handle; an identity once set; silence
    towards the store when there is no handle; and, as long as
    [localStorage] accepts its writes, the stored copy of the queue once it
    is in step with the live one. *)
Definition framed (st st' : State) : Prop :=
  supabase (this st') = supabase (this st)
  ∧ (is_Some (userContext (this st)) → is_Some (userContext (this st')))
  ∧ (supabase (this st) = false →
     requests (world st') = requests (world st)
     ∧ db (world st') = db (world st))
  ∧ (storage_works (world st) →
     storage_works (world st') ∧ (mirrored st → mirrored st')).

(** Every row that is not the caller's own is still in its table,
    unchanged, in [st']. *)
Definition others_kept (st st' : State) : Prop :=
  let caller := UserContext.userId <$> userContext (this st) in
  (∀ r, r ∈ projects (db (world st)) → Some (ProjectsRow.user_id r) ≠ caller →
        r ∈ projects (db (world st')))
  ∧ (∀ r, r ∈ design_files (db (world st)) →
          Some (DesignRow.user_id r) ≠ caller →
          r ∈ design_files (db (world st')))
  ∧ (∀ r, r ∈ project_files (db (world st)) →
          Some (FilesRow.user_id r) ≠ caller →
          r ∈ project_files (db (world st')))
  ∧ (∀ r, r ∈ chat_history (db (world st)) →
          Some (ChatRow.user_id r) ≠ caller →
          r ∈ chat_history (db (world st'))).

(** The row [saveUserSettings] sends for a caller. *)
Definition settings_row_of (userId : string) (settings : UserSettings.t)
    : SettingsRow.t :=
  SettingsRow.mk userId (UserSettings.theme settings)
    (Some (default empty_object (UserSettings.providerSettings settings)))
    (Some (default [] (UserSettings.autoEnabledProviders settings)))
    (Some (default empty_object (UserSettings.mcpSettings settings)))
    (UserSettings.githubConnection settings)
    (UserSettings.gitlabConnection settings)
    (UserSettings.vercelConnection settings)
    (UserSettings.netlifyConnection settings)
    (UserSettings.supabaseConnection settings)
    (Some (default [] (UserSettings.viewedFeatures settings))).

(** * Properties *)

Ltac unfold_monad :=
  unfold bind, ret, throw, try_catch, attempt, get_this, set_this, get_world,
    set_world, set_offlineQueue, persist_queue, setItem, Date_now, remote in *.

Ltac expose st :=
  let sb := fresh "sb" in
  let ctx := fresh "ctx" in
  let on := fresh "on" in
  let q := fresh "q" in
  let w := fresh "w" in
  destruct st as [[sb ctx on q] w]; simpl in *.

(** ** Queueing *)

Lemma queueOperation_spec d st :
  queueOperation d st =
    let w := world st in
    let s := this st in
    let q' := offlineQueue s ++ [mkOp d (clock w (ticks w))] in
    (match localStorage w with
     | Some ls => (setItem QUEUE_KEY q' ls).1
     | None => Normal ()
     end,
     mkState (mkService (supabase s) (userContext s) (isOnline s) q')
       match localStorage w with
       | Some ls =>
           set_localStorage (Some (setItem QUEUE_KEY q' ls).2) (tick w)
       | None => tick w
       end).
Proof.
  expose st. unfold queueOperation. unfold_monad. simpl.
  destruct (localStorage w) as [ls|]; [|reflexivity]. simpl.
  by destruct (refuses ls (writes ls)).
Qed.

(** The entry joins the live queue whatever the storage does, and nothing
    else about the service or the store changes. *)
Lemma queueOperation_queue d st :
  offlineQueue (this (queueOperation d st).2)
  = offlineQueue (this st) ++ [mkOp d (clock (world st) (ticks (world st)))]
  ∧ requests (world (queueOperation d st).2) = requests (world st)
  ∧ db (world (queueOperation d st).2) = db (world st).
Proof.
  rewrite queueOperation_spec. simpl.
  destruct (localStorage (world st)); done.
Qed.

(** The call throws exactly when the storage refuses the write. *)
Lemma queueOperation_returns d st :
  (queueOperation d st).1
  = if refusal (world st) (written (world st))
    then Thrown QuotaExceededError else Normal ().
Proof.
  rewrite queueOperation_spec. unfold refusal, written, setItem. simpl.
  destruct (localStorage (world st)) as [ls|]; [|done]. simpl.
  by destruct (refuses ls (writes ls)).
Qed.

Lemma queueOperation_persists d st :
  localStorage (world st) ≠ None → accepts_next (world st) →
  stored_queue (world (queueOperation d st).2)
  = Some (offlineQueue (this (queueOperation d st).2)).
Proof.
  intros Hls Ha. rewrite queueOperation_spec.
  unfold accepts_next, refusal, written in Ha. simpl.
  destruct (localStorage (world st)) as [ls|] eqn:E; [|done].
  unfold stored_queue, setItem. simpl. rewrite Ha. simpl.
  by rewrite lookup_insert_eq.
Qed.

(** A refused write leaves the stored copy as it was. *)
Lemma queueOperation_refused d st :
  ¬ accepts_next (world st) →
  stored_queue (world (queueOperation d st).2) = stored_queue (world st).
Proof.
  intros Ha. rewrite queueOperation_spec.
  unfold accepts_next, refusal, written in Ha. simpl.
  destruct (localStorage (world st)) as [ls|] eqn:E; [|done].
  unfold stored_queue, setItem. simpl. rewrite E. simpl.
  destruct (refuses ls (writes ls)); done.
Qed.

(** Without a handle or an identity the three queueing writes are
    [queueOperation] and nothing else. *)
Lemma dispatch_unavailable d st :
  supabase (this st) = false ∨ userContext (this st) = None →
  dispatch d st = queueOperation d st.
Proof.
  intros H. expose st.
  destruct d; simpl; unfold saveChatMessage, saveDesignFile, saveProjectFile;
    unfold bind at 1; unfold get_this; simpl;
    destruct H; subst; try reflexivity; destruct sb; reflexivity.
Qed.

(** With a handle and an identity, a write whose request fails leaves the
    store as it was and joins the queue; when the storage accepts the write
    of the queue, it joins the queue once and the call returns normally. *)
Lemma dispatch_failing d st :
  supabase (this st) = true → is_Some (userContext (this st)) →
  faults (world st) (length (requests (world st))) ≠ NetOk →
  db (world (dispatch d st).2) = db (world st)
  ∧ requests (world (dispatch d st).2) = requests (world st) ++ [request_of d]
  ∧ (∃ t q, offlineQueue (this (dispatch d st).2)
            = offlineQueue (this st) ++ mkOp d t :: q)
  ∧ (accepts_next (world st) →
     (dispatch d st).1 = Normal ()
     ∧ ∃ t, offlineQueue (this (dispatch d st).2)
            = offlineQueue (this st) ++ [mkOp d t]).
Proof.
  intros Hs [ctx Hc] Hf. expose st. subst.
  destruct w as [dd u uq rq f c t [[it g n]|] li]; simpl in *;
    unfold accepts_next, refusal, written; simpl.
  all: destruct d as [m|file|file]; simpl;
    [ unfold saveChatMessage; destruct m as [[i|] ? ? ? ? ? ? ?]
    | unfold saveDesignFile
    | unfold saveProjectFile ];
    unfold queueOperation; unfold_monad; simpl;
    try (destruct (truthy_string i) eqn:Ht; simpl).
  all: destruct (f (length rq)) eqn:Ef; [done|..]; simpl; rewrite ?Ef; simpl.
  all: try (destruct (g n) eqn:Eg; simpl; try destruct (g (S n)) eqn:Eg2; simpl).
  all: repeat split; eauto; try done.
  all: eexists _, _; by rewrite <-app_assoc.
Qed.

(** [saveUserSettings] has no queueing path. *)
Lemma saveUserSettings_spec settings st :
  (saveUserSettings settings st).1 = Normal ()
  ∧ this (saveUserSettings settings st).2 = this st
  ∧ localStorage (world (saveUserSettings settings st).2)
    = localStorage (world st).
Proof.
  expose st. destruct w as [d u uq rq f c t ls li].
  unfold saveUserSettings, upsert_user_settings. unfold_monad. simpl.
  destruct sb, ctx; simpl; try done.
  destruct (f (length rq)); simpl; try done.
  case_decide; done.
Qed.

(** ** C1: what a write does when it cannot be completed *)

(** C1 (counterexample).  [saveUserSettings] is not queued: signed out, it
    issues no request, leaves the queue empty and stores nothing; signed in
    with the request failing, the queue stays empty as well and the settings
    are in neither the store nor the queue.  And a queueing write does not
    always return without error: when [localStorage] refuses the write of
    the queue, [saveChatMessage] called signed out throws, with the message
    in the live queue and no copy of the queue stored. *)
Lemma saveUserSettings_not_queued :
  userContext (this (signed_out never)) = None
  ∧ (saveUserSettings settings0 (signed_out never)).1 = Normal ()
  ∧ offlineQueue (this (saveUserSettings settings0 (signed_out never)).2) = []
  ∧ stored_queue (world (saveUserSettings settings0 (signed_out never)).2) = None
  ∧ first_fails 0 = NetError
  ∧ (saveUserSettings settings0 (signed_in true first_fails)).1 = Normal ()
  ∧ offlineQueue (this (saveUserSettings settings0 (signed_in true first_fails)).2)
    = []
  ∧ user_settings
      (db (world (saveUserSettings settings0 (signed_in true first_fails)).2))
    = []
  ∧ (saveChatMessage m1 (quota_reached (signed_out never))).1
    = Thrown QuotaExceededError
  ∧ offlineQueue (this (saveChatMessage m1 (quota_reached (signed_out never))).2)
    = [mkOp (ChatMessageData m1) 1000]
  ∧ stored_queue (world (saveChatMessage m1 (quota_reached (signed_out never))).2)
    = None.
Proof. vm_compute. repeat split. Qed.

(** C1 (amended).  [saveChatMessage], [saveDesignFile] and [saveProjectFile]
    (the three cases of [dispatch]): without a store handle or an identity
    the write is appended to the queue and no request is issued; with both
    present and the request failing (an error response or a rejection) the
    write joins the queue and the store is as before.  In both cases, when
    [localStorage] accepts the write of the queue (or there is none), the
    call returns normally and the write is in the queue once.
    [saveUserSettings] returns normally in every state and never touches the
    queue. *)
Theorem save_queues_instead_of_failing (d : Payload) (settings : UserSettings.t)
    (st : State) :
  (supabase (this st) = false ∨ userContext (this st) = None →
     offlineQueue (this (dispatch d st).2)
     = offlineQueue (this st)
         ++ [mkOp d (clock (world st) (ticks (world st)))]
     ∧ requests (world (dispatch d st).2) = requests (world st)
     ∧ db (world (dispatch d st).2) = db (world st)
     ∧ (accepts_next (world st) → (dispatch d st).1 = Normal ()))
  ∧ (supabase (this st) = true → is_Some (userContext (this st)) →
     faults (world st) (length (requests (world st))) ≠ NetOk →
     db (world (dispatch d st).2) = db (world st)
     ∧ (∃ t q, offlineQueue (this (dispatch d st).2)
               = offlineQueue (this st) ++ mkOp d t :: q)
     ∧ (accepts_next (world st) →
        (dispatch d st).1 = Normal ()
        ∧ ∃ t, offlineQueue (this (dispatch d st).2)
               = offlineQueue (this st) ++ [mkOp d t]))
  ∧ ((saveUserSettings settings st).1 = Normal ()
     ∧ offlineQueue (this (saveUserSettings settings st).2)
       = offlineQueue (this st)).
Proof.
  split; [|split].
  - intros H. rewrite (dispatch_unavailable _ _ H).
    destruct (queueOperation_queue d st) as (Hq & Hr & Hd).
    repeat split; try done.
    intros Ha. rewrite queueOperation_returns. unfold accepts_next in Ha.
    by rewrite Ha.
  - intros Hs Hc Hf.
    destruct (dispatch_failing d st Hs Hc Hf) as (Hd & _ & Hq & Ha). done.
  - destruct (saveUserSettings_spec settings st) as (H1 & H2 & _).
    by rewrite H1, H2.
Qed.

Lemma save_queues_instead_of_failing_witness :
  (offlineQueue (this (saveChatMessage m1 (signed_out never)).2)
   = [mkOp (ChatMessageData m1) 1000]
   ∧ (saveChatMessage m1 (signed_out never)).1 = Normal ())
  ∧ ((saveChatMessage m1 (signed_in true first_fails)).1 = Normal ()
     ∧ ∃ t, offlineQueue (this (saveChatMessage m1 (signed_in true first_fails)).2)
            = [mkOp (ChatMessageData m1) t]).
Proof.
  split.
  - destruct (save_queues_instead_of_failing (ChatMessageData m1) settings0
                (signed_out never)) as (H & _).
    destruct H as (H1 & _ & _ & H2); [right; reflexivity|].
    split; [exact H1|]. apply H2. reflexivity.
  - destruct (save_queues_instead_of_failing (ChatMessageData m1) settings0
                (signed_in true first_fails)) as (_ & H & _).
    destruct H as (_ & _ & H); [reflexivity|eexists; reflexivity|discriminate|].
    apply H. reflexivity.
Defined.

(** ** C9: the sync status *)

(** C9.  [getSyncStatus] returns the connectivity flag, the current length
    of the queue and whether an identity is set, computed from the service's
    fields at the time of the call, and changes nothing. *)
Theorem getSyncStatus_is_derived (st : State) :
  getSyncStatus st
  = (Normal (mkSyncStatus (isOnline (this st))
                          (length (offlineQueue (this st)))
                          (bool_decide (is_Some (userContext (this st))))),
     st).
Proof.
  expose st. unfold getSyncStatus. unfold_monad. simpl.
  destruct ctx; reflexivity.
Qed.

(** ** C10: the guard of the replay *)

(** C10.  Offline, without a store handle or without an identity,
    [processOfflineQueue] returns at once: the service (its queue included)
    and the world (store, request log, [localStorage]) are unchanged. *)
Theorem processOfflineQueue_guard (st : State) :
  isOnline (this st) = false ∨ supabase (this st) = false
  ∨ userContext (this st) = None →
  processOfflineQueue st = (Normal (), st).
Proof.
  intros H. expose st. unfold processOfflineQueue. unfold_monad. simpl.
  destruct H as [ -> | [ -> | -> ] ]; [done|by destruct on|by destruct on, sb].
Qed.

Lemma processOfflineQueue_guard_witness :
  processOfflineQueue (saveChatMessage m1 (signed_in false first_fails)).2
  = (Normal (), (saveChatMessage m1 (signed_in false first_fails)).2).
Proof.
  apply processOfflineQueue_guard. left. reflexivity.
Defined.

(** ** What an upsert does to the store *)

Lemma upsert_chat_history_store p w :
  (upsert_chat_history p w).1 = (None, None)
  ∧ design_files (db (upsert_chat_history p w).2) = design_files (db w)
  ∧ project_files (db (upsert_chat_history p w).2) = project_files (db w)
  ∧ (∃ r, r ∈ chat_history (db (upsert_chat_history p w).2)
          ∧ ChatRow.id r = ChatRow.id p)
  ∧ (∀ r, r ∈ chat_history (db w) →
          ∃ r', r' ∈ chat_history (db (upsert_chat_history p w).2)
                ∧ ChatRow.id r' = ChatRow.id r).
Proof.
  unfold upsert_chat_history. case_decide as Hex; simpl.
  - repeat split; try done.
    + apply Exists_exists in Hex as (r & Hr & Hc).
      exists (chat_merge p r). split; [|done].
      apply list_elem_of_fmap. exists r. by rewrite decide_True.
    + intros r Hr. eexists. split.
      * apply list_elem_of_fmap. exists r. split; [reflexivity|done].
      * case_decide as Hc; [|done]. simpl. by rewrite Hc.
  - repeat split; try done.
    + eexists. split; [apply elem_of_app; right; by apply list_elem_of_singleton|].
      done.
    + intros r Hr. exists r. split; [|done]. apply elem_of_app. by left.
Qed.

Lemma upsert_design_files_store p w :
  (upsert_design_files p w).1 = (None, None)
  ∧ chat_history (db (upsert_design_files p w).2) = chat_history (db w)
  ∧ project_files (db (upsert_design_files p w).2) = project_files (db w)
  ∧ (∃ r, r ∈ design_files (db (upsert_design_files p w).2)
          ∧ DesignRow.project_id r = DesignRow.project_id p
          ∧ DesignRow.file_path r = DesignRow.file_path p)
  ∧ (∀ r, r ∈ design_files (db w) →
          ∃ r', r' ∈ design_files (db (upsert_design_files p w).2)
                ∧ DesignRow.project_id r' = DesignRow.project_id r
                ∧ DesignRow.file_path r' = DesignRow.file_path r).
Proof.
  unfold upsert_design_files. case_decide as Hex; simpl.
  - repeat split; try done.
    + apply Exists_exists in Hex as (r & Hr & Hc).
      exists (design_merge p r). split; [|done].
      apply list_elem_of_fmap. exists r. by rewrite decide_True.
    + intros r Hr. eexists. split.
      * apply list_elem_of_fmap. exists r. split; [reflexivity|done].
      * case_decide as Hc; [|done]. destruct Hc as [Hc1 Hc2]. simpl.
        by rewrite Hc1, Hc2.
  - repeat split; try done.
    + eexists. split; [apply elem_of_app; right; by apply list_elem_of_singleton|].
      done.
    + intros r Hr. exists r. split; [|done]. apply elem_of_app. by left.
Qed.

Lemma upsert_project_files_store p w :
  (upsert_project_files p w).1 = (None, None)
  ∧ chat_history (db (upsert_project_files p w).2) = chat_history (db w)
  ∧ design_files (db (upsert_project_files p w).2) = design_files (db w)
  ∧ (∃ r, r ∈ project_files (db (upsert_project_files p w).2)
          ∧ FilesRow.project_id r = FilesRow.project_id p
          ∧ FilesRow.file_path r = FilesRow.file_path p)
  ∧ (∀ r, r ∈ project_files (db w) →
          ∃ r', r' ∈ project_files (db (upsert_project_files p w).2)
                ∧ FilesRow.project_id r' = FilesRow.project_id r
                ∧ FilesRow.file_path r' = FilesRow.file_path r).
Proof.
  unfold upsert_project_files. case_decide as Hex; simpl.
  - repeat split; try done.
    + apply Exists_exists in Hex as (r & Hr & Hc).
      exists (file_merge p r). split; [|done].
      apply list_elem_of_fmap. exists r. by rewrite decide_True.
    + intros r Hr. eexists. split.
      * apply list_elem_of_fmap. exists r. split; [reflexivity|done].
      * case_decide as Hc; [|done]. destruct Hc as [Hc1 Hc2]. simpl.
        by rewrite Hc1, Hc2.
  - repeat split; try done.
    + eexists. split; [apply elem_of_app; right; by apply list_elem_of_singleton|].
      done.
    + intros r Hr. exists r. split; [|done]. apply elem_of_app. by left.
Qed.

Lemma landed_upsert_chat_history p w d0 :
  landed d0 (db w) → landed d0 (db (upsert_chat_history p w).2).
Proof.
  destruct (upsert_chat_history_store p w) as (_ & Hd & Hf & _ & Hk).
  destruct d0; simpl; rewrite ?Hd, ?Hf; try done.
  intros (r & Hr & K). destruct (Hk r Hr) as (r' & Hr' & E).
  exists r'. by rewrite E.
Qed.

Lemma landed_upsert_design_files p w d0 :
  landed d0 (db w) → landed d0 (db (upsert_design_files p w).2).
Proof.
  destruct (upsert_design_files_store p w) as (_ & Hc & Hf & _ & Hk).
  destruct d0; simpl; rewrite ?Hc, ?Hf; try done.
  intros (r & Hr & K1 & K2). destruct (Hk r Hr) as (r' & Hr' & E1 & E2).
  exists r'. by rewrite E1, E2.
Qed.

Lemma landed_upsert_project_files p w d0 :
  landed d0 (db w) → landed d0 (db (upsert_project_files p w).2).
Proof.
  destruct (upsert_project_files_store p w) as (_ & Hc & Hd & _ & Hk).
  destruct d0; simpl; rewrite ?Hc, ?Hd; try done.
  intros (r & Hr & K1 & K2). destruct (Hk r Hr) as (r' & Hr' & E1 & E2).
  exists r'. by rewrite E1, E2.
Qed.

(** ** C5: replaying the queue *)

(** One turn of the replay loop never throws, and does to the queue and
    the storage what [requeues] says. *)
Lemma replay_attempted o st ctx :
  supabase (this st) = true → userContext (this st) = Some ctx →
  ∃ st', replay o st = (Normal (), st') ∧ attempted o st st'.
Proof.
  intros Hs Hc. expose st. subst.
  destruct w as [dd u uq rq f c t [[it g n]|] li]; destruct o as [d ts];
    simpl in *.
  all: unfold replay, attempted, requeues, refusal, written; simpl.
  all: destruct d as [m|file|file]; simpl;
    [ unfold saveChatMessage; destruct m as [[i|] ? ? ? ? ? ? ?]
    | unfold saveDesignFile
    | unfold saveProjectFile ];
    unfold queueOperation, upsert_chat_history, upsert_design_files,
      upsert_project_files, db_now; unfold_monad; simpl;
    try (destruct (truthy_string i) eqn:Ht; simpl).
  all: destruct (f (length rq)) eqn:Ef; simpl; rewrite ?Ef; simpl.
  all: try case_decide; simpl.
  all: try (destruct (g n) eqn:Eg; simpl; try destruct (g (S n)) eqn:Eg2; simpl).
  all: eexists; (split; [reflexivity|]); simpl.
  all: rewrite ?fmap_app, <-?app_assoc, ?app_nil_r; simpl.
  all: repeat split; eauto; try done; try lia.
Qed.

(** A replayed write whose request is served lands in the store, and no
    replayed write, served or not, takes away the row of another. *)
Lemma replay_store o st ctx :
  supabase (this st) = true → userContext (this st) = Some ctx →
  (faults (world st) (length (requests (world st))) = NetOk →
   landed (data o) (db (world (replay o st).2)))
  ∧ (∀ d0, landed d0 (db (world st)) → landed d0 (db (world (replay o st).2))).
Proof.
  intros Hs Hc.
  destruct (replay_attempted o st ctx Hs Hc) as (st' & E & A).
  unfold attempted in A. cbv zeta in A.
  destruct (faults (world st) (length (requests (world st)))) eqn:Ef.
  2,3: rewrite E; simpl;
       destruct A as (_ & _ & _ & _ & _ & _ & _ & _ & _ & Hdb);
       rewrite Hdb by done; split; [intros [=]|done].
  clear E A st'. expose st. subst. destruct w as [dd u uq rq f c t ls li].
  destruct o as [d ts]. simpl in *. unfold replay. simpl.
  destruct d as [m|file|file]; simpl;
    [ unfold saveChatMessage; destruct m as [[i|] ? ? ? ? ? ? ?]
    | unfold saveDesignFile
    | unfold saveProjectFile ];
    unfold_monad;
    cbn -[upsert_chat_history upsert_design_files upsert_project_files];
    try (destruct (truthy_string i) eqn:Ht;
         cbn -[upsert_chat_history upsert_design_files upsert_project_files]);
    rewrite ?Ef;
    cbn -[upsert_chat_history upsert_design_files upsert_project_files].
  all: match goal with
       | |- context [upsert_chat_history ?p ?w] =>
           destruct (upsert_chat_history_store p w) as (R & _ & _ & A & _);
           pose proof (landed_upsert_chat_history p w) as L;
           destruct (upsert_chat_history p w) as [[? ?] w2]
       | |- context [upsert_design_files ?p ?w] =>
           destruct (upsert_design_files_store p w) as (R & _ & _ & A & _);
           pose proof (landed_upsert_design_files p w) as L;
           destruct (upsert_design_files p w) as [[? ?] w2]
       | |- context [upsert_project_files ?p ?w] =>
           destruct (upsert_project_files_store p w) as (R & _ & _ & A & _);
           pose proof (landed_upsert_project_files p w) as L;
           destruct (upsert_project_files p w) as [[? ?] w2]
       end;
       simpl in R; injection R as -> ->; cbn in *;
       (split; [intros _|exact L]).
  all: destruct A as (r & Hr & K); exists r; (split; [exact Hr|]).
  all: unfold chat_key; simpl; rewrite ?Ht; eauto.
Qed.

(** With a storage that accepts its writes (or none) a failed write is
    queued once. *)
Lemma requeued_accepting f g n j (queue : list QueuedOperation) :
  (∀ k, j ≤ k → g k = false) →
  requeued f g n j queue = failed_from f n queue.
Proof.
  revert n j. induction queue as [|o rest IH]; intros n j Hg; simpl; [done|].
  unfold requeues. rewrite (Hg j) by lia.
  destruct (f n); simpl; rewrite IH; try done; intros k Hk; apply Hg; lia.
Qed.

(** A captured write whose request fails is among the requeued ones. *)
Lemma requeued_failed f g n j (queue : list QueuedOperation) k o :
  queue !! k = Some o → f (n + k) ≠ NetOk →
  data o ∈ requeued f g n j queue.
Proof.
  revert n j k. induction queue as [|o' rest IH]; intros n j [|k] Hk Hf;
    simpl in *; try done; apply elem_of_app.
  - injection Hk as ->. rewrite Nat.add_0_r in Hf. left.
    unfold requeues. destruct (f n), (g j), (g (S j)); simpl; try done;
      apply elem_of_cons; by left.
  - right. apply (IH (S n) _ k Hk).
    by replace (S n + k) with (n + S k) by lia.
Qed.

Lemma replay_all_spec queue : ∀ st ctx,
  supabase (this st) = true → userContext (this st) = Some ctx →
  ∃ st', replay_all queue st = (Normal (), st')
    ∧ supabase (this st') = true
    ∧ userContext (this st') = Some ctx
    ∧ isOnline (this st') = isOnline (this st)
    ∧ requests (world st')
      = requests (world st) ++ (request_of ∘ data <$> queue)
    ∧ faults (world st') = faults (world st)
    ∧ refusal (world st') = refusal (world st)
    ∧ (localStorage (world st') = None ↔ localStorage (world st) = None)
    ∧ written (world st) ≤ written (world st')
    ∧ data <$> offlineQueue (this st')
      = (data <$> offlineQueue (this st))
          ++ requeued (faults (world st)) (refusal (world st))
                      (length (requests (world st))) (written (world st))
                      queue
    ∧ (∀ k o, queue !! k = Some o →
         faults (world st) (length (requests (world st)) + k) = NetOk →
         landed (data o) (db (world st')))
    ∧ (∀ d0, landed d0 (db (world st)) → landed d0 (db (world st'))).
Proof.
  induction queue as [|o rest IH]; intros st ctx Hs Hc.
  - exists st. simpl. rewrite !app_nil_r. repeat split; try done.
  - destruct (replay_attempted o st ctx Hs Hc) as (st1 & E1 & A).
    destruct (replay_store o st ctx Hs Hc) as [S1 S2].
    rewrite E1 in S1, S2. simpl in S1, S2.
    destruct A as (As & Ac & Ao & Ar & Af & Ag & Al & Aw & Aq & _).
    rewrite Hs in As. rewrite Hc in Ac.
    destruct (IH st1 ctx As Ac)
      as (st2 & E2 & Bs & Bc & Bo & Br & Bf & Bg & Bl & Bw & Bq & Bk & Bd).
    exists st2. simpl. unfold bind at 1. rewrite E1, E2.
    split; [done|]. split; [done|]. split; [done|].
    split; [congruence|]. split.
    { rewrite Br, Ar, <-app_assoc. done. }
    split; [congruence|]. split; [congruence|]. split; [by rewrite Bl|].
    assert (Hw : localStorage (world st) = None
                 ∨ written (world st1)
                   = written (world st)
                     + (requeues (faults (world st)) (refusal (world st))
                          (length (requests (world st)))
                          (written (world st))).2).
    { destruct (localStorage (world st)) eqn:El; [right; by apply Aw|by left]. }
    split.
    { destruct Hw as [Hn|Hw]; [|lia].
      unfold written in *. rewrite Hn. lia. }
    split.
    { rewrite Bq, Aq, Af, Ag, Ar, length_app, <-app_assoc. simpl.
      replace (length (requests (world st)) + 1) with
        (S (length (requests (world st)))) by lia.
      do 2 f_equal. destruct Hw as [Hn|Hw]; [|by rewrite Hw].
      rewrite !requeued_accepting; [done|..];
        intros k _; unfold refusal; by rewrite Hn. }
    split; [|by auto].
    intros [|k] o' Hk Hf; simpl in Hk.
    + injection Hk as <-. rewrite Nat.add_0_r in Hf. auto.
    + apply (Bk k o' Hk). rewrite Af, Ar, length_app. simpl.
      rewrite <-Hf. f_equal. lia.
Qed.

(** C5.  Online, with a store handle and an identity,
    [processOfflineQueue] takes the queue as it stands, empties the live
    queue and attempts the captured writes one request each, in the order
    they were queued.  Every captured write whose request was served has its
    row in the store, whether or not an earlier one failed, and every
    captured write whose request failed is back in the queue and no other
    is, in the same order: once when [localStorage] accepts the write of the
    queue (or there is none), and up to three times when it refuses, the
    last copy being the one the loop's own [catch] pushes back after the
    save method has thrown.
    With a storage that accepts its writes the call returns normally, and
    whenever it returns normally the stored copy of the queue is the live
    queue. *)
Theorem processOfflineQueue_replays (st : State) :
  isOnline (this st) = true → supabase (this st) = true →
  is_Some (userContext (this st)) →
  requests (world (processOfflineQueue st).2)
  = requests (world st) ++ (request_of ∘ data <$> offlineQueue (this st))
  ∧ data <$> offlineQueue (this (processOfflineQueue st).2)
    = requeued (faults (world st)) (refusal (world st))
               (length (requests (world st))) (written (world st))
               (offlineQueue (this st))
  ∧ (∀ k o, offlineQueue (this st) !! k = Some o →
       faults (world st) (length (requests (world st)) + k) ≠ NetOk →
       data o ∈ data <$> offlineQueue (this (processOfflineQueue st).2))
  ∧ (∀ k o, offlineQueue (this st) !! k = Some o →
       faults (world st) (length (requests (world st)) + k) = NetOk →
       landed (data o) (db (world (processOfflineQueue st).2)))
  ∧ (storage_works (world st) →
     (processOfflineQueue st).1 = Normal ()
     ∧ data <$> offlineQueue (this (processOfflineQueue st).2)
       = failed_from (faults (world st)) (length (requests (world st)))
                     (offlineQueue (this st)))
  ∧ (localStorage (world st) ≠ None →
     (processOfflineQueue st).1 = Normal () →
     stored_queue (world (processOfflineQueue st).2)
     = Some (offlineQueue (this (processOfflineQueue st).2))).
Proof.
  intros Ho Hs [ctx Hc]. expose st. subst.
  unfold processOfflineQueue. unfold bind at 1. unfold get_this at 1. simpl.
  unfold bind at 1. unfold set_offlineQueue at 1.
  unfold bind, get_this, set_this, persist_queue, setItem. simpl.
  destruct (replay_all_spec q (mkState (mkService true (Some ctx) true []) w)
              ctx eq_refl eq_refl)
    as (st' & E & _ & _ & _ & Br & _ & Bg & Bl & Bw & Bq & Bk & _).
  simpl in *. rewrite E.
  assert (Hacc : storage_works w →
                 data <$> offlineQueue (this st')
                 = failed_from (faults w) (length (requests w)) q).
  { intros Hw. rewrite Bq. by apply requeued_accepting. }
  assert (Hfail : ∀ k o, q !! k = Some o →
                    faults w (length (requests w) + k) ≠ NetOk →
                    data o ∈ data <$> offlineQueue (this st')).
  { intros k o Hk Hf. rewrite Bq. by apply (requeued_failed _ _ _ _ _ k). }
  destruct (localStorage (world st')) as [[it g n]|] eqn:El; simpl.
  - assert (Hg : storage_works w → g n = false).
    { intros Hw. unfold refusal, written in Bg, Bw. rewrite El in Bg, Bw.
      simpl in Bg, Bw. rewrite Bg. by apply Hw. }
    destruct (g n) eqn:Eg; simpl.
    + repeat split; auto; try done.
      match goal with H : storage_works _ |- _ => by specialize (Hg H) end.
    + repeat split; auto. intros _ _. unfold stored_queue. simpl.
      by rewrite lookup_insert_eq.
  - repeat split; auto. intros Hw. destruct Hw. by apply Bl.
Qed.

Lemma processOfflineQueue_replays_witness :
  let queued :=
    [mkOp (ChatMessageData m1) 7;
     mkOp (DesignFileData (DesignFile.mk None "p1" "index.html" "html" "A"
                             None None)) 8]%Z in
  let st := mkState (mkService true (Some alice) true queued)
                    (world0 first_fails false) in
  (data <$> offlineQueue (this (processOfflineQueue st).2)
   = [ChatMessageData m1]
   ∧ data <$> offlineQueue (this (processOfflineQueue (quota_reached st)).2)
     = [ChatMessageData m1; ChatMessageData m1; ChatMessageData m1])
  ∧ DesignRow.file_path <$> design_files (db (world (processOfflineQueue st).2))
    = ["index.html"]
  ∧ chat_history (db (world (processOfflineQueue st).2)) = [].
Proof.
  split; [|split; reflexivity]. split.
  - destruct (processOfflineQueue_replays
                (mkState (mkService true (Some alice) true
                            [mkOp (ChatMessageData m1) 7;
                             mkOp (DesignFileData
                                     (DesignFile.mk None "p1" "index.html"
                                        "html" "A" None None)) 8]%Z)
                         (world0 first_fails false)))
      as (_ & _ & _ & _ & H & _).
    + reflexivity.
    + reflexivity.
    + eexists. reflexivity.
    + apply H. intros n _. reflexivity.
  - destruct (processOfflineQueue_replays
                (quota_reached
                   (mkState (mkService true (Some alice) true
                               [mkOp (ChatMessageData m1) 7;
                                mkOp (DesignFileData
                                        (DesignFile.mk None "p1" "index.html"
                                           "html" "A" None None)) 8]%Z)
                            (world0 first_fails false))))
      as (_ & H & _).
    + reflexivity.
    + reflexivity.
    + eexists. reflexivity.
    + exact H.
Defined.

(** ** C3: a write while offline, then the transition to online *)

Lemma upsert_chat_rows_count p rows :
  length (filter (has_id (ChatRow.id p))
            ((λ r, if decide (chat_conflict p r) then chat_merge p r else r)
               <$> rows))
  = length (filter (has_id (ChatRow.id p)) rows).
Proof.
  induction rows as [|r rows IH]; [done|].
  rewrite fmap_cons. destruct (decide (chat_conflict p r)) as [E|NE].
  - rewrite !filter_cons_True by done. simpl. by rewrite IH.
  - rewrite !filter_cons_False by done. done.
Qed.

Lemma conflict_counted p rows :
  Exists (chat_conflict p) rows →
  1 ≤ length (filter (has_id (ChatRow.id p)) rows).
Proof.
  induction 1 as [r rows H|r rows H IH]; rewrite filter_cons.
  - rewrite decide_True by exact H. simpl. lia.
  - case_decide; simpl; lia.
Qed.

Lemma no_conflict_none p rows :
  ¬ Exists (chat_conflict p) rows →
  filter (has_id (ChatRow.id p)) rows = [].
Proof.
  induction rows as [|r rows IH]; [done|]. intros H.
  rewrite filter_cons. rewrite decide_False.
  - apply IH. intros H'. apply H. by apply Exists_cons_tl.
  - intros H'. apply H. by apply Exists_cons_hd.
Qed.

(** C3 (counterexample).  Flagged offline, with a store handle and an
    identity, [saveChatMessage] does issue its upsert: the request log shows
    it.  When that request fails the queue has one entry, but a request was
    attempted; when it is served the row is stored and the queue stays
    empty.  And when the request fails and [localStorage] refuses the write
    of the queue, the message is queued twice. *)
Lemma offline_save_attempts_remote_call :
  isOnline (this (signed_in false first_fails)) = false
  ∧ requests (world (saveChatMessage m1 (signed_in false first_fails)).2)
    = [mkRequest UPSERT "chat_history"]
  ∧ requests (world (saveChatMessage m1 (signed_in false never)).2)
    = [mkRequest UPSERT "chat_history"]
  ∧ length (offlineQueue (this (saveChatMessage m1 (signed_in false never)).2))
    = 0
  ∧ ChatRow.id
      <$> chat_history (db (world (saveChatMessage m1 (signed_in false never)).2))
    = ["m1"]
  ∧ length (offlineQueue
              (this (saveChatMessage m1
                       (quota_reached (signed_in false first_fails))).2))
    = 2.
Proof. vm_compute. repeat split. Qed.

(** C3 (amended).  With the connectivity flag offline, a store handle, an
    identity and an empty queue, [saveChatMessage] of a message with id [i]
    issues one upsert; if that request fails and [localStorage] accepts the
    write of the queue (or there is none), the queue length becomes 1 and
    the store is unchanged.  When [handleOnline] then runs and the replayed
    upsert is served, the queue length becomes 0 and the store holds exactly
    one row with id [i] (ids being unique in [chat_history] beforehand). *)
Theorem offline_save_then_online (m : ChatMessage.t) (i : string) (st : State) :
  ChatMessage.id m = Some i → truthy_string i = true →
  isOnline (this st) = false → supabase (this st) = true →
  is_Some (userContext (this st)) → offlineQueue (this st) = [] →
  length (filter (has_id i) (chat_history (db (world st)))) ≤ 1 →
  faults (world st) (length (requests (world st))) ≠ NetOk →
  faults (world st) (S (length (requests (world st)))) = NetOk →
  accepts_next (world st) →
  length (offlineQueue (this (saveChatMessage m st).2)) = 1
  ∧ requests (world (saveChatMessage m st).2)
    = requests (world st) ++ [mkRequest UPSERT "chat_history"]
  ∧ db (world (saveChatMessage m st).2) = db (world st)
  ∧ isOnline (this (handleOnline (saveChatMessage m st).2).2) = true
  ∧ length (offlineQueue (this (handleOnline (saveChatMessage m st).2).2)) = 0
  ∧ length (filter (has_id i)
              (chat_history
                 (db (world (handleOnline (saveChatMessage m st).2).2))))
    = 1.
Proof.
  intros Hid Ht Hon Hs [ctx Hc] Hq Hrows Hf1 Hf2 Hacc.
  expose st. subst. destruct w as [d u uq rq f c t ls li]. simpl in *.
  unfold accepts_next, refusal, written in Hacc. simpl in Hacc.
  destruct m as [mi ? ? ? ? ? ? ?]. simpl in Hid. subst mi.
  assert (E1 : ∃ w1,
    saveChatMessage
      (ChatMessage.mk (Some i) projectId role content modelUsed tokensUsed
         responseTimeMs generatedScreens)
      (mkState (mkService true (Some ctx) false [])
               (mkWorld d u uq rq f c t ls li))
    = (Normal (),
       mkState (mkService true (Some ctx) false
                  [mkOp (ChatMessageData
                           (ChatMessage.mk (Some i) projectId role content
                              modelUsed tokensUsed responseTimeMs
                              generatedScreens)) (c t)])
               w1)
    ∧ db w1 = d ∧ requests w1 = rq ++ [mkRequest UPSERT "chat_history"]
    ∧ faults w1 = f).
  { unfold saveChatMessage, queueOperation. unfold_monad. simpl. rewrite Ht.
    simpl. destruct (f (length rq)); [done| |]; simpl;
      destruct ls as [[it g n]|]; simpl in *; rewrite ?Hacc; simpl;
      eexists; (split; [reflexivity|]); done. }
  destruct E1 as (w1 & E1 & Hd1 & Hr1 & Hfw).
  rewrite E1. simpl. rewrite Hd1, Hr1.
  split; [done|]. split; [done|]. split; [done|].
  destruct w1 as [d1 u1 uq1 rq1 f1 c1 t1 ls1 li1]. simpl in *. subst.
  unfold handleOnline, set_isOnline, processOfflineQueue. unfold_monad. simpl.
  unfold replay, dispatch, saveChatMessage, upsert_chat_history, db_now.
  unfold_monad. simpl. rewrite Ht. simpl.
  rewrite length_app. simpl.
  replace (length rq + 1) with (S (length rq)) by lia. rewrite Hf2. simpl.
  case_decide as Hex; simpl.
  - destruct ls1 as [[it1 g1 n1]|]; simpl; try destruct (g1 n1); simpl;
      (split; [done|]); (split; [done|]).
    all: rewrite (upsert_chat_rows_count
               (ChatRow.mk i projectId (UserContext.userId ctx) role content
                  modelUsed tokensUsed responseTimeMs
                  (default [] generatedScreens) 0%Z)).
    all: apply conflict_counted in Hex; simpl in *; lia.
  - destruct ls1 as [[it1 g1 n1]|]; simpl; try destruct (g1 n1); simpl;
      (split; [done|]); (split; [done|]).
    all: rewrite filter_app.
    all: apply no_conflict_none in Hex; simpl in Hex; rewrite Hex.
    all: rewrite filter_cons_True by done; done.
Qed.

Lemma offline_save_then_online_witness :
  length (offlineQueue
            (this (saveChatMessage m1 (signed_in false first_fails)).2)) = 1
  ∧ length (offlineQueue
              (this (handleOnline
                       (saveChatMessage m1 (signed_in false first_fails)).2).2))
    = 0
  ∧ length (filter (has_id "m1")
              (chat_history
                 (db (world
                        (handleOnline
                           (saveChatMessage m1
                              (signed_in false first_fails)).2).2))))
    = 1.
Proof.
  destruct (offline_save_then_online m1 "m1" (signed_in false first_fails))
    as (H1 & _ & _ & _ & H2 & H3).
  - reflexivity.
  - reflexivity.
  - reflexivity.
  - reflexivity.
  - eexists. reflexivity.
  - reflexivity.
  - simpl. lia.
  - discriminate.
  - reflexivity.
  - reflexivity.
  - exact (conj H1 (conj H2 H3)).
Defined.

(** ** C2: persistence of the queue across restarts *)

Lemma constructor_queue_empty e : offlineQueue (constructor e).1 = [].
Proof. reflexivity. Qed.

Lemma restart_queue_empty e st : offlineQueue (this (restart e st)) = [].
Proof. reflexivity. Qed.

Lemma restart_keeps_storage e st :
  stored_queue (world (restart e st)) = stored_queue (world st).
Proof. reflexivity. Qed.

(** C2 (the code at the failing input).  Signed out, in a browser,
    [saveChatMessage] queues the message and writes the queue to
    [localStorage].  After a restart (a fresh service object over the same
    [localStorage]) the stored queue still holds the message, but the live
    queue is empty: the constructor never reads the stored queue back. *)
Theorem restart_forgets_queue :
  offlineQueue (this (saveChatMessage m1 (signed_out never)).2)
  = [mkOp (ChatMessageData m1) 1000]
  ∧ stored_queue (world (saveChatMessage m1 (signed_out never)).2)
    = Some [mkOp (ChatMessageData m1) 1000]
  ∧ stored_queue
      (world (restart browser (saveChatMessage m1 (signed_out never)).2))
    = Some [mkOp (ChatMessageData m1) 1000]
  ∧ offlineQueue
      (this (restart browser (saveChatMessage m1 (signed_out never)).2))
    = [].
Proof. vm_compute. repeat split. Qed.

(** ** C6: reads *)

Ltac read_cases sb ctx f rq :=
  destruct sb; [|repeat split; eauto];
  destruct ctx; [|repeat split; eauto];
  let E := fresh "E" in
  destruct (f (length rq)) eqn:E; cbn; rewrite ?E; cbn;
  repeat split; eauto; try done; try (intros [?|?]; done).

Lemma getChatHistory_read projectId st :
  quiet (getChatHistory projectId) st
  ∧ (supabase (this st) = false ∨ userContext (this st) = None →
     getChatHistory projectId st = (Normal [], st))
  ∧ (faults (world st) (length (requests (world st))) ≠ NetOk →
     (getChatHistory projectId st).1 = Normal []).
Proof.
  expose st. destruct w as [d u uq rq f c t ls li]. unfold quiet.
  unfold getChatHistory, select_chat_history. unfold_monad. simpl.
  read_cases sb ctx f rq.
Qed.

Lemma getProjects_read st :
  quiet getProjects st
  ∧ (supabase (this st) = false ∨ userContext (this st) = None →
     getProjects st = (Normal [], st))
  ∧ (faults (world st) (length (requests (world st))) ≠ NetOk →
     (getProjects st).1 = Normal []).
Proof.
  expose st. destruct w as [d u uq rq f c t ls li]. unfold quiet.
  unfold getProjects, select_projects. unfold_monad. simpl.
  read_cases sb ctx f rq.
Qed.

Lemma getDesignFiles_read projectId st :
  quiet (getDesignFiles projectId) st
  ∧ (supabase (this st) = false ∨ userContext (this st) = None →
     getDesignFiles projectId st = (Normal [], st))
  ∧ (faults (world st) (length (requests (world st))) ≠ NetOk →
     (getDesignFiles projectId st).1 = Normal []).
Proof.
  expose st. destruct w as [d u uq rq f c t ls li]. unfold quiet.
  unfold getDesignFiles, select_design_files. unfold_monad. simpl.
  read_cases sb ctx f rq.
Qed.

Lemma getProjectFiles_read projectId st :
  quiet (getProjectFiles projectId) st
  ∧ (supabase (this st) = false ∨ userContext (this st) = None →
     getProjectFiles projectId st = (Normal [], st))
  ∧ (faults (world st) (length (requests (world st))) ≠ NetOk →
     (getProjectFiles projectId st).1 = Normal []).
Proof.
  expose st. destruct w as [d u uq rq f c t ls li]. unfold quiet.
  unfold getProjectFiles, select_project_files. unfold_monad. simpl.
  read_cases sb ctx f rq.
Qed.

Lemma getUserSettings_read st :
  quiet getUserSettings st
  ∧ (supabase (this st) = false ∨ userContext (this st) = None →
     getUserSettings st = (Normal None, st))
  ∧ (faults (world st) (length (requests (world st))) ≠ NetOk →
     (getUserSettings st).1 = Normal None).
Proof.
  expose st. destruct w as [d u uq rq f c t ls li]. unfold quiet.
  unfold getUserSettings, select_user_settings. unfold_monad. simpl.
  read_cases sb ctx f rq;
    match goal with
    | |- context [single ?l] => destruct (single l) as [[?|] [?|]]
    end; cbn; eauto.
Qed.

Lemma getCanvasState_read projectId st :
  quiet (getCanvasState projectId) st
  ∧ (supabase (this st) = false ∨ userContext (this st) = None →
     getCanvasState projectId st = (Normal None, st))
  ∧ (faults (world st) (length (requests (world st))) ≠ NetOk →
     (getCanvasState projectId st).1 = Normal None).
Proof.
  expose st. destruct w as [d u uq rq f c t ls li]. unfold quiet.
  unfold getCanvasState, select_canvas_state. unfold_monad. simpl.
  read_cases sb ctx f rq;
    match goal with
    | |- context [single ?l] => destruct (single l) as [[?|] [?|]]
    end; cbn; eauto.
Qed.

(** C6 (counterexample).  Two reads do not return an empty collection
    when they cannot be served: signed out, and signed in with the request
    failing, [getUserSettings] and [getCanvasState] return [null] (here
    [None]), which is neither a settings object without entries nor an
    empty canvas state. *)
Lemma single_valued_reads_return_null :
  (getUserSettings (signed_out never)).1 = Normal None
  ∧ (getCanvasState "p1" (signed_out never)).1 = Normal None
  ∧ first_fails 0 = NetError
  ∧ (getUserSettings (signed_in true first_fails)).1 = Normal None
  ∧ (getCanvasState "p1" (signed_in true first_fails)).1 = Normal None
  ∧ (getUserSettings (signed_out never)).1
    ≠ Normal (Some (UserSettings.mk None None None None None None None None
                                    None None))
  ∧ (getCanvasState "p1" (signed_out never)).1 ≠ Normal (Some empty_object).
Proof. vm_compute. repeat split; discriminate. Qed.

(** C6 (amended).  No read touches the queue: each of the six [get*]
    methods returns normally in every state and leaves the service object
    (so the queue) and [localStorage] as they were.  Without a store handle
    or an identity a read returns its empty result at once, with no request
    and no change of state; when its request fails it returns the same empty
    result.  The empty result is the empty list for the four list-valued
    reads and [null] (here [None]) for [getUserSettings] and
    [getCanvasState]. *)
Theorem reads_never_queue_and_degrade (projectId : string) (st : State) :
  (quiet (getChatHistory projectId) st ∧ quiet getProjects st
   ∧ quiet (getDesignFiles projectId) st ∧ quiet (getProjectFiles projectId) st
   ∧ quiet getUserSettings st ∧ quiet (getCanvasState projectId) st)
  ∧ (supabase (this st) = false ∨ userContext (this st) = None →
     getChatHistory projectId st = (Normal [], st)
     ∧ getProjects st = (Normal [], st)
     ∧ getDesignFiles projectId st = (Normal [], st)
     ∧ getProjectFiles projectId st = (Normal [], st)
     ∧ getUserSettings st = (Normal None, st)
     ∧ getCanvasState projectId st = (Normal None, st))
  ∧ (faults (world st) (length (requests (world st))) ≠ NetOk →
     (getChatHistory projectId st).1 = Normal []
     ∧ (getProjects st).1 = Normal []
     ∧ (getDesignFiles projectId st).1 = Normal []
     ∧ (getProjectFiles projectId st).1 = Normal []
     ∧ (getUserSettings st).1 = Normal None
     ∧ (getCanvasState projectId st).1 = Normal None).
Proof.
  destruct (getChatHistory_read projectId st) as (A1 & A2 & A3).
  destruct (getProjects_read st) as (B1 & B2 & B3).
  destruct (getDesignFiles_read projectId st) as (C1 & C2 & C3).
  destruct (getProjectFiles_read projectId st) as (D1 & D2 & D3).
  destruct (getUserSettings_read st) as (E1 & E2 & E3).
  destruct (getCanvasState_read projectId st) as (F1 & F2 & F3).
  split; [done|]. split; intros H; repeat split; auto.
Qed.

Lemma reads_never_queue_and_degrade_witness :
  getDesignFiles "p1" (signed_out never) = (Normal [], signed_out never)
  ∧ (getDesignFiles "p1" (signed_in true first_fails)).1 = Normal [].
Proof.
  split.
  - apply (reads_never_queue_and_degrade "p1" (signed_out never)).
    right. reflexivity.
  - apply (reads_never_queue_and_degrade "p1" (signed_in true first_fails)).
    discriminate.
Defined.

(** ** C7: listing projects *)

#[global] Instance updated_after_trans : Transitive updated_after.
Proof. intros a b c. unfold updated_after. lia. Qed.

#[global] Instance updated_after_total : Total updated_after.
Proof. intros a b. unfold updated_after. lia. Qed.

Lemma StronglySorted_take {A} (R : relation A) n (l : list A) :
  StronglySorted R l → StronglySorted R (take n l).
Proof.
  intros H. revert n. induction H as [|x l Hl IH Hx]; intros [|n]; simpl;
    try constructor; auto.
  apply Forall_forall. intros y Hy.
  rewrite Forall_forall in Hx. apply Hx.
  apply elem_of_take in Hy as (i & Hi & _). by eapply list_elem_of_lookup_2.
Qed.

Lemma select_projects_rows userId w rows :
  (select_projects userId w).1.1 = Some rows →
  length rows ≤ 50
  ∧ Forall (λ r, owned_active userId r ∧ r ∈ projects (db w)) rows
  ∧ StronglySorted updated_after rows.
Proof.
  unfold select_projects. simpl. intros [= <-]. split; [|split].
  - rewrite length_take. lia.
  - apply Forall_forall. intros r Hr.
    apply elem_of_take in Hr as (i & Hi & _).
    apply list_elem_of_lookup_2 in Hi.
    rewrite merge_sort_Permutation in Hi.
    by apply list_elem_of_filter in Hi.
  - apply StronglySorted_take, StronglySorted_merge_sort; apply _.
Qed.

(** C7.  [getProjects] always returns a list, of at most 50 rows; every row
    it returns is a row of [projects] owned by the current identity with
    status [active], and the rows come most recently updated first.  When the
    request is served, the list is the first 50 of the identity's active
    projects in that order. *)
Theorem getProjects_owned_active_recent_capped (st : State) :
  ∃ rows, (getProjects st).1 = Normal rows
    ∧ length rows ≤ 50
    ∧ Forall (λ r, ProjectsRow.status r = "active"
                   ∧ UserContext.userId <$> userContext (this st)
                     = Some (ProjectsRow.user_id r)
                   ∧ r ∈ projects (db (world st))) rows
    ∧ StronglySorted updated_after rows
    ∧ (∀ ctx, supabase (this st) = true → userContext (this st) = Some ctx →
         faults (world st) (length (requests (world st))) = NetOk →
         ∃ all,
           all ≡ₚ filter (owned_active (UserContext.userId ctx))
                         (projects (db (world st)))
           ∧ StronglySorted updated_after all
           ∧ rows = take 50 all).
Proof.
  expose st. destruct w as [d u uq rq f c t ls li].
  unfold getProjects. unfold_monad. simpl.
  destruct sb; [destruct ctx as [ctx|]|];
    try (exists []; repeat split; simpl; auto using SSorted_nil; lia || done).
  destruct (f (length rq)) eqn:Ef; cbn; rewrite ?Ef; cbn;
    try (exists []; repeat split; simpl; auto using SSorted_nil; lia || done).
  eexists. split; [reflexivity|].
  destruct (select_projects_rows (UserContext.userId ctx)
              (log_request (mkRequest SELECT "projects")
                 (mkWorld d u uq rq f c t ls li)) _ eq_refl) as (L & F & S').
  split; [exact L|]. split; [|split; [exact S'|]].
  - eapply Forall_impl; [exact F|]. intros r [[Hu Hs] Hin]. simpl in Hin.
    rewrite Hu. done.
  - intros ctx' _ [= <-] _.
    exists (merge_sort updated_after
              (filter (owned_active (UserContext.userId ctx)) (projects d))).
    split; [apply merge_sort_Permutation|].
    split; [apply StronglySorted_merge_sort; apply _|reflexivity].
Qed.

Lemma getProjects_owned_active_recent_capped_witness :
  ∃ rows, (getProjects with_rows).1 = Normal rows
    ∧ length rows ≤ 50
    ∧ ∃ all,
        all ≡ₚ filter (owned_active "uuid-alice") sample_projects
        ∧ rows = take 50 all.
Proof.
  destruct (getProjects_owned_active_recent_capped with_rows)
    as (rows & E & L & _ & _ & H).
  destruct (H alice eq_refl eq_refl eq_refl) as (all & P & _ & T).
  exists rows. split; [exact E|]. split; [exact L|].
  exists all. split; [exact P|exact T].
Defined.

(** On the sample store the cap bites: sixty active projects, fifty
    returned, the most recently updated first. *)
Example getProjects_sample :
  ProjectsRow.updated_at
    <$> match (getProjects with_rows).1 with Normal rows => rows | _ => [] end
  = Z.of_nat <$> reverse (seq 10 50).
Proof. vm_compute. reflexivity. Qed.

(** ** C8: the three deletions *)

Lemma soft_deleted_not_listed now projectId filePath userId
    (rows : list FilesRow.t) r :
  r ∈ filter (live_file_of projectId userId)
         ((λ r, if decide (file_at projectId filePath userId r)
                then soft_delete now r else r) <$> rows) →
  FilesRow.file_path r ≠ filePath.
Proof.
  intros H. apply list_elem_of_filter in H as [(Hp & Hu & Hd) H].
  apply list_elem_of_fmap in H as (r0 & -> & _).
  destruct (decide (file_at projectId filePath userId r0)) as [Y|N].
  - simpl in Hd. discriminate.
  - intros Hf. apply N. done.
Qed.

(** C8.  With a store handle, an identity and the request served:
    [deleteProjectFile] keeps every row of [project_files] in place and, on
    the rows of that project, path and owner, sets [is_deleted] and a
    deletion time, leaving the other columns and the other rows alone; a
    [getProjectFiles] that follows lists no file at that path.
    [deleteDesignFile] removes the matching rows of [design_files] and keeps
    the others.  [deleteProject] keeps every row of [projects] and sets the
    status of the matching ones to [deleted]. *)
Theorem deletes_keep_their_asymmetry (projectId filePath : string)
    (ctx : UserContext.t) (st : State) :
  supabase (this st) = true → userContext (this st) = Some ctx →
  faults (world st) (length (requests (world st))) = NetOk →
  (length (project_files (db (world (deleteProjectFile projectId filePath st).2)))
   = length (project_files (db (world st)))
   ∧ (∀ i r, project_files (db (world st)) !! i = Some r →
        ∃ r', project_files
                (db (world (deleteProjectFile projectId filePath st).2)) !! i
              = Some r'
          ∧ if decide (file_at projectId filePath (UserContext.userId ctx) r)
            then FilesRow.is_deleted r' = true
                 ∧ FilesRow.deleted_at r'
                   = Some (clock (world st) (ticks (world st)))
                 ∧ FilesRow.id r' = FilesRow.id r
                 ∧ FilesRow.project_id r' = FilesRow.project_id r
                 ∧ FilesRow.file_path r' = FilesRow.file_path r
                 ∧ FilesRow.user_id r' = FilesRow.user_id r
                 ∧ FilesRow.content r' = FilesRow.content r
            else r' = r)
   ∧ (faults (world st) (S (length (requests (world st)))) = NetOk →
      ∃ files,
        (getProjectFiles projectId
           (deleteProjectFile projectId filePath st).2).1 = Normal files
        ∧ ∀ f, f ∈ files → ProjectFile.filePath f ≠ filePath))
  ∧ (∀ r, r ∈ design_files
                (db (world (deleteDesignFile projectId filePath st).2))
          ↔ r ∈ design_files (db (world st))
            ∧ ¬ design_at projectId filePath (UserContext.userId ctx) r)
  ∧ (length (projects (db (world (deleteProject projectId st).2)))
     = length (projects (db (world st)))
     ∧ ∀ i r, projects (db (world st)) !! i = Some r →
         ∃ r', projects (db (world (deleteProject projectId st).2)) !! i
               = Some r'
           ∧ ProjectsRow.id r' = ProjectsRow.id r
           ∧ if decide (project_is projectId (UserContext.userId ctx) r)
             then ProjectsRow.status r' = "deleted"
             else r' = r).
Proof.
  intros Hs Hc Hf. expose st. subst.
  destruct w as [d u uq rq f c t ls li]. simpl in *.
  split; [|split].
  - unfold deleteProjectFile, update_project_files_deleted. unfold_monad.
    cbn. rewrite Hf. cbn. split; [by rewrite length_fmap|]. split.
    + intros i r Hi. rewrite list_lookup_fmap, Hi. simpl.
      eexists. split; [reflexivity|].
      destruct (decide (file_at projectId filePath (UserContext.userId ctx) r));
        done.
    + intros Hf2. unfold getProjectFiles, select_project_files. unfold_monad.
      cbn. rewrite length_app. simpl.
      replace (length rq + 1) with (S (length rq)) by lia. rewrite Hf2. cbn.
      eexists. split; [reflexivity|]. intros file Hin.
      apply list_elem_of_fmap in Hin as (r & -> & Hr).
      apply soft_deleted_not_listed in Hr. done.
  - unfold deleteDesignFile, delete_design_files. unfold_monad.
    cbn. rewrite Hf. cbn. intros r. rewrite list_elem_of_filter. tauto.
  - unfold deleteProject, update_project_status_deleted. unfold_monad.
    cbn. rewrite Hf. cbn. split; [by rewrite length_fmap|].
    intros i r Hi. rewrite list_lookup_fmap, Hi. simpl.
    eexists. split; [reflexivity|].
    destruct (decide (project_is projectId (UserContext.userId ctx) r)); done.
Qed.

Lemma deletes_keep_their_asymmetry_witness :
  length (project_files
            (db (world (deleteProjectFile "p1" "index.html" with_rows).2))) = 2
  ∧ (∃ files,
       (getProjectFiles "p1"
          (deleteProjectFile "p1" "index.html" with_rows).2).1 = Normal files
       ∧ ∀ f, f ∈ files → ProjectFile.filePath f ≠ "index.html")
  ∧ DesignRow.file_path
      <$> design_files (db (world (deleteDesignFile "p1" "index.html"
                                     with_rows).2))
    = ["style.css"].
Proof.
  destruct (deletes_keep_their_asymmetry "p1" "index.html" alice with_rows)
    as ((L & _ & G) & _ & _).
  - reflexivity.
  - reflexivity.
  - reflexivity.
  - split; [exact L|]. split; [apply G; reflexivity|reflexivity].
Defined.

(** ** C4: identity binding under interleaving *)

(** C4 (counterexample).  Two first-sight invocations for the same Clerk id
    whose selects both run before either insert.  Without a uniqueness
    constraint on [clerk_user_id] both insert: two rows, two different ids.
    With the constraint the second insert is refused and the second
    invocation throws.  Either way the two do not return one id. *)
Lemma ensureUser_check_then_insert_race :
  (let r := interleave [true; false; true; false]
              (AwaitSelect "clerk_1" "a@example.org" None)
              (AwaitSelect "clerk_1" "a@example.org" None)
              (mkState (mkService true None true []) (world0 never false)) in
   r.1 = Normal (Settled (Normal "uuid-0"), Settled (Normal "uuid-1"))
   ∧ UsersRow.id <$> filter (has_clerk "clerk_1") (users (db (world r.2)))
     = ["uuid-0"; "uuid-1"])
  ∧ (let r := interleave [true; false; true; false]
                (AwaitSelect "clerk_1" "a@example.org" None)
                (AwaitSelect "clerk_1" "a@example.org" None)
                (mkState (mkService true None true []) (world0 never true)) in
     r.1 = Normal (Settled (Normal "uuid-0"),
                   Settled (Thrown unique_violation))
     ∧ UsersRow.id <$> filter (has_clerk "clerk_1") (users (db (world r.2)))
       = ["uuid-0"]).
Proof. vm_compute. repeat split. Qed.

Lemma filter_nil_not_Exists {A} (P : A → Prop) `{∀ x, Decision (P x)}
    (l : list A) :
  filter P l = [] → ¬ Exists P l.
Proof.
  intros E Hex. apply Exists_exists in Hex as (x & Hx & HP).
  assert (x ∈ filter P l) as Hin by (by apply list_elem_of_filter).
  rewrite E in Hin. by apply not_elem_of_nil in Hin.
Qed.

Lemma touch_login_filter now clerkUserId (rows : list UsersRow.t) :
  filter (has_clerk clerkUserId)
    ((λ r, if decide (has_clerk clerkUserId r) then touch_login now r else r)
       <$> rows)
  = touch_login now <$> filter (has_clerk clerkUserId) rows.
Proof.
  induction rows as [|r rows IH]; [done|].
  rewrite fmap_cons. destruct (decide (has_clerk clerkUserId r)) as [Y|N].
  - rewrite !filter_cons_True by done. rewrite fmap_cons. by rewrite IH.
  - rewrite !filter_cons_False by done. done.
Qed.

(** C4 (amended).  [ensureUser] is a select followed by a separate update
    or insert.  Two invocations for a Clerk id not yet in [users], the
    second starting after the first has returned, with their four requests
    served: both return the same id, and [users] ends with exactly one row
    for that Clerk id, carrying that id.  This holds with and without a
    uniqueness constraint on [clerk_user_id]. *)
Theorem ensureUser_sequential_converges (clerkUserId email email' : string)
    (fullName fullName' : option string) (st : State) :
  supabase (this st) = true →
  filter (has_clerk clerkUserId) (users (db (world st))) = [] →
  (∀ k, k < 4 →
        faults (world st) (length (requests (world st)) + k) = NetOk) →
  ∃ i,
    (ensureUser clerkUserId email fullName st).1 = Normal i
    ∧ (ensureUser clerkUserId email' fullName'
         (ensureUser clerkUserId email fullName st).2).1 = Normal i
    ∧ UsersRow.id
        <$> filter (has_clerk clerkUserId)
              (users (db (world
                 (ensureUser clerkUserId email' fullName'
                    (ensureUser clerkUserId email fullName st).2).2)))
      = [i].
Proof.
  intros Hs Hnew Hf. expose st. subst.
  destruct w as [d u uq rq f c t ls li]. simpl in *.
  pose proof (Hf 0 ltac:(lia)) as F0. pose proof (Hf 1 ltac:(lia)) as F1.
  pose proof (Hf 2 ltac:(lia)) as F2. pose proof (Hf 3 ltac:(lia)) as F3.
  rewrite Nat.add_0_r in F0.
  exists (gen_random_uuid u).
  assert (E1 :
    ensureUser clerkUserId email fullName
      (mkState (mkService true ctx on q) (mkWorld d u uq rq f c t ls li))
    = (Normal (gen_random_uuid u),
       mkState (mkService true ctx on q)
         (mkWorld
            (set_users
               (users d
                  ++ [UsersRow.mk (gen_random_uuid u) clerkUserId email
                        fullName (c t)]) d)
            (S u) uq
            ((rq ++ [mkRequest SELECT "users"]) ++ [mkRequest INSERT "users"])
            f c (S t) ls li))).
  { unfold ensureUser, ensureUser_step, select_user_id, insert_user.
    unfold_monad. cbn. rewrite F0. cbn. rewrite Hnew. cbn.
    rewrite length_app. cbn. rewrite F1. cbn.
    rewrite (bool_decide_eq_false_2 _ (filter_nil_not_Exists _ _ Hnew)).
    rewrite andb_false_r. reflexivity. }
  rewrite E1. split; [reflexivity|]. cbn [snd].
  unfold ensureUser, ensureUser_step, select_user_id, update_last_login.
  unfold_monad. cbn. rewrite !length_app. cbn.
  replace (length rq + 1 + 1) with (length rq + 2) by lia. rewrite F2. cbn.
  rewrite filter_app, Hnew. cbn.
  rewrite decide_True by done. cbn.
  rewrite !length_app. cbn.
  replace (length rq + 1 + 1 + 1) with (length rq + 3) by lia. rewrite F3. cbn.
  split; [reflexivity|].
  rewrite touch_login_filter, filter_app, Hnew. cbn.
  rewrite decide_True by done. reflexivity.
Qed.

Lemma ensureUser_sequential_converges_witness :
  ∃ i,
    (ensureUser "clerk_1" "a@example.org" None (signed_out never)).1 = Normal i
    ∧ (ensureUser "clerk_1" "a@example.org" None
         (ensureUser "clerk_1" "a@example.org" None (signed_out never)).2).1
      = Normal i.
Proof.
  destruct (ensureUser_sequential_converges "clerk_1" "a@example.org"
              "a@example.org" None None (signed_out never))
    as (i & H1 & H2 & _).
  - reflexivity.
  - reflexivity.
  - intros k _. reflexivity.
  - exists i. split; [exact H1|exact H2].
Defined.

(** * Further properties of the service *)

(** ** Projects *)

(** X1.  [createProject] has no queue fallback.  Without a store handle or
    an identity it throws [Not authenticated] and does nothing else.  With
    both, a failed request is thrown to the caller, and neither the store nor
    the queue changes.  A served request appends one row to [projects] (owned
    by the caller, status [active], no canvas state) and returns its new
    id. *)
Theorem createProject_returns_or_throws (name : string)
    (description : option string) (st : State) :
  (supabase (this st) = false ∨ userContext (this st) = None →
     createProject name description st = (Thrown NotAuthenticated, st))
  ∧ (∀ ctx, supabase (this st) = true → userContext (this st) = Some ctx →
       match faults (world st) (length (requests (world st))) with
       | NetOk =>
           (createProject name description st).1
           = Normal (gen_random_uuid (uuids (world st)))
           ∧ projects (db (world (createProject name description st).2))
             = projects (db (world st))
                 ++ [ProjectsRow.mk (gen_random_uuid (uuids (world st)))
                       (UserContext.userId ctx) name description "active" None
                       (clock (world st) (ticks (world st)))]
       | _ =>
           (createProject name description st).1 = Thrown FetchFailed
           ∧ db (world (createProject name description st).2) = db (world st)
       end
       ∧ this (createProject name description st).2 = this st).
Proof.
  expose st. destruct w as [d u uq rq f c t ls li].
  unfold createProject, insert_project, db_now. unfold_monad. simpl. split.
  - intros [ -> | -> ]; [done|]. by destruct sb.
  - intros ctx' -> ->. destruct (f (length rq)) eqn:Ef; cbn; rewrite ?Ef; done.
Qed.

Lemma createProject_returns_or_throws_witness :
  createProject "site" None (signed_out never)
  = (Thrown NotAuthenticated, signed_out never)
  ∧ (createProject "site" None (signed_in true first_fails)).1
    = Thrown FetchFailed
  ∧ (createProject "site" None (signed_in true never)).1 = Normal "uuid-0".
Proof.
  split; [|split].
  - apply (createProject_returns_or_throws "site" None (signed_out never)).
    right. reflexivity.
  - apply (proj2 (createProject_returns_or_throws "site" None
                    (signed_in true first_fails)) alice eq_refl eq_refl).
  - apply (proj2 (createProject_returns_or_throws "site" None
                    (signed_in true never)) alice eq_refl eq_refl).
Defined.

(** What the methods do when their request is served. *)

Ltac served Hs Hc Hf :=
  match goal with
  | st : State |- _ =>
      expose st; subst;
      match goal with
      | w : World |- _ => destruct w as [d u uq rq f c t ls li]
      end;
      simpl in *; unfold_monad; cbn; rewrite ?Hf; cbn; done
  end.

Lemma getProjects_served st ctx :
  supabase (this st) = true → userContext (this st) = Some ctx →
  faults (world st) (length (requests (world st))) = NetOk →
  (getProjects st).1
  = Normal (take 50
              (merge_sort updated_after
                 (filter (owned_active (UserContext.userId ctx))
                         (projects (db (world st)))))).
Proof. intros Hs Hc Hf. unfold getProjects, select_projects. served Hs Hc Hf. Qed.

Lemma deleteProject_served projectId st ctx :
  supabase (this st) = true → userContext (this st) = Some ctx →
  faults (world st) (length (requests (world st))) = NetOk →
  deleteProject projectId st
  = (Normal (),
     mkState (this st)
       (update_project_status_deleted projectId (UserContext.userId ctx)
          (log_request (mkRequest UPDATE "projects") (world st))).2).
Proof. intros Hs Hc Hf. unfold deleteProject. served Hs Hc Hf. Qed.

Lemma createProject_served name description st ctx :
  supabase (this st) = true → userContext (this st) = Some ctx →
  faults (world st) (length (requests (world st))) = NetOk →
  createProject name description st
  = (Normal (gen_random_uuid (uuids (world st))),
     mkState (this st)
       (insert_project (UserContext.userId ctx) name description
          (log_request (mkRequest INSERT "projects") (world st))).2).
Proof.
  intros Hs Hc Hf. unfold createProject, insert_project, db_now.
  served Hs Hc Hf.
Qed.

(** X2.  A project that [deleteProject] has marked is no longer listed: with
    both requests served, [getProjects] after [deleteProject] returns no row
    with that id. *)
Theorem deleteProject_then_getProjects (projectId : string) (st : State) :
  supabase (this st) = true → is_Some (userContext (this st)) →
  faults (world st) (length (requests (world st))) = NetOk →
  faults (world st) (S (length (requests (world st)))) = NetOk →
  ∃ rows, (getProjects (deleteProject projectId st).2).1 = Normal rows
    ∧ ∀ r, r ∈ rows → ProjectsRow.id r ≠ projectId.
Proof.
  intros Hs [ctx Hc] Hf1 Hf2.
  rewrite (deleteProject_served projectId st ctx Hs Hc Hf1).
  eexists. split.
  - apply (getProjects_served _ ctx); simpl; [done|done|].
    rewrite length_app. simpl.
    by replace (length (requests (world st)) + 1)
         with (S (length (requests (world st)))) by lia.
  - simpl. intros r Hr. apply elem_of_take in Hr as (i & Hi & _).
    apply list_elem_of_lookup_2 in Hi. rewrite merge_sort_Permutation in Hi.
    apply list_elem_of_filter in Hi as [[Hu Ha] Hin].
    apply list_elem_of_fmap in Hin as (r0 & -> & _).
    destruct (decide (project_is projectId (UserContext.userId ctx) r0))
      as [Y|N]; [done|].
    intros Hid. apply N. done.
Qed.

Lemma deleteProject_then_getProjects_witness :
  ∃ rows, (getProjects (deleteProject "59" with_rows).2).1 = Normal rows
    ∧ ∀ r, r ∈ rows → ProjectsRow.id r ≠ "59".
Proof.
  apply (deleteProject_then_getProjects "59" with_rows).
  - reflexivity.
  - eexists. reflexivity.
  - reflexivity.
  - reflexivity.
Defined.

(** X3.  A project just created is listed: with both requests served and
    fewer than 50 active projects of the caller beforehand, [getProjects]
    after [createProject] contains a row with the id [createProject]
    returned, owned by the caller and with the given name. *)
Theorem createProject_then_getProjects (name : string)
    (description : option string) (ctx : UserContext.t) (st : State) :
  supabase (this st) = true → userContext (this st) = Some ctx →
  faults (world st) (length (requests (world st))) = NetOk →
  faults (world st) (S (length (requests (world st)))) = NetOk →
  length (filter (owned_active (UserContext.userId ctx))
                 (projects (db (world st)))) < 50 →
  ∃ i rows r,
    (createProject name description st).1 = Normal i
    ∧ (getProjects (createProject name description st).2).1 = Normal rows
    ∧ r ∈ rows ∧ ProjectsRow.id r = i ∧ ProjectsRow.name r = name
    ∧ ProjectsRow.user_id r = UserContext.userId ctx.
Proof.
  intros Hs Hc Hf1 Hf2 Hlt.
  rewrite (createProject_served name description st ctx Hs Hc Hf1).
  eexists _, _, (ProjectsRow.mk (gen_random_uuid (uuids (world st)))
                   (UserContext.userId ctx) name description "active" None
                   (clock (world st) (ticks (world st)))).
  split; [reflexivity|]. split.
  - apply (getProjects_served _ ctx); simpl; [done|done|].
    rewrite length_app. simpl.
    by replace (length (requests (world st)) + 1)
         with (S (length (requests (world st)))) by lia.
  - split; [|done]. simpl. rewrite take_ge.
    + rewrite merge_sort_Permutation, filter_app.
      apply elem_of_app. right. rewrite filter_cons_True by done.
      apply list_elem_of_here.
    + rewrite merge_sort_Permutation, filter_app, length_app.
      rewrite filter_cons_True by done. simpl. lia.
Qed.

Lemma createProject_then_getProjects_witness :
  ∃ i rows r,
    (createProject "site" None (signed_in true never)).1 = Normal i
    ∧ (getProjects (createProject "site" None (signed_in true never)).2).1
      = Normal rows
    ∧ r ∈ rows ∧ ProjectsRow.id r = i ∧ ProjectsRow.name r = "site"
    ∧ ProjectsRow.user_id r = "uuid-alice".
Proof.
  apply (createProject_then_getProjects "site" None alice
           (signed_in true never)).
  - reflexivity.
  - reflexivity.
  - reflexivity.
  - reflexivity.
  - simpl. lia.
Defined.

(** ** Chat history *)

Lemma getChatHistory_served projectId st ctx :
  supabase (this st) = true → userContext (this st) = Some ctx →
  faults (world st) (length (requests (world st))) = NetOk →
  (getChatHistory projectId st).1
  = Normal ((λ msg, Message.mk (ChatRow.id msg) (ChatRow.role msg)
                               (ChatRow.content msg))
              <$> merge_sort created_before
                    (filter (chat_of projectId (UserContext.userId ctx))
                            (chat_history (db (world st))))).
Proof.
  intros Hs Hc Hf. unfold getChatHistory, select_chat_history.
  served Hs Hc Hf.
Qed.

Lemma deleteChatHistory_served projectId st ctx :
  supabase (this st) = true → userContext (this st) = Some ctx →
  faults (world st) (length (requests (world st))) = NetOk →
  deleteChatHistory projectId st
  = (Normal (),
     mkState (this st)
       (delete_chat_history projectId (UserContext.userId ctx)
          (log_request (mkRequest DELETE "chat_history") (world st))).2).
Proof. intros Hs Hc Hf. unfold deleteChatHistory. served Hs Hc Hf. Qed.

Lemma filter_none {A} (P : A → Prop) `{∀ x, Decision (P x)} (l : list A) :
  (∀ x, x ∈ l → ¬ P x) → filter P l = [].
Proof.
  induction l as [|x l IH]; [done|]. intros Hn.
  rewrite filter_cons_False by (apply Hn; left).
  apply IH. intros y Hy. apply Hn. by right.
Qed.

(** X4.  [deleteChatHistory] removes exactly the caller's messages of that
    project: with the request served, a row of [chat_history] survives if and
    only if it belongs to another project or another user, and a
    [getChatHistory] for the project that follows (served) is empty. *)
Theorem deleteChatHistory_clears_project (projectId : string)
    (ctx : UserContext.t) (st : State) :
  supabase (this st) = true → userContext (this st) = Some ctx →
  faults (world st) (length (requests (world st))) = NetOk →
  (∀ r, r ∈ chat_history (db (world (deleteChatHistory projectId st).2))
        ↔ r ∈ chat_history (db (world st))
          ∧ ¬ (ChatRow.project_id r = projectId
               ∧ ChatRow.user_id r = UserContext.userId ctx))
  ∧ (faults (world st) (S (length (requests (world st)))) = NetOk →
     (getChatHistory projectId (deleteChatHistory projectId st).2).1
     = Normal []).
Proof.
  intros Hs Hc Hf1.
  rewrite (deleteChatHistory_served projectId st ctx Hs Hc Hf1). split.
  - intros r. simpl. rewrite list_elem_of_filter. unfold chat_of. tauto.
  - intros Hf2. rewrite (getChatHistory_served _ _ ctx); simpl; [|done|done|].
    + rewrite filter_none; [done|]. intros r Hr.
      apply list_elem_of_filter in Hr as [Hr _]. done.
    + rewrite length_app. simpl.
      by replace (length (requests (world st)) + 1)
           with (S (length (requests (world st)))) by lia.
Qed.

Lemma deleteChatHistory_clears_project_witness :
  (getChatHistory "p1"
     (deleteChatHistory "p1" (saveChatMessage m1 (signed_in true never)).2).2).1
  = Normal []
  ∧ (getChatHistory "p1" (saveChatMessage m1 (signed_in true never)).2).1
    = Normal [Message.mk "m1" user "hi"].
Proof.
  split; [|reflexivity].
  apply (deleteChatHistory_clears_project "p1" alice
           (saveChatMessage m1 (signed_in true never)).2);
    reflexivity.
Defined.

Lemma remote_served {A} (r : Request) (exec : World → Response A * World) st :
  faults (world st) (length (requests (world st))) = NetOk →
  remote r exec st
  = (Normal (exec (log_request r (world st))).1,
     mkState (this st) (exec (log_request r (world st))).2).
Proof.
  intros Hf. unfold remote. rewrite Hf.
  by destruct (exec (log_request r (world st))).
Qed.

Lemma saveChatMessage_served m i st ctx :
  ChatMessage.id m = Some i → truthy_string i = true →
  supabase (this st) = true → userContext (this st) = Some ctx →
  faults (world st) (length (requests (world st))) = NetOk →
  saveChatMessage m st
  = (Normal (),
     mkState (this st)
       (upsert_chat_history
          (ChatRow.mk i (ChatMessage.projectId m) (UserContext.userId ctx)
             (ChatMessage.role m) (ChatMessage.content m)
             (ChatMessage.modelUsed m) (ChatMessage.tokensUsed m)
             (ChatMessage.responseTimeMs m)
             (default [] (ChatMessage.generatedScreens m)) 0%Z)
          (log_request (mkRequest UPSERT "chat_history") (world st))).2).
Proof.
  intros Hi Ht Hs Hc Hf. expose st. subst.
  unfold saveChatMessage, bind, get_this, try_catch, ret. simpl.
  rewrite Hi, Ht. rewrite remote_served by done.
  pose proof (upsert_chat_history_store
    (ChatRow.mk i (ChatMessage.projectId m) (UserContext.userId ctx)
       (ChatMessage.role m) (ChatMessage.content m)
       (ChatMessage.modelUsed m) (ChatMessage.tokensUsed m)
       (ChatMessage.responseTimeMs m)
       (default [] (ChatMessage.generatedScreens m)) 0%Z)
    (log_request (mkRequest UPSERT "chat_history") w)) as (R & _).
  simpl in *. rewrite R. reflexivity.
Qed.

Lemma filter_fmap {A B} (f : A → B) (P : B → Prop) `{∀ y, Decision (P y)}
    (l : list A) :
  filter P (f <$> l) = f <$> filter (λ x, P (f x)) l.
Proof.
  induction l as [|x l IH]; [done|]. rewrite fmap_cons, !filter_cons.
  case_decide; [rewrite fmap_cons|]; by rewrite IH.
Qed.

Lemma filter_fmap_if {A} (P Q : A → Prop) `{∀ x, Decision (P x)}
    `{∀ x, Decision (Q x)} (h : A → A) (l : list A) :
  (∀ x, P x ↔ Q x) → (∀ x, P x → P (h x)) →
  filter P ((λ r, if decide (Q r) then h r else r) <$> l) = h <$> filter P l.
Proof.
  intros HPQ Hh. induction l as [|x l IH]; [done|]. rewrite fmap_cons.
  destruct (decide (Q x)) as [Y|N].
  - rewrite !filter_cons_True by (try apply Hh; by apply HPQ).
    by rewrite fmap_cons, IH.
  - rewrite !filter_cons_False by (by rewrite HPQ). done.
Qed.

Lemma filter_comm {A} (P Q : A → Prop) `{∀ x, Decision (P x)}
    `{∀ x, Decision (Q x)} (l : list A) :
  filter P (filter Q l) = filter Q (filter P l).
Proof.
  induction l as [|x l IH]; [done|]. rewrite !filter_cons.
  destruct (decide (P x)), (decide (Q x));
    rewrite ?filter_cons_True, ?filter_cons_False by done; by rewrite IH.
Qed.

Lemma length_le_1_inv {A} (l : list A) :
  1 ≤ length l → length l ≤ 1 → ∃ x, l = [x].
Proof. destruct l as [|x [|y l]]; simpl; intros; try lia. by exists x. Qed.

(** After a served upsert exactly one row carries the id, and it carries
    the payload. *)
Lemma upsert_chat_history_one p w :
  length (filter (has_id (ChatRow.id p)) (chat_history (db w))) ≤ 1 →
  ∃ r, filter (has_id (ChatRow.id p))
              (chat_history (db (upsert_chat_history p w).2)) = [r]
       ∧ ChatRow.id r = ChatRow.id p
       ∧ ChatRow.project_id r = ChatRow.project_id p
       ∧ ChatRow.user_id r = ChatRow.user_id p
       ∧ ChatRow.role r = ChatRow.role p
       ∧ ChatRow.content r = ChatRow.content p.
Proof.
  intros Hle. unfold upsert_chat_history. case_decide as Hex; simpl.
  - rewrite (filter_fmap_if (has_id (ChatRow.id p)) (chat_conflict p))
      by done.
    apply conflict_counted in Hex.
    destruct (length_le_1_inv _ Hex Hle) as [r0 ->].
    eexists. split; [reflexivity|done].
  - rewrite filter_app, (no_conflict_none _ _ Hex).
    rewrite filter_cons_True by done. eexists. split; [reflexivity|done].
Qed.

(** An upsert touches the store and nothing else of the world. *)
Lemma upsert_chat_history_frame p w :
  requests (upsert_chat_history p w).2 = requests w
  ∧ faults (upsert_chat_history p w).2 = faults w
  ∧ localStorage (upsert_chat_history p w).2 = localStorage w.
Proof. unfold upsert_chat_history. by case_decide. Qed.

Lemma upsert_design_files_frame p w :
  requests (upsert_design_files p w).2 = requests w
  ∧ faults (upsert_design_files p w).2 = faults w
  ∧ localStorage (upsert_design_files p w).2 = localStorage w.
Proof. unfold upsert_design_files. by case_decide. Qed.

Lemma upsert_project_files_frame p w :
  requests (upsert_project_files p w).2 = requests w
  ∧ faults (upsert_project_files p w).2 = faults w
  ∧ localStorage (upsert_project_files p w).2 = localStorage w.
Proof. unfold upsert_project_files. by case_decide. Qed.

Lemma next_request (rq : list Request) (r : Request) :
  length (rq ++ [r]) = S (length rq).
Proof. rewrite length_app. simpl. lia. Qed.

(** X5.  [saveChatMessage] with an id is an upsert on that id, and
    [getChatHistory] reads it back: with ids unique in [chat_history] and
    both requests served, the history of the message's project contains
    exactly one message with that id, and it has the role and the content
    just saved, whatever was stored under the id before. *)
Theorem saveChatMessage_then_getChatHistory (m : ChatMessage.t) (i : string)
    (st : State) :
  ChatMessage.id m = Some i → truthy_string i = true →
  supabase (this st) = true → is_Some (userContext (this st)) →
  faults (world st) (length (requests (world st))) = NetOk →
  faults (world st) (S (length (requests (world st)))) = NetOk →
  length (filter (has_id i) (chat_history (db (world st)))) ≤ 1 →
  ∃ msgs,
    (getChatHistory (ChatMessage.projectId m) (saveChatMessage m st).2).1
    = Normal msgs
    ∧ filter (λ x, Message.id x = i) msgs
      = [Message.mk i (ChatMessage.role m) (ChatMessage.content m)].
Proof.
  intros Hi Ht Hs [ctx Hc] Hf1 Hf2 Hle.
  rewrite (saveChatMessage_served m i st ctx Hi Ht Hs Hc Hf1).
  set (p := ChatRow.mk i (ChatMessage.projectId m) (UserContext.userId ctx)
              (ChatMessage.role m) (ChatMessage.content m)
              (ChatMessage.modelUsed m) (ChatMessage.tokensUsed m)
              (ChatMessage.responseTimeMs m)
              (default [] (ChatMessage.generatedScreens m)) 0%Z).
  set (w1 := log_request (mkRequest UPSERT "chat_history") (world st)).
  destruct (upsert_chat_history_frame p w1) as (Fr & Ff & _).
  destruct (upsert_chat_history_one p w1 Hle)
    as (r & Hone & Hr1 & Hr2 & Hr3 & Hr4 & Hr5).
  eexists. split.
  - apply (getChatHistory_served _ _ ctx); simpl; [done|done|].
    rewrite Fr, Ff. subst w1. simpl. by rewrite next_request.
  - simpl. rewrite filter_fmap.
    match goal with
    | |- _ <$> ?L = _ => assert (L = [r]) as ->
    end.
    { apply Permutation_singleton_r.
      rewrite merge_sort_Permutation, filter_comm.
      match goal with
      | |- context [filter ?Q (chat_history ?D)] =>
          rewrite (list_filter_iff Q (has_id (ChatRow.id p)) (chat_history D))
            by done
      end.
      rewrite Hone. rewrite filter_cons_True by done. done. }
    simpl. by rewrite Hr1, Hr4, Hr5.
Qed.

Lemma saveChatMessage_then_getChatHistory_witness :
  ∃ msgs,
    (getChatHistory "p1"
       (saveChatMessage
          (ChatMessage.mk (Some "m1") "p1" assistant "edited" None None None
                          None)
          (saveChatMessage m1 (signed_in true never)).2).2).1
    = Normal msgs
    ∧ filter (λ x, Message.id x = "m1") msgs
      = [Message.mk "m1" assistant "edited"].
Proof.
  apply (saveChatMessage_then_getChatHistory
           (ChatMessage.mk (Some "m1") "p1" assistant "edited" None None None
                           None)
           "m1" (saveChatMessage m1 (signed_in true never)).2).
  - reflexivity.
  - reflexivity.
  - reflexivity.
  - eexists. reflexivity.
  - reflexivity.
  - reflexivity.
  - simpl. lia.
Defined.

(** ** Design files *)

Lemma getDesignFiles_served projectId st ctx :
  supabase (this st) = true → userContext (this st) = Some ctx →
  faults (world st) (length (requests (world st))) = NetOk →
  (getDesignFiles projectId st).1
  = Normal ((λ f, DesignFile.mk (Some (DesignRow.id f))
                    (DesignRow.project_id f) (DesignRow.file_path f)
                    (DesignRow.file_type f)
                    (or_string (DesignRow.content f) EmptyString)
                    (Some (or_Z (DesignRow.file_size f) 0))
                    (Some (DesignRow.last_modified f)))
              <$> filter (design_of projectId (UserContext.userId ctx))
                         (design_files (db (world st)))).
Proof.
  intros Hs Hc Hf. unfold getDesignFiles, select_design_files.
  served Hs Hc Hf.
Qed.

Lemma saveDesignFile_served file st ctx :
  supabase (this st) = true → userContext (this st) = Some ctx →
  faults (world st) (length (requests (world st))) = NetOk →
  saveDesignFile file st
  = (Normal (),
     mkState (this st)
       (upsert_design_files
          (DesignRow.mk EmptyString (DesignFile.projectId file)
             (UserContext.userId ctx) (DesignFile.filePath file)
             (DesignFile.fileType file) (Some (DesignFile.content file))
             (Some (String_length (DesignFile.content file))) 0%Z)
          (log_request (mkRequest UPSERT "design_files") (world st))).2).
Proof.
  intros Hs Hc Hf. expose st. subst.
  unfold saveDesignFile, bind, get_this, try_catch, ret. simpl.
  rewrite remote_served by done.
  pose proof (upsert_design_files_store
    (DesignRow.mk EmptyString (DesignFile.projectId file)
       (UserContext.userId ctx) (DesignFile.filePath file)
       (DesignFile.fileType file) (Some (DesignFile.content file))
       (Some (String_length (DesignFile.content file))) 0%Z)
    (log_request (mkRequest UPSERT "design_files") w)) as (R & _).
  simpl in *. rewrite R. reflexivity.
Qed.

Lemma filter_conflict_nil {A} (P : A → Prop) `{∀ x, Decision (P x)}
    (l : list A) :
  ¬ Exists P l → filter P l = [].
Proof.
  intros Hn. apply filter_none. intros x Hx HP. apply Hn.
  apply Exists_exists. eauto.
Qed.

Lemma Exists_filter_length {A} (P : A → Prop) `{∀ x, Decision (P x)}
    (l : list A) :
  Exists P l → 1 ≤ length (filter P l).
Proof.
  induction 1 as [x l HP|x l _ IH]; rewrite filter_cons.
  - rewrite decide_True by done. simpl. lia.
  - case_decide; simpl; lia.
Qed.

Lemma upsert_design_files_one p w :
  length (filter (design_conflict p) (design_files (db w))) ≤ 1 →
  ∃ r, filter (design_conflict p)
              (design_files (db (upsert_design_files p w).2)) = [r]
       ∧ DesignRow.project_id r = DesignRow.project_id p
       ∧ DesignRow.file_path r = DesignRow.file_path p
       ∧ DesignRow.user_id r = DesignRow.user_id p
       ∧ DesignRow.file_type r = DesignRow.file_type p
       ∧ DesignRow.content r = DesignRow.content p
       ∧ DesignRow.file_size r = DesignRow.file_size p.
Proof.
  intros Hle. unfold upsert_design_files. case_decide as Hex; simpl.
  - rewrite (filter_fmap_if (design_conflict p) (design_conflict p)) by done.
    pose proof (Exists_filter_length (design_conflict p) _ Hex) as Hge.
    destruct (length_le_1_inv _ Hge Hle) as [r0 ->].
    eexists. split; [reflexivity|done].
  - rewrite filter_app.
    rewrite (filter_conflict_nil (design_conflict p)) by done.
    rewrite filter_cons_True by done. eexists. split; [reflexivity|done].
Qed.

Lemma or_string_Some s : or_string (Some s) EmptyString = s.
Proof. by destruct s. Qed.

Lemma or_Z_Some n : or_Z (Some n) 0 = n.
Proof. unfold or_Z. destruct (Z.eqb_spec n 0); congruence. Qed.

(** [String_length] counts UTF-16 code units, as [.length] does: one for
    a character of the Basic Multilingual Plane, whatever its number of
    bytes, and two for a character outside it. *)
Example String_length_code_units :
  String_length "index.html" = 10%Z
  ∧ String_length "é" = 1%Z
  ∧ String_length "😀" = 2%Z.
Proof. repeat split. Qed.

(** X6.  [saveDesignFile] is an upsert on (project, path), and
    [getDesignFiles] reads it back: with at most one row stored under that
    key and both requests served, the project's files contain exactly one
    file at that path, and it has the type and the content just saved, with
    the content's length (in UTF-16 code units) as its size. *)
Theorem saveDesignFile_then_getDesignFiles (file : DesignFile.t) (st : State) :
  supabase (this st) = true → is_Some (userContext (this st)) →
  faults (world st) (length (requests (world st))) = NetOk →
  faults (world st) (S (length (requests (world st)))) = NetOk →
  length (filter (λ r, DesignRow.project_id r = DesignFile.projectId file
                       ∧ DesignRow.file_path r = DesignFile.filePath file)
                 (design_files (db (world st)))) ≤ 1 →
  ∃ files f,
    (getDesignFiles (DesignFile.projectId file) (saveDesignFile file st).2).1
    = Normal files
    ∧ filter (λ x, DesignFile.filePath x = DesignFile.filePath file) files
      = [f]
    ∧ DesignFile.projectId f = DesignFile.projectId file
    ∧ DesignFile.fileType f = DesignFile.fileType file
    ∧ DesignFile.content f = DesignFile.content file
    ∧ DesignFile.fileSize f = Some (String_length (DesignFile.content file)).
Proof.
  intros Hs [ctx Hc] Hf1 Hf2 Hle.
  rewrite (saveDesignFile_served file st ctx Hs Hc Hf1).
  set (p := DesignRow.mk EmptyString (DesignFile.projectId file)
              (UserContext.userId ctx) (DesignFile.filePath file)
              (DesignFile.fileType file) (Some (DesignFile.content file))
              (Some (String_length (DesignFile.content file))) 0%Z).
  set (w1 := log_request (mkRequest UPSERT "design_files") (world st)).
  destruct (upsert_design_files_frame p w1) as (Fr & Ff & _).
  destruct (upsert_design_files_one p w1 Hle)
    as (r & Hone & Hr1 & Hr2 & Hr3 & Hr4 & Hr5 & Hr6).
  eexists _, _. split.
  - apply (getDesignFiles_served _ _ ctx); simpl; [done|done|].
    rewrite Fr, Ff. subst w1. simpl. by rewrite next_request.
  - simpl. rewrite filter_fmap, filter_comm.
    match goal with
    | |- context [filter ?Q (design_files ?D)] =>
        rewrite (list_filter_iff Q
                   (λ x, DesignRow.file_path x = DesignRow.file_path p)
                   (design_files D)) by done
    end.
    rewrite list_filter_filter.
    match goal with
    | |- context [filter ?Q (design_files ?D)] =>
        rewrite (list_filter_iff Q
                   (λ x, DesignRow.user_id x = DesignRow.user_id p
                         ∧ design_conflict p x)
                   (design_files D))
          by (unfold design_of, design_conflict; simpl; tauto)
    end.
    rewrite <-list_filter_filter, Hone.
    rewrite filter_cons_True by done. simpl.
    split; [reflexivity|]. simpl.
    rewrite Hr1, Hr4, Hr5, Hr6. simpl.
    pose proof (or_string_Some (DesignFile.content file)) as E1.
    pose proof (or_Z_Some (String_length (DesignFile.content file))) as E2.
    simpl in E1, E2. unfold or_Z in E2. by rewrite E1, E2.
Qed.

Lemma saveDesignFile_then_getDesignFiles_witness :
  ∃ files f,
    (getDesignFiles "p1"
       (saveDesignFile
          (DesignFile.mk None "p1" "index.html" "html" "café 😀" None None)
          (saveDesignFile
             (DesignFile.mk None "p1" "index.html" "html" "A" None None)
             (signed_in true never)).2).2).1
    = Normal files
    ∧ filter (λ x, DesignFile.filePath x = "index.html") files = [f]
    ∧ DesignFile.content f = "café 😀"
    ∧ DesignFile.fileSize f = Some 7%Z.
Proof.
  destruct (saveDesignFile_then_getDesignFiles
              (DesignFile.mk None "p1" "index.html" "html" "café 😀" None
                             None)
              (saveDesignFile
                 (DesignFile.mk None "p1" "index.html" "html" "A" None None)
                 (signed_in true never)).2)
    as (files & f & H1 & H2 & _ & _ & H3 & H4).
  - reflexivity.
  - eexists. reflexivity.
  - reflexivity.
  - reflexivity.
  - simpl. lia.
  - exists files, f. split; [exact H1|]. split; [exact H2|].
    split; [exact H3|exact H4].
Defined.

(** ** Project files *)

Lemma getProjectFiles_served projectId st ctx :
  supabase (this st) = true → userContext (this st) = Some ctx →
  faults (world st) (length (requests (world st))) = NetOk →
  (getProjectFiles projectId st).1
  = Normal (ProjectFile_of_row
              <$> filter (live_file_of projectId (UserContext.userId ctx))
                         (project_files (db (world st)))).
Proof.
  intros Hs Hc Hf. unfold getProjectFiles, select_project_files.
  served Hs Hc Hf.
Qed.

(** The row [saveProjectFile] sends. *)
Lemma saveProjectFile_served file st ctx :
  supabase (this st) = true → userContext (this st) = Some ctx →
  faults (world st) (length (requests (world st))) = NetOk →
  saveProjectFile file st
  = (Normal (),
     mkState (this st)
       (upsert_project_files
          (FilesRow.mk EmptyString (ProjectFile.projectId file)
             (UserContext.userId ctx) (ProjectFile.filePath file)
             (Some (ProjectFile.content file))
             (default false (ProjectFile.isBinary file))
             (ProjectFile.mimeType file)
             (or_Z (ProjectFile.fileSize file)
                (if truthy_string (ProjectFile.content file)
                 then String_length (ProjectFile.content file)
                 else 0%Z))
             (default false (ProjectFile.isDeleted file)) None)
          (log_request (mkRequest UPSERT "project_files") (world st))).2).
Proof.
  intros Hs Hc Hf. expose st. subst.
  unfold saveProjectFile, bind, get_this, try_catch, ret. simpl.
  rewrite remote_served by done.
  pose proof (upsert_project_files_store
    (FilesRow.mk EmptyString (ProjectFile.projectId file)
       (UserContext.userId ctx) (ProjectFile.filePath file)
       (Some (ProjectFile.content file))
       (default false (ProjectFile.isBinary file))
       (ProjectFile.mimeType file)
       (or_Z (ProjectFile.fileSize file)
          (if truthy_string (ProjectFile.content file)
           then String_length (ProjectFile.content file)
           else 0%Z))
       (default false (ProjectFile.isDeleted file)) None)
    (log_request (mkRequest UPSERT "project_files") w)) as (R & _).
  simpl in *. rewrite R. reflexivity.
Qed.

Lemma upsert_project_files_one p w :
  length (filter (file_conflict p) (project_files (db w))) ≤ 1 →
  ∃ r, filter (file_conflict p)
              (project_files (db (upsert_project_files p w).2)) = [r]
       ∧ FilesRow.project_id r = FilesRow.project_id p
       ∧ FilesRow.file_path r = FilesRow.file_path p
       ∧ FilesRow.user_id r = FilesRow.user_id p
       ∧ FilesRow.content r = FilesRow.content p
       ∧ FilesRow.file_size r = FilesRow.file_size p
       ∧ FilesRow.is_deleted r = FilesRow.is_deleted p.
Proof.
  intros Hle. unfold upsert_project_files. case_decide as Hex; simpl.
  - rewrite (filter_fmap_if (file_conflict p) (file_conflict p)) by done.
    pose proof (Exists_filter_length (file_conflict p) _ Hex) as Hge.
    destruct (length_le_1_inv _ Hge Hle) as [r0 ->].
    eexists. split; [reflexivity|done].
  - rewrite filter_app.
    rewrite (filter_conflict_nil (file_conflict p)) by done.
    rewrite filter_cons_True by done. eexists. split; [reflexivity|done].
Qed.

Lemma content_length (s : string) :
  (if truthy_string s then String_length s else 0%Z) = String_length s.
Proof. by destruct s. Qed.

(** What a listing of the payload's project shows at the payload's path
    once the payload has been upserted. *)
Lemma upserted_file_listing p w :
  length (filter (file_conflict p) (project_files (db w))) ≤ 1 →
  ∃ r, FilesRow.project_id r = FilesRow.project_id p
       ∧ FilesRow.content r = FilesRow.content p
       ∧ FilesRow.file_size r = FilesRow.file_size p
       ∧ FilesRow.is_deleted r = FilesRow.is_deleted p
       ∧ filter (λ x, ProjectFile.filePath x = FilesRow.file_path p)
           (ProjectFile_of_row
              <$> filter (live_file_of (FilesRow.project_id p)
                                       (FilesRow.user_id p))
                         (project_files (db (upsert_project_files p w).2)))
         = if FilesRow.is_deleted p then [] else [ProjectFile_of_row r].
Proof.
  intros Hle.
  destruct (upsert_project_files_one p w Hle)
    as (r & Hone & Hr1 & Hr2 & Hr3 & Hr4 & Hr5 & Hr6).
  exists r. split; [done|]. split; [done|]. split; [done|]. split; [done|].
  rewrite filter_fmap, list_filter_filter.
  match goal with
  | |- context [filter ?Q (project_files ?D)] =>
      rewrite (list_filter_iff Q
                 (λ x, (FilesRow.user_id x = FilesRow.user_id p
                        ∧ FilesRow.is_deleted x = false)
                       ∧ file_conflict p x)
                 (project_files D))
        by (unfold live_file_of, file_conflict; simpl; tauto)
  end.
  rewrite <-list_filter_filter, Hone.
  destruct (FilesRow.is_deleted p) eqn:Ed.
  - rewrite filter_cons_False by (rewrite Hr6; intros [_ ?]; done). done.
  - rewrite filter_cons_True by done. done.
Qed.

(** X7.  [saveProjectFile] is an upsert on (project, path), and
    [getProjectFiles] reads it back: with at most one row stored under that
    key and both requests served, the project's files contain exactly one
    file at that path, with the content just saved and with the size the
    caller gave or, when that is absent or zero, the content's length (in
    UTF-16 code units).  A file saved with [isDeleted] set is not listed at
    all. *)
Theorem saveProjectFile_then_getProjectFiles (file : ProjectFile.t)
    (st : State) :
  supabase (this st) = true → is_Some (userContext (this st)) →
  faults (world st) (length (requests (world st))) = NetOk →
  faults (world st) (S (length (requests (world st)))) = NetOk →
  length (filter (λ r, FilesRow.project_id r = ProjectFile.projectId file
                       ∧ FilesRow.file_path r = ProjectFile.filePath file)
                 (project_files (db (world st)))) ≤ 1 →
  ∃ files,
    (getProjectFiles (ProjectFile.projectId file)
       (saveProjectFile file st).2).1 = Normal files
    ∧ if default false (ProjectFile.isDeleted file)
      then filter (λ x, ProjectFile.filePath x = ProjectFile.filePath file)
                  files = []
      else ∃ f,
        filter (λ x, ProjectFile.filePath x = ProjectFile.filePath file) files
        = [f]
        ∧ ProjectFile.projectId f = ProjectFile.projectId file
        ∧ ProjectFile.content f = ProjectFile.content file
        ∧ ProjectFile.fileSize f
          = Some (or_Z (ProjectFile.fileSize file)
                       (String_length (ProjectFile.content file)))
        ∧ ProjectFile.isDeleted f = Some false.
Proof.
  intros Hs [ctx Hc] Hf1 Hf2 Hle.
  rewrite (saveProjectFile_served file st ctx Hs Hc Hf1).
  rewrite content_length.
  set (p := FilesRow.mk EmptyString (ProjectFile.projectId file)
              (UserContext.userId ctx) (ProjectFile.filePath file)
              (Some (ProjectFile.content file))
              (default false (ProjectFile.isBinary file))
              (ProjectFile.mimeType file)
              (or_Z (ProjectFile.fileSize file)
                 (String_length (ProjectFile.content file)))
              (default false (ProjectFile.isDeleted file)) None).
  set (w1 := log_request (mkRequest UPSERT "project_files") (world st)).
  destruct (upsert_project_files_frame p w1) as (Fr & Ff & _).
  destruct (upserted_file_listing p w1 Hle)
    as (r & Hr1 & Hr4 & Hr5 & Hr6 & Hlist).
  eexists. split.
  - apply (getProjectFiles_served _ _ ctx); simpl; [done|done|].
    rewrite Fr, Ff. subst w1. simpl. by rewrite next_request.
  - simpl in *. rewrite Hlist.
    destruct (default false (ProjectFile.isDeleted file)); [done|].
    eexists. split; [reflexivity|]. simpl. rewrite Hr1, Hr4, Hr5, Hr6. simpl.
    pose proof (or_string_Some (ProjectFile.content file)) as E1.
    simpl in E1. by rewrite E1.
Qed.

Lemma saveProjectFile_then_getProjectFiles_witness :
  ∃ files,
    (getProjectFiles "p1"
       (saveProjectFile
          (ProjectFile.mk None "p1" "app.js" "let π = 3" None None (Some 0%Z)
                          None)
          with_rows).2).1 = Normal files
    ∧ ∃ f, filter (λ x, ProjectFile.filePath x = "app.js") files = [f]
           ∧ ProjectFile.content f = "let π = 3"
           ∧ ProjectFile.fileSize f = Some 9%Z.
Proof.
  destruct (saveProjectFile_then_getProjectFiles
              (ProjectFile.mk None "p1" "app.js" "let π = 3" None None (Some 0%Z)
                              None)
              with_rows) as (files & H1 & f & H2 & _ & H3 & H4 & _).
  - reflexivity.
  - eexists. reflexivity.
  - reflexivity.
  - reflexivity.
  - simpl. lia.
  - exists files. split; [exact H1|]. exists f.
    split; [exact H2|]. split; [exact H3|exact H4].
Defined.

Lemma deleteProjectFile_served projectId filePath st ctx :
  supabase (this st) = true → userContext (this st) = Some ctx →
  faults (world st) (length (requests (world st))) = NetOk →
  deleteProjectFile projectId filePath st
  = (Normal (),
     mkState (this st)
       (update_project_files_deleted (clock (world st) (ticks (world st)))
          projectId filePath (UserContext.userId ctx)
          (log_request (mkRequest UPDATE "project_files")
                       (tick (world st)))).2).
Proof. intros Hs Hc Hf. unfold deleteProjectFile. served Hs Hc Hf. Qed.

Lemma length_filter_fmap_keeping {A} (P : A → Prop) `{∀ x, Decision (P x)}
    (g : A → A) (l : list A) :
  (∀ x, P (g x) ↔ P x) → length (filter P (g <$> l)) = length (filter P l).
Proof.
  intros Hg. induction l as [|x l IH]; [done|]. rewrite fmap_cons.
  destruct (decide (P x)) as [Y|N].
  - rewrite !filter_cons_True by (by rewrite ?Hg). simpl. by rewrite IH.
  - rewrite !filter_cons_False by (by rewrite ?Hg). done.
Qed.

(** X8.  A soft-deleted project file comes back when it is saved again:
    after [deleteProjectFile] and then [saveProjectFile] for the same project
    and path (without [isDeleted]), all requests served, [getProjectFiles]
    lists exactly one file at that path, with the newly saved content. *)
Theorem deleted_project_file_returns_on_save (file : ProjectFile.t)
    (st : State) :
  supabase (this st) = true → is_Some (userContext (this st)) →
  (∀ k, k < 3 →
        faults (world st) (length (requests (world st)) + k) = NetOk) →
  default false (ProjectFile.isDeleted file) = false →
  length (filter (λ r, FilesRow.project_id r = ProjectFile.projectId file
                       ∧ FilesRow.file_path r = ProjectFile.filePath file)
                 (project_files (db (world st)))) ≤ 1 →
  ∃ files f,
    (getProjectFiles (ProjectFile.projectId file)
       (saveProjectFile file
          (deleteProjectFile (ProjectFile.projectId file)
                             (ProjectFile.filePath file) st).2).2).1
    = Normal files
    ∧ filter (λ x, ProjectFile.filePath x = ProjectFile.filePath file) files
      = [f]
    ∧ ProjectFile.content f = ProjectFile.content file
    ∧ ProjectFile.isDeleted f = Some false.
Proof.
  intros Hs [ctx Hc] Hf Hnd Hle.
  pose proof (Hf 0 ltac:(lia)) as F0. pose proof (Hf 1 ltac:(lia)) as F1.
  pose proof (Hf 2 ltac:(lia)) as F2. rewrite Nat.add_0_r in F0.
  rewrite (deleteProjectFile_served _ _ st ctx Hs Hc F0).
  rewrite (saveProjectFile_served file _ ctx)
    by (simpl; rewrite ?next_request; try done; rewrite <-F1; f_equal; lia).
  rewrite content_length, Hnd. simpl.
  set (p := FilesRow.mk EmptyString (ProjectFile.projectId file)
              (UserContext.userId ctx) (ProjectFile.filePath file)
              (Some (ProjectFile.content file))
              (default false (ProjectFile.isBinary file))
              (ProjectFile.mimeType file)
              (or_Z (ProjectFile.fileSize file)
                 (String_length (ProjectFile.content file)))
              false None).
  match goal with
  | |- context [upsert_project_files p ?w] => set (w2 := w)
  end.
  assert (length (filter (file_conflict p) (project_files (db w2))) ≤ 1)
    as Hle2.
  { subst w2. simpl. rewrite length_filter_fmap_keeping; [done|].
    intros x. by case_decide. }
  destruct (upsert_project_files_frame p w2) as (Fr & Ff & _).
  destruct (upserted_file_listing p w2 Hle2)
    as (r & Hr1 & Hr4 & Hr5 & Hr6 & Hlist).
  eexists _, _. split.
  - apply (getProjectFiles_served _ _ ctx); simpl; [done|done|].
    rewrite Fr, Ff. subst w2. simpl. rewrite !next_request.
    rewrite <-F2. f_equal. lia.
  - simpl in *. rewrite Hlist. split; [reflexivity|]. simpl.
    rewrite Hr4, Hr6. simpl.
    pose proof (or_string_Some (ProjectFile.content file)) as E1.
    simpl in E1. by rewrite E1.
Qed.

Lemma deleted_project_file_returns_on_save_witness :
  ∃ files f,
    (getProjectFiles "p1"
       (saveProjectFile
          (ProjectFile.mk None "p1" "app.js" "let x" None None None None)
          (deleteProjectFile "p1" "app.js" with_rows).2).2).1 = Normal files
    ∧ filter (λ x, ProjectFile.filePath x = "app.js") files = [f]
    ∧ ProjectFile.content f = "let x"
    ∧ ProjectFile.isDeleted f = Some false.
Proof.
  apply (deleted_project_file_returns_on_save
           (ProjectFile.mk None "p1" "app.js" "let x" None None None None)
           with_rows).
  - reflexivity.
  - eexists. reflexivity.
  - intros k _. reflexivity.
  - reflexivity.
  - simpl. lia.
Defined.

(** ** Canvas state *)

Lemma saveCanvasState_served projectId canvasState st ctx :
  supabase (this st) = true → userContext (this st) = Some ctx →
  faults (world st) (length (requests (world st))) = NetOk →
  saveCanvasState projectId canvasState st
  = (Normal (),
     mkState (this st)
       (update_projects
          (ProjectsPatch.mk None None None None None (Some canvasState) None)
          projectId (UserContext.userId ctx)
          (log_request (mkRequest UPDATE "projects") (world st))).2).
Proof. intros Hs Hc Hf. unfold saveCanvasState. served Hs Hc Hf. Qed.

Lemma getCanvasState_served projectId st ctx :
  supabase (this st) = true → userContext (this st) = Some ctx →
  faults (world st) (length (requests (world st))) = NetOk →
  (getCanvasState projectId st).1
  = Normal match filter (project_is projectId (UserContext.userId ctx))
                        (projects (db (world st))) with
           | [r] => ProjectsRow.canvas_state r
           | _ => None
           end.
Proof.
  intros Hs Hc Hf. unfold getCanvasState, select_canvas_state.
  expose st. subst. destruct w as [d u uq rq f c t ls li].
  simpl in *. unfold_monad. cbn. rewrite Hf. cbn.
  by destruct (filter (project_is projectId (UserContext.userId ctx))
                      (projects d)) as [|r [|r' l]].
Qed.

Lemma fmap_if_none {A} (P : A → Prop) `{∀ x, Decision (P x)} (h : A → A)
    (l : list A) :
  filter P l = [] → (λ r, if decide (P r) then h r else r) <$> l = l.
Proof.
  induction l as [|x l IH]; [done|]. rewrite filter_cons, fmap_cons.
  case_decide; [done|]. intros E. by rewrite IH.
Qed.

(** X9.  [saveCanvasState] and [getCanvasState] round-trip on a project
    of the caller: with both requests served and exactly one row of
    [projects] with that id and owner, the state read back is the state
    saved.  When no such row exists the save changes nothing (and reports
    nothing), and the read returns [null]. *)
Theorem saveCanvasState_then_getCanvasState (projectId : string)
    (canvasState : option Json) (ctx : UserContext.t) (st : State) :
  supabase (this st) = true → userContext (this st) = Some ctx →
  faults (world st) (length (requests (world st))) = NetOk →
  faults (world st) (S (length (requests (world st)))) = NetOk →
  (length (filter (project_is projectId (UserContext.userId ctx))
                  (projects (db (world st)))) = 1 →
   (getCanvasState projectId
      (saveCanvasState projectId canvasState st).2).1 = Normal canvasState)
  ∧ (filter (project_is projectId (UserContext.userId ctx))
            (projects (db (world st))) = [] →
     (saveCanvasState projectId canvasState st).1 = Normal ()
     ∧ db (world (saveCanvasState projectId canvasState st).2) = db (world st)
     ∧ (getCanvasState projectId
          (saveCanvasState projectId canvasState st).2).1 = Normal None).
Proof.
  intros Hs Hc Hf1 Hf2.
  rewrite (saveCanvasState_served projectId canvasState st ctx Hs Hc Hf1).
  split; intros H;
    rewrite (getCanvasState_served projectId _ ctx)
      by (simpl; rewrite ?next_request; done);
    unfold update_projects; simpl.
  - rewrite (filter_fmap_if (project_is projectId (UserContext.userId ctx))
               (project_is projectId (UserContext.userId ctx)))
      by done.
    destruct (filter (project_is projectId (UserContext.userId ctx))
                (projects (db (world st)))) as [|r [|r' l]];
      simpl in H; try lia.
    reflexivity.
  - rewrite (fmap_if_none _ _ _ H), H.
    split; [done|]. split; [|done]. by destruct (db (world st)).
Qed.

Lemma saveCanvasState_then_getCanvasState_witness :
  (getCanvasState "7" (saveCanvasState "7" (Some "{}") with_rows).2).1
  = Normal (Some "{}")
  ∧ (getCanvasState "other" (saveCanvasState "other" (Some "{}") with_rows).2).1
    = Normal None.
Proof.
  split.
  - apply (saveCanvasState_then_getCanvasState "7" (Some "{}") alice with_rows);
      reflexivity.
  - apply (saveCanvasState_then_getCanvasState "other" (Some "{}") alice
             with_rows); reflexivity.
Defined.

(** ** Identity binding, sequentially *)

(** X10.  A user seen before keeps their id: with exactly one row of
    [users] for the Clerk id and both requests served, [ensureUser] returns
    that row's id, adds no row, and stamps the row's [last_login_at] with
    the time of the call. *)
Theorem ensureUser_returning_user (clerkUserId email : string)
    (fullName : option string) (r : UsersRow.t) (st : State) :
  supabase (this st) = true →
  filter (has_clerk clerkUserId) (users (db (world st))) = [r] →
  faults (world st) (length (requests (world st))) = NetOk →
  faults (world st) (S (length (requests (world st)))) = NetOk →
  (ensureUser clerkUserId email fullName st).1 = Normal (UsersRow.id r)
  ∧ length (users (db (world (ensureUser clerkUserId email fullName st).2)))
    = length (users (db (world st)))
  ∧ filter (has_clerk clerkUserId)
           (users (db (world (ensureUser clerkUserId email fullName st).2)))
    = [touch_login (clock (world st) (ticks (world st))) r].
Proof.
  intros Hs Hone Hf1 Hf2. expose st. subst.
  destruct w as [d u uq rq f c t ls li]. simpl in *.
  unfold ensureUser, ensureUser_step, select_user_id, update_last_login.
  unfold_monad. cbn. rewrite Hf1. cbn. rewrite Hone. cbn.
  rewrite next_request, Hf2. cbn.
  split; [done|]. split; [by rewrite length_fmap|].
  by rewrite touch_login_filter, Hone.
Qed.

Lemma ensureUser_returning_user_witness :
  (ensureUser "clerk_1" "new@example.org" None
     (ensureUser "clerk_1" "a@example.org" None (signed_out never)).2).1
  = Normal "uuid-0".
Proof.
  apply (ensureUser_returning_user "clerk_1" "new@example.org" None
           (UsersRow.mk "uuid-0" "clerk_1" "a@example.org" None 1000%Z)
           (ensureUser "clerk_1" "a@example.org" None (signed_out never)).2);
    reflexivity.
Defined.

(** X11.  The lookup's error is not examined.  When the select comes back
    as an error response and the insert is served, [ensureUser] inserts
    whether or not the user exists: without a uniqueness constraint on
    [clerk_user_id], or for a new user, it appends a row and returns a fresh
    id; with the constraint, for an existing user, the insert is refused and
    the call throws, leaving [users] as it was. *)
Theorem ensureUser_lookup_error_inserts (clerkUserId email : string)
    (fullName : option string) (st : State) :
  supabase (this st) = true →
  faults (world st) (length (requests (world st))) = NetError →
  faults (world st) (S (length (requests (world st)))) = NetOk →
  if users_clerk_unique (world st)
     && bool_decide (Exists (has_clerk clerkUserId) (users (db (world st))))
  then (ensureUser clerkUserId email fullName st).1 = Thrown unique_violation
       ∧ users (db (world (ensureUser clerkUserId email fullName st).2))
         = users (db (world st))
  else (ensureUser clerkUserId email fullName st).1
       = Normal (gen_random_uuid (uuids (world st)))
       ∧ users (db (world (ensureUser clerkUserId email fullName st).2))
         = users (db (world st))
             ++ [UsersRow.mk (gen_random_uuid (uuids (world st))) clerkUserId
                             email fullName
                             (clock (world st) (ticks (world st)))].
Proof.
  intros Hs Hf1 Hf2. expose st. subst.
  destruct w as [d u uq rq f c t ls li]. simpl in *.
  unfold ensureUser, ensureUser_step, select_user_id, insert_user.
  unfold_monad. cbn. rewrite Hf1. cbn. rewrite next_request, Hf2. cbn.
  destruct (uq && bool_decide (Exists (has_clerk clerkUserId) (users d)));
    done.
Qed.

Lemma ensureUser_lookup_error_inserts_witness :
  (ensureUser "clerk_1" "a@example.org" None
     (mkState (mkService true None true [])
        (set_db (set_users
                   [UsersRow.mk "uuid-9" "clerk_1" "a@example.org" None 5%Z]
                   empty_db)
                (world0 first_fails false)))).1
  = Normal "uuid-0".
Proof.
  apply (ensureUser_lookup_error_inserts "clerk_1" "a@example.org" None
           (mkState (mkService true None true [])
              (set_db (set_users
                         [UsersRow.mk "uuid-9" "clerk_1" "a@example.org" None
                                      5%Z]
                         empty_db)
                      (world0 first_fails false))));
    reflexivity.
Defined.

(** ** What every call keeps *)

Ltac split_cases :=
  repeat (cbn in *; first
    [ case_decide
    | match goal with
      | f : nat → Outcome |- context [match ?g ?n with _ => _ end] =>
          constr_eq f g; destruct (f n) eqn:?
      | |- context [truthy_string ?x] => destruct (truthy_string x) eqn:?
      | |- context [single ?l] => destruct (single l) as [[?|] [?|]] eqn:?
      | |- context [match ?x with _ => _ end] => is_var x; destruct x
      | |- context [match ?p ?m with _ => _ end] =>
          is_var m; destruct (p m) eqn:?
      | |- context [if ?x then _ else _] => is_var x; destruct x
      | g : nat → bool |- context [if ?h ?n then _ else _] =>
          constr_eq g h; destruct (g n) eqn:?
      | |- context [?x && _] => is_var x; destruct x
      | |- context [bool_decide ?P] => destruct (bool_decide P) eqn:?
      end ]).

(** A storage that accepts its writes keeps doing so once it has seen one
    more, and has not refused the one it saw. *)
Ltac storage_cases :=
  unfold storage_works, refusal, written in *; cbn in *;
  match goal with
  | H : ∀ n, _ ≤ n → ?g n = false, E : ?g ?k = true |- _ =>
      rewrite H in E by lia; discriminate E
  | H : ∀ n, _ ≤ n → ?g n = false |- ∀ n, _ ≤ n → ?g n = false =>
      let n := fresh "n" in
      let Hn := fresh "Hn" in
      intros n Hn; apply H; lia
  | _ => idtac
  end.

Ltac framed_call :=
  match goal with
  | st : State |- _ =>
      expose st;
      match goal with
      | w : World |- _ => destruct w as [d u uq rq f c t [[it g n]|] li]
      end
  end;
  unfold queueOperation, upsert_chat_history, upsert_design_files,
    upsert_project_files, upsert_user_settings, db_now, insert_project,
    select_user_id, insert_user, update_last_login;
  unfold_monad; split_cases;
  unfold framed, mirrored, stored_queue; cbn;
  repeat split; intros; simplify_eq; rewrite ?lookup_insert_eq; eauto;
  storage_cases.

Lemma setUserContext_framed context st :
  framed st (setUserContext context st).2.
Proof. unfold setUserContext. framed_call. Qed.

Lemma saveChatMessage_framed m st : framed st (saveChatMessage m st).2.
Proof. unfold saveChatMessage. framed_call. Qed.

Lemma saveDesignFile_framed file st : framed st (saveDesignFile file st).2.
Proof. unfold saveDesignFile. framed_call. Qed.

Lemma saveProjectFile_framed file st : framed st (saveProjectFile file st).2.
Proof. unfold saveProjectFile. framed_call. Qed.

Lemma saveUserSettings_framed settings st :
  framed st (saveUserSettings settings st).2.
Proof. unfold saveUserSettings. framed_call. Qed.

Lemma ensureUser_framed clerkUserId email fullName st :
  framed st (ensureUser clerkUserId email fullName st).2.
Proof. unfold ensureUser, ensureUser_step, settle. framed_call. Qed.

Lemma getChatHistory_framed projectId st :
  framed st (getChatHistory projectId st).2.
Proof. unfold getChatHistory, select_chat_history. framed_call. Qed.

Lemma deleteChatHistory_framed projectId st :
  framed st (deleteChatHistory projectId st).2.
Proof. unfold deleteChatHistory, delete_chat_history. framed_call. Qed.

Lemma createProject_framed name description st :
  framed st (createProject name description st).2.
Proof. unfold createProject. framed_call. Qed.

Lemma getProjects_framed st : framed st (getProjects st).2.
Proof. unfold getProjects, select_projects. framed_call. Qed.

Lemma updateProject_framed projectId updates st :
  framed st (updateProject projectId updates st).2.
Proof. unfold updateProject, update_projects. framed_call. Qed.

Lemma deleteProject_framed projectId st :
  framed st (deleteProject projectId st).2.
Proof. unfold deleteProject, update_project_status_deleted. framed_call. Qed.

Lemma getDesignFiles_framed projectId st :
  framed st (getDesignFiles projectId st).2.
Proof. unfold getDesignFiles, select_design_files. framed_call. Qed.

Lemma deleteDesignFile_framed projectId filePath st :
  framed st (deleteDesignFile projectId filePath st).2.
Proof. unfold deleteDesignFile, delete_design_files. framed_call. Qed.

Lemma getProjectFiles_framed projectId st :
  framed st (getProjectFiles projectId st).2.
Proof. unfold getProjectFiles, select_project_files. framed_call. Qed.

Lemma deleteProjectFile_framed projectId filePath st :
  framed st (deleteProjectFile projectId filePath st).2.
Proof. unfold deleteProjectFile, update_project_files_deleted. framed_call. Qed.

Lemma getUserSettings_framed st : framed st (getUserSettings st).2.
Proof. unfold getUserSettings, select_user_settings. framed_call. Qed.

Lemma saveCanvasState_framed projectId canvasState st :
  framed st (saveCanvasState projectId canvasState st).2.
Proof. unfold saveCanvasState, update_projects. framed_call. Qed.

Lemma getCanvasState_framed projectId st :
  framed st (getCanvasState projectId st).2.
Proof. unfold getCanvasState, select_canvas_state. framed_call. Qed.

Lemma getSyncStatus_framed st : framed st (getSyncStatus st).2.
Proof. unfold getSyncStatus. framed_call. Qed.

Lemma framed_refl st : framed st st.
Proof. unfold framed. auto. Qed.

Lemma framed_trans st1 st2 st3 :
  framed st1 st2 → framed st2 st3 → framed st1 st3.
Proof.
  intros (A1 & A2 & A3 & A4) (B1 & B2 & B3 & B4). unfold framed.
  split; [congruence|]. split; [auto|]. split.
  - intros Hs. destruct (A3 Hs) as [E1 E2].
    destruct (B3 ltac:(congruence)) as [E3 E4]. split; congruence.
  - intros Hw. destruct (A4 Hw) as [Hw2 Hm2]. destruct (B4 Hw2) as [Hw3 Hm3].
    auto.
Qed.

Lemma processOfflineQueue_framed st : framed st (processOfflineQueue st).2.
Proof.
  destruct (isOnline (this st)) eqn:Ho;
    [destruct (supabase (this st)) eqn:Hs;
     [destruct (userContext (this st)) as [ctx|] eqn:Hc|]|];
    try (expose st; subst; unfold processOfflineQueue; unfold_monad; simpl;
         try destruct on; try destruct sb; apply framed_refl).
  expose st. subst.
  unfold processOfflineQueue. unfold bind at 1. unfold get_this at 1. simpl.
  unfold bind at 1. unfold set_offlineQueue at 1.
  unfold bind, get_this, set_this, persist_queue, setItem. simpl.
  destruct (replay_all_spec q (mkState (mkService true (Some ctx) true []) w)
              ctx eq_refl eq_refl)
    as (st' & E & Bs & Bc & _ & _ & _ & Bg & Bl & Bw & _).
  simpl in *. rewrite E. unfold framed. simpl.
  assert (Hw' : storage_works w → storage_works (world st')).
  { intros Hw k Hk. rewrite Bg. apply Hw. lia. }
  destruct (localStorage (world st')) as [[it g n]|] eqn:El; simpl.
  - destruct (g n) eqn:Eg; simpl; rewrite Bs, Bc;
      (split; [done|]); (split; [eauto|]); (split; [done|]);
      intros Hw; specialize (Hw' Hw);
      unfold storage_works, refusal, written in Hw'; rewrite El in Hw';
      simpl in Hw'.
    + rewrite Hw' in Eg by lia. done.
    + split.
      * intros k Hk. unfold refusal, written in *. simpl in *.
        apply Hw'. lia.
      * intros _. unfold mirrored, stored_queue. simpl.
        by rewrite lookup_insert_eq.
  - rewrite Bs, Bc. (split; [done|]); (split; [eauto|]); (split; [done|]).
    intros Hw. split; [auto|].
    unfold mirrored, stored_queue. simpl. rewrite (proj1 Bl eq_refl). done.
Qed.

(** [handleOnline] returns normally, whatever the replay did. *)
Lemma handleOnline_spec st :
  (handleOnline st).1 = Normal ()
  ∧ (handleOnline st).2
    = (processOfflineQueue
         (mkState (mkService (supabase (this st)) (userContext (this st)) true
                             (offlineQueue (this st)))
                  (world st))).2.
Proof.
  unfold handleOnline, set_isOnline, bind, try_catch, get_this, set_this, ret.
  simpl. by destruct (processOfflineQueue _) as [[[]|e] st'].
Qed.

Lemma window_online_framed st : framed st (window_online st).2.
Proof.
  unfold window_online, bind, get_world. simpl.
  destruct (listening (world st)); simpl; [|apply framed_refl].
  rewrite (proj2 (handleOnline_spec st)).
  eapply framed_trans; [|apply processOfflineQueue_framed].
  unfold framed, mirrored. simpl. auto.
Qed.

Lemma window_offline_framed st : framed st (window_offline st).2.
Proof. unfold window_offline, handleOffline, set_isOnline. framed_call. Qed.

Lemma perform_framed c st : framed st (perform c st).
Proof.
  destruct c; simpl;
    first
      [ apply setUserContext_framed
      | apply ensureUser_framed
      | apply saveChatMessage_framed
      | apply getChatHistory_framed
      | apply deleteChatHistory_framed
      | apply createProject_framed
      | apply getProjects_framed
      | apply updateProject_framed
      | apply deleteProject_framed
      | apply saveDesignFile_framed
      | apply getDesignFiles_framed
      | apply deleteDesignFile_framed
      | apply saveProjectFile_framed
      | apply getProjectFiles_framed
      | apply deleteProjectFile_framed
      | apply saveUserSettings_framed
      | apply getUserSettings_framed
      | apply saveCanvasState_framed
      | apply getCanvasState_framed
      | apply getSyncStatus_framed
      | apply window_online_framed
      | apply window_offline_framed ].
Qed.

Lemma perform_all_framed cs : ∀ st, framed st (perform_all cs st).
Proof.
  induction cs as [|c cs IH]; intros st; [apply framed_refl|].
  simpl. eapply framed_trans; [apply perform_framed|apply IH].
Qed.

(** X12.  The service has no sign-out and never drops or acquires its
    store handle: after any sequence of calls the handle is as it was at
    construction, and an identity that was set is still set. *)
Theorem handle_fixed_and_identity_never_cleared (cs : list Call) (st : State) :
  supabase (this (perform_all cs st)) = supabase (this st)
  ∧ (is_Some (userContext (this st)) →
     is_Some (userContext (this (perform_all cs st)))).
Proof.
  destruct (perform_all_framed cs st) as (H1 & H2 & _). auto.
Qed.

Lemma handle_fixed_and_identity_never_cleared_witness :
  is_Some (userContext
             (this (perform_all
                      [EventOffline; CallDeleteProject "p1"; EventOnline;
                       CallEnsureUser "clerk_2" "b@example.org" None]
                      (signed_in true first_fails)))).
Proof.
  apply (handle_fixed_and_identity_never_cleared
           [EventOffline; CallDeleteProject "p1"; EventOnline;
            CallEnsureUser "clerk_2" "b@example.org" None]
           (signed_in true first_fails)).
  eexists. reflexivity.
Defined.

(** X13.  A service constructed without a store handle never contacts the
    store: whatever is called, no request is issued and the store is
    unchanged. *)
Theorem no_handle_no_request (cs : list Call) (st : State) :
  supabase (this st) = false →
  requests (world (perform_all cs st)) = requests (world st)
  ∧ db (world (perform_all cs st)) = db (world st).
Proof.
  intros Hs. destruct (perform_all_framed cs st) as (_ & _ & H3 & _). auto.
Qed.

Lemma no_handle_no_request_witness :
  requests
    (world (perform_all
              [CallSaveChatMessage m1; CallSetUserContext alice; EventOnline;
               CallCreateProject "site" None; CallGetProjects]
              (mkState (constructor (mkEnv None None false true (Some true))).1
                       (world0 never false))))
  = [].
Proof.
  apply (no_handle_no_request
           [CallSaveChatMessage m1; CallSetUserContext alice; EventOnline;
            CallCreateProject "site" None; CallGetProjects]
           (mkState (constructor (mkEnv None None false true (Some true))).1
                    (world0 never false))).
  reflexivity.
Defined.

(** X14.  As long as [localStorage] accepts its writes, once it holds the
    live queue it keeps holding it: every call that changes the queue writes
    it back, and no other call touches either copy.  The two are brought in
    step by any write that is queued for want of a handle or an identity and
    whose write to [localStorage] is accepted.  When that write is refused
    the call throws and the two fall apart: the entry is in the live queue,
    pushed before the write, and the stored copy is the queue without it. *)
Theorem stored_queue_follows_live_queue (cs : list Call) (d : Payload)
    (st : State) :
  (storage_works (world st) → mirrored st → mirrored (perform_all cs st))
  ∧ (supabase (this st) = false ∨ userContext (this st) = None →
     (localStorage (world st) ≠ None → accepts_next (world st) →
      mirrored (dispatch d st).2)
     ∧ (¬ accepts_next (world st) → mirrored st →
        (dispatch d st).1 = Thrown QuotaExceededError
        ∧ stored_queue (world (dispatch d st).2)
          = Some (offlineQueue (this st))
        ∧ offlineQueue (this (dispatch d st).2)
          = offlineQueue (this st)
              ++ [mkOp d (clock (world st) (ticks (world st)))])).
Proof.
  split.
  - intros Hw Hm. destruct (perform_all_framed cs st) as (_ & _ & _ & H4).
    by apply H4.
  - intros Hu. rewrite (dispatch_unavailable d st Hu). split.
    + intros Hl Ha. by apply queueOperation_persists.
    + intros Ha Hm. rewrite queueOperation_returns, queueOperation_refused by done.
      destruct (queueOperation_queue d st) as (Hq & _).
      unfold accepts_next in Ha.
      destruct (refusal (world st) (written (world st))); done.
Qed.

Lemma stored_queue_follows_live_queue_witness :
  mirrored (saveChatMessage m1 (signed_out first_fails)).2
  ∧ mirrored
      (perform_all
         [CallSaveDesignFile
            (DesignFile.mk None "p1" "index.html" "html" "A" None None);
          CallSetUserContext alice; EventOnline]
         (saveChatMessage m1 (signed_out first_fails)).2)
  ∧ stored_queue
      (world (saveChatMessage m1
                (saveChatMessage m1 (nearly_full (signed_out never))).2).2)
    = Some [mkOp (ChatMessageData m1) 1000].
Proof.
  split; [|split].
  - apply (stored_queue_follows_live_queue [] (ChatMessageData m1)
             (signed_out first_fails)).
    + right. reflexivity.
    + discriminate.
    + reflexivity.
  - apply (stored_queue_follows_live_queue
             [CallSaveDesignFile
                (DesignFile.mk None "p1" "index.html" "html" "A" None None);
              CallSetUserContext alice; EventOnline]
             (ChatMessageData m1)
             (saveChatMessage m1 (signed_out first_fails)).2).
    + intros n _. reflexivity.
    + reflexivity.
  - apply (stored_queue_follows_live_queue [] (ChatMessageData m1)
             (saveChatMessage m1 (nearly_full (signed_out never))).2).
    + right. reflexivity.
    + discriminate.
    + reflexivity.
Defined.

(** ** Replay, continued *)

Lemma failed_from_sublist f n (queue : list QueuedOperation) :
  failed_from f n queue `sublist_of` (data <$> queue).
Proof.
  revert n. induction queue as [|o rest IH]; intros n; simpl; [done|].
  destruct (f n); [by apply sublist_cons|by apply sublist_skip..].
Qed.

Lemma failed_from_none_served f n (queue : list QueuedOperation) :
  (∀ k, k < length queue → f (n + k) ≠ NetOk) →
  failed_from f n queue = data <$> queue.
Proof.
  revert n. induction queue as [|o rest IH]; intros n Hf; simpl; [done|].
  pose proof (Hf 0 ltac:(simpl; lia)) as H0. rewrite Nat.add_0_r in H0.
  rewrite IH.
  - by destruct (f n).
  - intros k Hk. replace (S n + k) with (n + S k) by lia. apply Hf. simpl. lia.
Qed.

Lemma requeued_all_served f g n j (queue : list QueuedOperation) :
  (∀ k, k < length queue → f (n + k) = NetOk) → requeued f g n j queue = [].
Proof.
  revert n j. induction queue as [|o rest IH]; intros n j Hf; simpl; [done|].
  pose proof (Hf 0 ltac:(simpl; lia)) as H0. rewrite Nat.add_0_r in H0.
  unfold requeues. rewrite H0. simpl. apply IH. intros k Hk.
  replace (S n + k) with (n + S k) by lia. apply Hf. simpl. lia.
Qed.

Lemma requeued_elem f g n j (queue : list QueuedOperation) d :
  d ∈ requeued f g n j queue → d ∈ data <$> queue.
Proof.
  revert n j. induction queue as [|o rest IH]; intros n j; simpl; [done|].
  rewrite elem_of_app, elem_of_cons. intros [H|H].
  - left. by apply elem_of_replicate in H as [-> _].
  - right. by apply IH in H.
Qed.

Lemma requeued_length f g n j (queue : list QueuedOperation) :
  length (requeued f g n j queue) ≤ 3 * length queue.
Proof.
  revert n j. induction queue as [|o rest IH]; intros n j; simpl; [done|].
  rewrite length_app, length_replicate.
  specialize (IH (S n) (j + (requeues f g n j).2)).
  assert ((requeues f g n j).1 ≤ 3); [|lia].
  unfold requeues. destruct (f n), (g j), (g (S j)); simpl; lia.
Qed.

(** With a storage that refuses every write, a write whose request comes
    back with an error is queued three times. *)
Lemma requeued_refusing f g n j (queue : list QueuedOperation) :
  (∀ k, g k = true) →
  (∀ k, k < length queue → f (n + k) = NetError) →
  requeued f g n j queue = queue ≫= (λ o, replicate 3 (data o)).
Proof.
  intros Hg. revert n j.
  induction queue as [|o rest IH]; intros n j Hf; simpl; [done|].
  pose proof (Hf 0 ltac:(simpl; lia)) as H0. rewrite Nat.add_0_r in H0.
  unfold requeues. rewrite H0, !Hg. simpl. do 3 f_equal. apply IH.
  intros k Hk. replace (S n + k) with (n + S k) by lia. apply Hf. simpl. lia.
Qed.

(** The queue after a replay, in every state. *)
Lemma processOfflineQueue_queue st :
  data <$> offlineQueue (this (processOfflineQueue st).2)
  = match isOnline (this st), supabase (this st), userContext (this st) with
    | true, true, Some _ =>
        requeued (faults (world st)) (refusal (world st))
                 (length (requests (world st))) (written (world st))
                 (offlineQueue (this st))
    | _, _, _ => data <$> offlineQueue (this st)
    end.
Proof.
  destruct (isOnline (this st)) eqn:Ho;
    [destruct (supabase (this st)) eqn:Hs;
     [destruct (userContext (this st)) as [ctx|] eqn:Hc|]|];
    try (expose st; subst; unfold processOfflineQueue; unfold_monad; simpl;
         try destruct on; try destruct sb; done).
  expose st. subst.
  unfold processOfflineQueue. unfold bind at 1. unfold get_this at 1. simpl.
  unfold bind at 1. unfold set_offlineQueue at 1.
  unfold bind, get_this, set_this, persist_queue, setItem. simpl.
  destruct (replay_all_spec q (mkState (mkService true (Some ctx) true []) w)
              ctx eq_refl eq_refl)
    as (st' & E & _ & _ & _ & _ & _ & _ & _ & _ & Bq & _).
  simpl in *. rewrite E.
  destruct (localStorage (world st')) as [[it g n]|]; [|done]. simpl.
  by destruct (g n).
Qed.

(** X15.  A replay never invents a write, and with a [localStorage] that
    accepts its writes (or none) it never adds to the queue or reorders it:
    the payloads queued afterwards are a sublist of those queued before.
    When the replay runs and every request is served the queue ends empty;
    when every request fails and the storage accepts its writes it ends with
    the same payloads in the same order.  But a replay can make the queue
    grow, to at most three times its length: when every request comes back
    with an error and [localStorage] refuses every write, each write ends up
    in the queue three times. *)
Theorem replay_shrinks_or_multiplies_queue (st : State) :
  (∀ d, d ∈ data <$> offlineQueue (this (processOfflineQueue st).2) →
        d ∈ data <$> offlineQueue (this st))
  ∧ length (offlineQueue (this (processOfflineQueue st).2))
    ≤ 3 * length (offlineQueue (this st))
  ∧ (storage_works (world st) →
     data <$> offlineQueue (this (processOfflineQueue st).2)
       `sublist_of` (data <$> offlineQueue (this st)))
  ∧ (isOnline (this st) = true → supabase (this st) = true →
     is_Some (userContext (this st)) →
     ((∀ k, k < length (offlineQueue (this st)) →
            faults (world st) (length (requests (world st)) + k) = NetOk) →
      offlineQueue (this (processOfflineQueue st).2) = [])
     ∧ (storage_works (world st) →
        (∀ k, k < length (offlineQueue (this st)) →
              faults (world st) (length (requests (world st)) + k) ≠ NetOk) →
        data <$> offlineQueue (this (processOfflineQueue st).2)
        = data <$> offlineQueue (this st))
     ∧ ((∀ k, refusal (world st) k = true) →
        (∀ k, k < length (offlineQueue (this st)) →
              faults (world st) (length (requests (world st)) + k) = NetError) →
        data <$> offlineQueue (this (processOfflineQueue st).2)
        = offlineQueue (this st) ≫= (λ o, replicate 3 (data o)))).
Proof.
  split; [|split; [|split]].
  - intros d. rewrite processOfflineQueue_queue.
    destruct (isOnline (this st)), (supabase (this st)),
      (userContext (this st)); try done. apply requeued_elem.
  - rewrite <-(length_fmap data), processOfflineQueue_queue.
    destruct (isOnline (this st)), (supabase (this st)),
      (userContext (this st)); rewrite ?length_fmap; try lia.
    apply requeued_length.
  - intros Hw. rewrite processOfflineQueue_queue.
    destruct (isOnline (this st)), (supabase (this st)),
      (userContext (this st)); try done.
    rewrite requeued_accepting by done. apply failed_from_sublist.
  - intros Ho Hs [ctx Hc]. split; [|split].
    + intros Hf. apply fmap_nil_inv with (f := data).
      rewrite processOfflineQueue_queue, Ho, Hs, Hc.
      by apply requeued_all_served.
    + intros Hw Hf. rewrite processOfflineQueue_queue, Ho, Hs, Hc.
      rewrite requeued_accepting by done. by apply failed_from_none_served.
    + intros Hg Hf. rewrite processOfflineQueue_queue, Ho, Hs, Hc.
      by apply requeued_refusing.
Qed.

Lemma replay_shrinks_or_multiplies_queue_witness :
  offlineQueue
    (this (processOfflineQueue
             (setUserContext alice
                (saveChatMessage m1 (signed_out never)).2).2).2) = []
  ∧ data <$> offlineQueue
      (this (processOfflineQueue
               (mkState (mkService true (Some alice) true
                                   [mkOp (ChatMessageData m1) 7%Z])
                        (world0 first_fails false))).2)
    = [ChatMessageData m1]
  ∧ data <$> offlineQueue
      (this (processOfflineQueue
               (quota_reached
                  (mkState (mkService true (Some alice) true
                                      [mkOp (ChatMessageData m1) 7%Z])
                           (world0 first_fails false)))).2)
    = [ChatMessageData m1; ChatMessageData m1; ChatMessageData m1].
Proof.
  split; [|split].
  - apply (replay_shrinks_or_multiplies_queue
             (setUserContext alice (saveChatMessage m1 (signed_out never)).2).2).
    + reflexivity.
    + reflexivity.
    + eexists. reflexivity.
    + intros k _. reflexivity.
  - apply (replay_shrinks_or_multiplies_queue
             (mkState (mkService true (Some alice) true
                                 [mkOp (ChatMessageData m1) 7%Z])
                      (world0 first_fails false))).
    + reflexivity.
    + reflexivity.
    + eexists. reflexivity.
    + intros n _. reflexivity.
    + intros k Hk. simpl in Hk. replace k with 0 by lia. discriminate.
  - apply (replay_shrinks_or_multiplies_queue
             (quota_reached
                (mkState (mkService true (Some alice) true
                                    [mkOp (ChatMessageData m1) 7%Z])
                         (world0 first_fails false)))).
    + reflexivity.
    + reflexivity.
    + eexists. reflexivity.
    + intros k. reflexivity.
    + intros k Hk. simpl in Hk. replace k with 0 by lia. reflexivity.
Defined.

Lemma upsert_design_files_lands p w :
  ∃ r, r ∈ design_files (db (upsert_design_files p w).2)
       ∧ DesignRow.project_id r = DesignRow.project_id p
       ∧ DesignRow.file_path r = DesignRow.file_path p
       ∧ DesignRow.user_id r = DesignRow.user_id p
       ∧ DesignRow.content r = DesignRow.content p.
Proof.
  unfold upsert_design_files. case_decide as Hex; simpl.
  - apply Exists_exists in Hex as (r & Hr & Hc).
    exists (design_merge p r). split; [|done].
    apply list_elem_of_fmap. exists r. by rewrite decide_True.
  - eexists. split; [apply elem_of_app; right; by apply list_elem_of_singleton|].
    done.
Qed.

(** X16.  A write queued while nobody is signed in is not replayed by
    signing in, and when it is replayed it is stored under whoever is signed
    in by then: after [saveDesignFile] without an identity, [setUserContext]
    leaves the write in the queue; a following [handleOnline] whose request
    is served empties the queue and stores the file as a row owned by that
    identity. *)
Theorem queued_write_takes_later_identity (file : DesignFile.t)
    (context : UserContext.t) (st : State) :
  supabase (this st) = true → userContext (this st) = None →
  offlineQueue (this st) = [] →
  faults (world st) (length (requests (world st))) = NetOk →
  data <$> offlineQueue
             (this (setUserContext context (saveDesignFile file st).2).2)
  = [DesignFileData file]
  ∧ requests (world (setUserContext context (saveDesignFile file st).2).2)
    = requests (world st)
  ∧ offlineQueue
      (this (handleOnline
               (setUserContext context (saveDesignFile file st).2).2).2) = []
  ∧ ∃ r,
      r ∈ design_files
            (db (world (handleOnline
                          (setUserContext context
                             (saveDesignFile file st).2).2).2))
      ∧ DesignRow.project_id r = DesignFile.projectId file
      ∧ DesignRow.file_path r = DesignFile.filePath file
      ∧ DesignRow.content r = Some (DesignFile.content file)
      ∧ DesignRow.user_id r = UserContext.userId context.
Proof.
  intros Hs Hc Hq Hf.
  change (saveDesignFile file st) with (dispatch (DesignFileData file) st).
  rewrite (dispatch_unavailable _ st (or_intror Hc)), queueOperation_spec.
  expose st. subst. simpl.
  unfold setUserContext, bind, get_this, set_this. simpl.
  split; [done|]. split; [by destruct (localStorage w)|].
  match goal with
  | |- context [mkState _ ?W] => set (w1 := W)
  end.
  assert (requests w1 = requests w ∧ faults w1 = faults w) as [Hr1 Hf1]
    by (subst w1; destruct (localStorage w); done).
  clearbody w1.
  rewrite (proj2 (handleOnline_spec _)). simpl.
  unfold processOfflineQueue.
  unfold bind, get_this, set_this, set_offlineQueue, ret. simpl.
  unfold replay, dispatch, try_catch, bind, ret. simpl.
  rewrite (saveDesignFile_served file _ context)
    by (simpl; congruence).
  simpl.
  set (p := DesignRow.mk EmptyString (DesignFile.projectId file)
              (UserContext.userId context) (DesignFile.filePath file)
              (DesignFile.fileType file) (Some (DesignFile.content file))
              (Some (String_length (DesignFile.content file))) 0%Z).
  match goal with
  | |- context [upsert_design_files p ?w2] =>
      destruct (upsert_design_files_lands p w2) as (r & Hr & H1 & H2 & H3 & H4);
      unfold persist_queue, setItem; simpl;
      destruct (localStorage (upsert_design_files p w2).2) as [[it g n]|];
      simpl; try destruct (g n); simpl
  end; (split; [done|]); exists r; done.
Qed.

Lemma queued_write_takes_later_identity_witness :
  ∃ r,
    r ∈ design_files
          (db (world (handleOnline
                        (setUserContext alice
                           (saveDesignFile
                              (DesignFile.mk None "p1" "index.html" "html" "A"
                                             None None)
                              (signed_out never)).2).2).2))
    ∧ DesignRow.user_id r = "uuid-alice".
Proof.
  destruct (queued_write_takes_later_identity
              (DesignFile.mk None "p1" "index.html" "html" "A" None None)
              alice (signed_out never))
    as (_ & _ & _ & r & Hr & _ & _ & _ & Hu).
  - reflexivity.
  - reflexivity.
  - reflexivity.
  - reflexivity.
  - exists r. split; [exact Hr|exact Hu].
Defined.

(** ** Binding the signed-in user *)

Lemma ensureUser_this clerkUserId email fullName st :
  this (ensureUser clerkUserId email fullName st).2 = this st.
Proof.
  unfold ensureUser, ensureUser_step, settle.
  expose st. destruct w as [d u uq rq f c t ls li].
  unfold select_user_id, insert_user, update_last_login.
  unfold_monad. split_cases; reflexivity.
Qed.

Lemma single_Some {A} (l : list A) (x : A) e :
  single l = (Some x, e) → l = [x].
Proof. destruct l as [|y [|z l]]; simpl; intros [=]; by subst. Qed.

(** X17.  The id [ensureUser] returns is the id of a row of [users] for
    that Clerk id: whenever the call returns normally, such a row is in the
    store afterwards. *)
Theorem ensureUser_returns_stored_id (clerkUserId email : string)
    (fullName : option string) (i : string) (st : State) :
  (ensureUser clerkUserId email fullName st).1 = Normal i →
  ∃ r, r ∈ users (db (world (ensureUser clerkUserId email fullName st).2))
       ∧ UsersRow.id r = i ∧ UsersRow.clerk_user_id r = clerkUserId.
Proof.
  unfold ensureUser, ensureUser_step, settle.
  expose st. destruct w as [d u uq rq f c t ls li].
  unfold select_user_id, insert_user, update_last_login.
  unfold_monad. split_cases; simpl; intros Hi; simplify_eq;
    try (eexists; split;
         [apply elem_of_app; right; by apply list_elem_of_singleton|done]).
  all: match goal with
       | H : single _ = (Some _, _) |- _ => apply single_Some in H
       end.
  all: match goal with
       | H : _ <$> filter ?P ?l = [?x] |- _ =>
           destruct (filter P l) as [|r0 [|r1 l']] eqn:Efil; simplify_eq;
           assert (r0 ∈ filter P l) as Hin by (rewrite Efil; left);
           apply list_elem_of_filter in Hin as [Hp Hin]
       end.
  all: simpl in *; simplify_eq.
  all: first
    [ by exists r0
    | exists (touch_login (c t) r0); split; [|done];
      apply list_elem_of_fmap; exists r0; by rewrite decide_True ].
Qed.

Lemma ensureUser_returns_stored_id_witness :
  ∃ r, r ∈ users (db (world (ensureUser "clerk_1" "a@example.org" None
                               (signed_out never)).2))
       ∧ UsersRow.id r = "uuid-0" ∧ UsersRow.clerk_user_id r = "clerk_1".
Proof.
  apply (ensureUser_returns_stored_id "clerk_1" "a@example.org" None "uuid-0"
           (signed_out never)).
  reflexivity.
Defined.

(** X18.  [initializeUser] (the effect of [useSupabasePersistence]) never
    throws, and it binds the service to the signed-in user exactly when
    [ensureUser] returns an id: Clerk loaded, a user signed in with a first
    e-mail address, and [ensureUser] called with the Clerk id, that address
    and the user's full name returning [i].  Then the identity is set to [i]
    paired with the Clerk id, nothing else of the service object changes, the
    hook is initialised and its error cleared.  In every other case the hook
    is not initialised and the service object is left as it was, so an
    identity set earlier stays in force; a missing address is recorded
    without any request, a failure of [ensureUser] is recorded as such; and
    when Clerk is not loaded or nobody is signed in, nothing at all is done
    and the hook's error is kept. *)
Theorem initializeUser_binds_on_success_only (u : UseUser.t) (h : Hook.t)
    (st : State) :
  ∃ h', (initializeUser u h st).1 = Normal h'
    ∧ (∀ usr email,
         UseUser.isLoaded u = true → UseUser.isSignedIn u = true →
         UseUser.user u = Some usr →
         head (ClerkUser.emailAddresses usr) = Some email →
         truthy_string email = true →
         match (ensureUser (ClerkUser.id usr) email
                           (fullName_or_undefined usr) st).1 with
         | Normal i =>
             h' = Hook.mk true None
             ∧ this (initializeUser u h st).2
               = mkService (supabase (this st))
                   (Some (UserContext.mk i (ClerkUser.id usr)))
                   (isOnline (this st)) (offlineQueue (this st))
         | Thrown e =>
             h' = Hook.mk false (Some (EnsureUserFailed e))
             ∧ this (initializeUser u h st).2 = this st
         end
         ∧ world (initializeUser u h st).2
           = world (ensureUser (ClerkUser.id usr) email
                               (fullName_or_undefined usr) st).2)
    ∧ (Hook.isInitialized h' = true →
       ∃ usr email i,
         UseUser.isLoaded u = true ∧ UseUser.isSignedIn u = true
         ∧ UseUser.user u = Some usr
         ∧ head (ClerkUser.emailAddresses usr) = Some email
         ∧ truthy_string email = true
         ∧ (ensureUser (ClerkUser.id usr) email
                       (fullName_or_undefined usr) st).1 = Normal i)
    ∧ (Hook.isInitialized h' = false → this (initializeUser u h st).2 = this st)
    ∧ (∀ usr,
         UseUser.isLoaded u = true → UseUser.isSignedIn u = true →
         UseUser.user u = Some usr →
         match head (ClerkUser.emailAddresses usr) with
         | Some email => truthy_string email = false
         | None => True
         end →
         initializeUser u h st
         = (Normal (Hook.mk false (Some EmailNotFound)), st))
    ∧ (UseUser.isLoaded u = false ∨ UseUser.isSignedIn u = false
       ∨ UseUser.user u = None →
       initializeUser u h st = (Normal (Hook.mk false (Hook.error h)), st)).
Proof.
  unfold initializeUser.
  destruct u as [[usr|] [|] [|]]; simpl;
    try (eexists; split; [reflexivity|]; simpl;
         repeat split; intros; simplify_eq; try done;
         match goal with H : _ ∨ _ ∨ _ |- _ => destruct H as [?|[?|?]] end;
         done).
  destruct (head (ClerkUser.emailAddresses usr)) as [email|] eqn:Eh;
    [destruct (truthy_string email) eqn:Et|].
  - unfold bind, attempt.
    pose proof (ensureUser_this (ClerkUser.id usr) email
                  (fullName_or_undefined usr) st) as Hthis.
    destruct (ensureUser (ClerkUser.id usr) email (fullName_or_undefined usr)
                st) as [[i|e] st1] eqn:E; simpl in *.
    + unfold setUserContext. unfold_monad. simpl.
      eexists. split; [reflexivity|]. simpl. split; [|split; [|split; [|split]]].
      * intros usr' email' _ _ [= <-]. rewrite Eh. intros [= <-] _.
        rewrite E. simpl. by rewrite Hthis.
      * intros _. exists usr, email, i. by rewrite E.
      * done.
      * intros usr' _ _ [= <-]. rewrite Eh, Et. done.
      * intros [?|[?|?]]; done.
    + eexists. split; [reflexivity|]. simpl. split; [|split; [|split; [|split]]].
      * intros usr' email' _ _ [= <-]. rewrite Eh. intros [= <-] _.
        rewrite E. simpl. done.
      * done.
      * done.
      * intros usr' _ _ [= <-]. rewrite Eh, Et. done.
      * intros [?|[?|?]]; done.
  - eexists. split; [reflexivity|]. simpl. split; [|split; [|split; [|split]]].
    + intros usr' email' _ _ [= <-]. rewrite Eh. intros [= <-]. congruence.
    + done.
    + done.
    + done.
    + intros [?|[?|?]]; done.
  - eexists. split; [reflexivity|]. simpl. split; [|split; [|split; [|split]]].
    + intros usr' email' _ _ [= <-]. rewrite Eh. done.
    + done.
    + done.
    + done.
    + intros [?|[?|?]]; done.
Qed.

Lemma initializeUser_binds_on_success_only_witness :
  userContext
    (this (initializeUser
             (UseUser.mk (Some (ClerkUser.mk "clerk_1" ["a@example.org"]
                                             (Some "Alice")))
                         true true)
             (Hook.mk false None) (signed_out never)).2)
  = Some (UserContext.mk "uuid-0" "clerk_1").
Proof.
  destruct (initializeUser_binds_on_success_only
              (UseUser.mk (Some (ClerkUser.mk "clerk_1" ["a@example.org"]
                                              (Some "Alice")))
                          true true)
              (Hook.mk false None) (signed_out never)) as (h' & _ & H & _).
  destruct (H (ClerkUser.mk "clerk_1" ["a@example.org"] (Some "Alice"))
              "a@example.org") as [[_ Ht] _].
  - reflexivity.
  - reflexivity.
  - reflexivity.
  - reflexivity.
  - reflexivity.
  - rewrite Ht. reflexivity.
Defined.

(** ** Chunking *)

Lemma prefix_app_l (a b s : string) :
  String.prefix (a +:+ b) s = true → String.prefix a s = true.
Proof.
  revert s. induction a as [|c a IH]; intros s; [by destruct s|].
  change (String c a +:+ b) with (String c (a +:+ b)).
  destruct s as [|c' s]; cbn [String.prefix]; [done|].
  destruct (Ascii.ascii_dec c c'); [apply IH|done].
Qed.

Lemma includes_app_l (a b s : string) :
  includes (a +:+ b) s = true → includes a s = true.
Proof.
  induction s as [|c s IH]; cbn [includes].
  - rewrite !orb_false_r. apply prefix_app_l.
  - intros [H|H]%orb_true_iff; apply orb_true_iff.
    + left. by eapply prefix_app_l.
    + right. auto.
Qed.

Lemma includes_prefix (b s : string) :
  String.prefix b s = true → includes b s = true.
Proof. intros H. destruct s; cbn [includes]; rewrite H; done. Qed.

Lemma prefix_app_r (a b s : string) :
  String.prefix (a +:+ b) s = true → includes b s = true.
Proof.
  revert s. induction a as [|c a IH]; intros s; [apply includes_prefix|].
  change (String c a +:+ b) with (String c (a +:+ b)).
  destruct s as [|c' s]; [done|]. cbn [String.prefix includes].
  destruct (Ascii.ascii_dec c c'); [|done].
  intros H. apply orb_true_iff. right. by apply IH.
Qed.

Lemma includes_app_r (a b s : string) :
  includes (a +:+ b) s = true → includes b s = true.
Proof.
  induction s as [|c s IH]; cbn [includes].
  - rewrite orb_false_r. intros H. by apply (prefix_app_r a b EmptyString).
  - intros [H|H]%orb_true_iff.
    + by apply (prefix_app_r a b (String c s)).
    + apply orb_true_iff. right. auto.
Qed.

(** X19.  [manualChunks] names a chunk only for modules under
    [node_modules] whose id does not mention [electron], and then by the
    first keyword that occurs in the id, in the order spline ([@splinetool]
    or [three]), [react], [codemirror], [shiki], falling back to [vendor].
    The tests for [react-dom] and [@codemirror] never decide anything: an id
    that contains them contains [react] and [codemirror]. *)
Theorem manualChunks_first_keyword (id : string) :
  (manualChunks id = None
   ↔ includes "electron" id = true ∨ includes "node_modules" id = false)
  ∧ (includes "electron" id = false → includes "node_modules" id = true →
     manualChunks id
     = Some (if includes "@splinetool" id || includes "three" id then "spline"
             else if includes "react" id then "react"
             else if includes "codemirror" id then "codemirror"
             else if includes "shiki" id then "shiki"
             else "vendor")).
Proof.
  unfold manualChunks.
  pose proof (includes_app_l "react" "-dom" id) as Hr.
  pose proof (includes_app_r "@" "codemirror" id) as Hc.
  change ("react" +:+ "-dom") with "react-dom" in Hr.
  change ("@" +:+ "codemirror") with "@codemirror" in Hc.
  destruct (includes "electron" id), (includes "node_modules" id),
    (includes "@splinetool" id), (includes "three" id),
    (includes "react" id), (includes "react-dom" id),
    (includes "codemirror" id), (includes "@codemirror" id),
    (includes "shiki" id); simpl;
    try (specialize (Hr eq_refl)); try (specialize (Hc eq_refl));
    try discriminate; (split; [split; [intros; auto; try discriminate|]|]);
    intros; try done; try tauto; intuition discriminate.
Qed.

Lemma manualChunks_first_keyword_witness :
  manualChunks "/app/node_modules/@react-three/fiber/index.js" = Some "spline"
  ∧ manualChunks "/app/node_modules/react-dom/index.js" = Some "react".
Proof.
  split.
  - apply (manualChunks_first_keyword
             "/app/node_modules/@react-three/fiber/index.js"); reflexivity.
  - apply (manualChunks_first_keyword "/app/node_modules/react-dom/index.js");
      reflexivity.
Defined.

(** ** Scope of deletions and updates *)

Ltac scoped_call :=
  match goal with
  | st : State |- _ =>
      expose st;
      match goal with
      | w : World |- _ => destruct w as [d u uq rq f c t ls li]
      end
  end;
  unfold_monad; split_cases; unfold others_kept; cbn;
  repeat split; intros r Hr Hne; try done;
  first
    [ apply list_elem_of_filter; split; [|done];
      intros H; apply Hne;
      unfold project_is, design_at, file_at, chat_of in H;
      destruct_and!; congruence
    | apply list_elem_of_fmap; exists r; split; [|done];
      rewrite decide_False; [done|];
      intros H; apply Hne;
      unfold project_is, design_at, file_at, chat_of in H;
      destruct_and!; congruence ].

Lemma deleteProject_scoped projectId st :
  others_kept st (deleteProject projectId st).2.
Proof. unfold deleteProject, update_project_status_deleted. scoped_call. Qed.

Lemma updateProject_scoped projectId updates st :
  others_kept st (updateProject projectId updates st).2.
Proof. unfold updateProject, update_projects. scoped_call. Qed.

Lemma saveCanvasState_scoped projectId canvasState st :
  others_kept st (saveCanvasState projectId canvasState st).2.
Proof. unfold saveCanvasState, update_projects. scoped_call. Qed.

Lemma deleteDesignFile_scoped projectId filePath st :
  others_kept st (deleteDesignFile projectId filePath st).2.
Proof. unfold deleteDesignFile, delete_design_files. scoped_call. Qed.

Lemma deleteProjectFile_scoped projectId filePath st :
  others_kept st (deleteProjectFile projectId filePath st).2.
Proof. unfold deleteProjectFile, update_project_files_deleted. scoped_call. Qed.

Lemma deleteChatHistory_scoped projectId st :
  others_kept st (deleteChatHistory projectId st).2.
Proof. unfold deleteChatHistory, delete_chat_history. scoped_call. Qed.

(** X20.  Deletions and updates reach only the caller's own rows: after
    [deleteProject], [updateProject], [saveCanvasState], [deleteDesignFile],
    [deleteProjectFile] or [deleteChatHistory], in any state and whatever
    the arguments, every row of [projects], [design_files], [project_files]
    and [chat_history] owned by somebody else is still there, unchanged. *)
Theorem deletes_and_updates_spare_other_users (projectId filePath : string)
    (updates : ProjectsPatch.t) (canvasState : option Json) (st : State) :
  others_kept st (deleteProject projectId st).2
  ∧ others_kept st (updateProject projectId updates st).2
  ∧ others_kept st (saveCanvasState projectId canvasState st).2
  ∧ others_kept st (deleteDesignFile projectId filePath st).2
  ∧ others_kept st (deleteProjectFile projectId filePath st).2
  ∧ others_kept st (deleteChatHistory projectId st).2.
Proof.
  split; [apply deleteProject_scoped|].
  split; [apply updateProject_scoped|].
  split; [apply saveCanvasState_scoped|].
  split; [apply deleteDesignFile_scoped|].
  split; [apply deleteProjectFile_scoped|apply deleteChatHistory_scoped].
Qed.

Lemma deletes_and_updates_spare_other_users_witness :
  ProjectsRow.mk "other" "uuid-bob" "bob" None "active" None 200%Z
  ∈ projects (db (world (deleteProject "other" with_rows).2)).
Proof.
  apply (deletes_and_updates_spare_other_users "other" "index.html"
           (ProjectsPatch.mk None None None None None None None) None
           with_rows).
  - simpl. apply elem_of_app. right. right. left.
  - discriminate.
Defined.

(** ** Chat history, ordering *)

#[global] Instance created_before_trans : Transitive created_before.
Proof. intros a b c. unfold created_before. lia. Qed.

#[global] Instance created_before_total : Total created_before.
Proof. intros a b. unfold created_before. lia. Qed.

(** X21.  [getChatHistory] returns the caller's messages of the project,
    all of them and no others, oldest first: when the request is served the
    result is the image of a list of rows that is a permutation of the rows
    of [chat_history] with that project and owner and is sorted by
    [created_at], ascending. *)
Theorem getChatHistory_scoped_and_ordered (projectId : string)
    (ctx : UserContext.t) (st : State) :
  supabase (this st) = true → userContext (this st) = Some ctx →
  faults (world st) (length (requests (world st))) = NetOk →
  ∃ rows,
    (getChatHistory projectId st).1
    = Normal ((λ r, Message.mk (ChatRow.id r) (ChatRow.role r)
                               (ChatRow.content r)) <$> rows)
    ∧ rows ≡ₚ filter (λ r, ChatRow.project_id r = projectId
                           ∧ ChatRow.user_id r = UserContext.userId ctx)
                     (chat_history (db (world st)))
    ∧ StronglySorted created_before rows.
Proof.
  intros Hs Hc Hf. eexists. split; [|split].
  - by apply getChatHistory_served.
  - apply merge_sort_Permutation.
  - apply StronglySorted_merge_sort; apply _.
Qed.

Lemma getChatHistory_scoped_and_ordered_witness :
  ∃ rows,
    (getChatHistory "p1" (saveChatMessage m1 (signed_in true never)).2).1
    = Normal ((λ r, Message.mk (ChatRow.id r) (ChatRow.role r)
                               (ChatRow.content r)) <$> rows)
    ∧ StronglySorted created_before rows.
Proof.
  destruct (getChatHistory_scoped_and_ordered "p1" alice
              (saveChatMessage m1 (signed_in true never)).2)
    as (rows & H1 & _ & H2).
  - reflexivity.
  - reflexivity.
  - reflexivity.
  - exists rows. split; [exact H1|exact H2].
Defined.

(** ** User settings *)

Lemma saveUserSettings_served settings st ctx :
  supabase (this st) = true → userContext (this st) = Some ctx →
  faults (world st) (length (requests (world st))) = NetOk →
  saveUserSettings settings st
  = (Normal (),
     mkState (this st)
       (upsert_user_settings
          (settings_row_of (UserContext.userId ctx) settings)
          (log_request (mkRequest UPSERT "user_settings") (world st))).2).
Proof.
  intros Hs Hc Hf. expose st. subst.
  unfold saveUserSettings, bind, get_this, try_catch, ret. simpl.
  rewrite remote_served by done. unfold settings_row_of.
  by destruct (upsert_user_settings _ _) as [[? ?] ?].
Qed.

Lemma getUserSettings_served st ctx :
  supabase (this st) = true → userContext (this st) = Some ctx →
  faults (world st) (length (requests (world st))) = NetOk →
  (getUserSettings st).1
  = Normal match filter (λ r, SettingsRow.user_id r = UserContext.userId ctx)
                        (user_settings (db (world st))) with
           | [d] => Some (UserSettings_of_row d)
           | _ => None
           end.
Proof.
  intros Hs Hc Hf. unfold getUserSettings, select_user_settings.
  expose st. subst. destruct w as [d u uq rq f c t ls li].
  simpl in *. unfold_monad. cbn. rewrite Hf. cbn.
  by destruct (filter _ (user_settings d)) as [|r [|r' l]].
Qed.

Lemma upsert_user_settings_one p w :
  length (filter (settings_conflict p) (user_settings (db w))) ≤ 1 →
  requests (upsert_user_settings p w).2 = requests w
  ∧ faults (upsert_user_settings p w).2 = faults w
  ∧ ∃ r, filter (settings_conflict p)
                (user_settings (db (upsert_user_settings p w).2)) = [r]
         ∧ (r = p ∨ ∃ old, r = settings_merge p old).
Proof.
  intros Hle. unfold upsert_user_settings. case_decide as Hex; simpl.
  - split; [done|]. split; [done|].
    rewrite (filter_fmap_if (settings_conflict p) (settings_conflict p))
      by done.
    pose proof (Exists_filter_length (settings_conflict p) _ Hex) as Hge.
    destruct (length_le_1_inv _ Hge Hle) as [r0 ->].
    eexists. split; [reflexivity|]. right. by exists r0.
  - split; [done|]. split; [done|]. rewrite filter_app.
    rewrite (filter_conflict_nil (settings_conflict p)) by done.
    rewrite filter_cons_True by done. eexists. split; [reflexivity|]. by left.
Qed.

(** X22.  [saveUserSettings] then [getUserSettings] returns what was
    saved, with the defaults filled in: with at most one settings row for the
    caller and both requests served, the settings read back carry the
    provider settings, MCP settings (an empty object when absent), enabled
    providers and viewed features (an empty list when absent) of the call,
    and its theme and each connection where the call gave one. *)
Theorem saveUserSettings_then_getUserSettings (settings : UserSettings.t)
    (ctx : UserContext.t) (st : State) :
  supabase (this st) = true → userContext (this st) = Some ctx →
  faults (world st) (length (requests (world st))) = NetOk →
  faults (world st) (S (length (requests (world st)))) = NetOk →
  length (filter (λ r, SettingsRow.user_id r = UserContext.userId ctx)
                 (user_settings (db (world st)))) ≤ 1 →
  ∃ s',
    (getUserSettings (saveUserSettings settings st).2).1 = Normal (Some s')
    ∧ UserSettings.providerSettings s'
      = Some (default empty_object (UserSettings.providerSettings settings))
    ∧ UserSettings.mcpSettings s'
      = Some (default empty_object (UserSettings.mcpSettings settings))
    ∧ UserSettings.autoEnabledProviders s'
      = Some (default [] (UserSettings.autoEnabledProviders settings))
    ∧ UserSettings.viewedFeatures s'
      = Some (default [] (UserSettings.viewedFeatures settings))
    ∧ (is_Some (UserSettings.theme settings) →
       UserSettings.theme s' = UserSettings.theme settings)
    ∧ (is_Some (UserSettings.githubConnection settings) →
       UserSettings.githubConnection s'
       = UserSettings.githubConnection settings)
    ∧ (is_Some (UserSettings.gitlabConnection settings) →
       UserSettings.gitlabConnection s'
       = UserSettings.gitlabConnection settings)
    ∧ (is_Some (UserSettings.vercelConnection settings) →
       UserSettings.vercelConnection s'
       = UserSettings.vercelConnection settings)
    ∧ (is_Some (UserSettings.netlifyConnection settings) →
       UserSettings.netlifyConnection s'
       = UserSettings.netlifyConnection settings)
    ∧ (is_Some (UserSettings.supabaseConnection settings) →
       UserSettings.supabaseConnection s'
       = UserSettings.supabaseConnection settings).
Proof.
  intros Hs Hc Hf1 Hf2 Hle.
  rewrite (saveUserSettings_served settings st ctx Hs Hc Hf1).
  set (p := settings_row_of (UserContext.userId ctx) settings).
  set (w1 := log_request (mkRequest UPSERT "user_settings") (world st)).
  destruct (upsert_user_settings_one p w1 Hle) as (Fr & Ff & r & Hone & Hr).
  rewrite (getUserSettings_served _ ctx); simpl; [|done|done|].
  - match goal with
    | |- context [filter ?Q (user_settings ?D)] =>
        rewrite (list_filter_iff Q (settings_conflict p) (user_settings D))
          by done
    end.
    rewrite Hone. eexists. split; [reflexivity|].
    destruct Hr as [->|[old ->]]; simpl;
      repeat split; try done; intros [x Hx]; rewrite Hx; done.
  - rewrite Fr, Ff. subst w1. simpl. by rewrite next_request.
Qed.

Lemma saveUserSettings_then_getUserSettings_witness :
  ∃ s',
    (getUserSettings (saveUserSettings settings0 (signed_in true never)).2).1
    = Normal (Some s')
    ∧ UserSettings.theme s' = Some "dark"
    ∧ UserSettings.providerSettings s' = Some "{}".
Proof.
  destruct (saveUserSettings_then_getUserSettings settings0 alice
              (signed_in true never))
    as (s' & H1 & H2 & _ & _ & _ & H3 & _).
  - reflexivity.
  - reflexivity.
  - reflexivity.
  - reflexivity.
  - simpl. lia.
  - exists s'. split; [exact H1|]. split; [|exact H2].
    apply H3. eexists. reflexivity.
Defined.
